(** * Forensics lookup tools: a shallow embedding of the four lookup classes

    The development follows the Python sources
    [arin_whois_lookup.py], [ip_reputation_lookup.py],
    [ip_geolocation_lookup.py] and [mac_address_vendor_lookup.py].

    Layout:
    - Python values as decoded by [json.loads] / [response.json()],
      and the built-ins the classes call on them ([json.dumps],
      [str.strip], [str.split], [int], subscripting, truth testing,
      f-string formatting);
    - the effects of the program: the console written by
      [colorized_text], the class attributes [ArinWhois.data] and
      [MacAddressLookup.data], the HTTP requests, [sys.exit] and
      uncaught exceptions, in one state-and-outcome monad;
    - one module per class, each function under its source name;
    - the properties. *)

From Stdlib Require Import ZArith NArith List String Ascii Bool Lia.
From Stdlib Require Import Decimal DecimalString DecimalZ DecimalN.
Import ListNotations.

Local Open Scope string_scope.
Local Open Scope Z_scope.

Set Warnings "-register-all".

(** ** Python values *)

(** A Python [float], kept as the decimal that [float.__repr__] prints:
    a sign, the significant digits and the position of the decimal point
    (the value is [0.d1d2...dn * 10^decpt]); or one of the three
    non-finite values that [json.loads] also accepts. *)
Inductive pyfloat : Type :=
| FNaN
| FInf (negative : bool)
| FDec (negative : bool) (digits : N) (decpt : Z).

(** The objects [json.loads] builds: [None], [bool], [int], [float],
    [str], [list] and [dict].  A [dict] keeps its insertion order; its
    keys are strings and are pairwise distinct (a repeated key of the
    JSON text has already been resolved by the decoder).  A [str] is a
    sequence of code points below 256. *)
Inductive json : Type :=
| JNull
| JBool (b : bool)
| JInt (z : Z)
| JFloat (f : pyfloat)
| JStr (s : string)
| JArr (items : list json)
| JObj (fields : list (string * json)).

(** Exceptions the sources can meet.  The [requests] exceptions are all
    subclasses of [requests.RequestException]. *)
Inductive request_error : Type :=
| ConnectTimeout      (* ConnectionError and Timeout *)
| ReadTimeout         (* Timeout *)
| ConnectionError     (* ConnectionError, not a Timeout *)
| InvalidJSONError    (* requests.exceptions.JSONDecodeError *)
| OtherRequestError.  (* e.g. TooManyRedirects *)

Inductive exn : Type :=
| KeyError
| IndexError
| TypeError
| ValueError
| JSONDecodeError                                   (* json.JSONDecodeError *)
| RequestException (kind : request_error) (msg : string).

(** How a call ends: it returns, the process exits through [sys.exit],
    or an exception leaves the call. *)
Inductive outcome (A : Type) : Type :=
| Returned (a : A)
| Exited (code : Z)
| Raised (e : exn).
Arguments Returned {A} a.
Arguments Exited {A} code.
Arguments Raised {A} e.

Definition obind {A B} (o : outcome A) (f : A -> outcome B) : outcome B :=
  match o with
  | Returned a => f a
  | Exited c => Exited c
  | Raised e => Raised e
  end.

(** ** Characters *)

Definition dquote : ascii := "034"%char.
Definition backslash : ascii := "092"%char.
Definition squote : ascii := "039"%char.
Definition char_bs : ascii := "008"%char.
Definition char_tab : ascii := "009"%char.
Definition char_nl : ascii := "010"%char.
Definition char_ff : ascii := "012"%char.
Definition char_cr : ascii := "013"%char.

Definition str1 (c : ascii) : string := String c EmptyString.

Definition hex_digit (n : nat) : ascii :=
  match n with
  | 0 => "0" | 1 => "1" | 2 => "2" | 3 => "3" | 4 => "4" | 5 => "5"
  | 6 => "6" | 7 => "7" | 8 => "8" | 9 => "9" | 10 => "a" | 11 => "b"
  | 12 => "c" | 13 => "d" | 14 => "e" | _ => "f"
  end%nat%char.

Definition hex2 (c : ascii) : string :=
  let n := nat_of_ascii c in
  String (hex_digit (n / 16)) (str1 (hex_digit (n mod 16))).

Definition is_digit (c : ascii) : bool :=
  let n := nat_of_ascii c in ((48 <=? n) && (n <=? 57))%nat.

(** [Py_UNICODE_ISSPACE] on the code points below 256. *)
Definition is_space (c : ascii) : bool :=
  let n := nat_of_ascii c in
  (((9 <=? n) && (n <=? 13)) || ((28 <=? n) && (n <=? 32))
   || (n =? 133) || (n =? 160))%nat.

(** ** [str] methods *)

(** [s.lstrip(chars)], [s.rstrip(chars)] and [s.strip(chars)], the set
    [chars] given by its membership test. *)
Fixpoint lstrip (drop : ascii -> bool) (s : string) : string :=
  match s with
  | EmptyString => EmptyString
  | String c r => if drop c then lstrip drop r else s
  end.

Fixpoint rstrip (drop : ascii -> bool) (s : string) : string :=
  match s with
  | EmptyString => EmptyString
  | String c r =>
      match rstrip drop r with
      | EmptyString => if drop c then EmptyString else str1 c
      | r' => String c r'
      end
  end.

Definition strip (drop : ascii -> bool) (s : string) : string :=
  rstrip drop (lstrip drop s).

(** [s.strip(chars)] with the double quote as the only character of
    [chars]. *)
Definition strip_quotes (s : string) : string := strip (Ascii.eqb dquote) s.

(** [s.split(sep=" ", maxsplit=1)[0]]: the text before the first space,
    the whole text when it has none. *)
Fixpoint split_space_first (s : string) : string :=
  match s with
  | EmptyString => EmptyString
  | String c r => if Ascii.eqb c " " then EmptyString
                  else String c (split_space_first r)
  end.

(** [sep.join(parts)] *)
Fixpoint join (sep : string) (parts : list string) : string :=
  match parts with
  | [] => EmptyString
  | [p] => p
  | p :: rest => p ++ sep ++ join sep rest
  end.

(** ** Numbers as text *)

(** [int.__repr__] *)
Definition int_repr (z : Z) : string := NilZero.string_of_int (Z.to_int z).

(** [n] copies of the character ["0"]. *)
Fixpoint zeros (n : nat) : string :=
  match n with
  | O => EmptyString
  | S k => String "0" (zeros k)
  end.

Definition substring_from (n : nat) (s : string) : string :=
  substring n (String.length s - n) s.

(** The exponent of a float in exponent notation: a sign and at least
    two digits. *)
Definition exponent_text (e : Z) : string :=
  let a := NilZero.string_of_uint (N.to_uint (Z.abs_N e)) in
  (if e <? 0 then "-" else "+")
    ++ (if (String.length a <? 2)%nat then "0" ++ a else a).

(** [float.__repr__] of a finite float (format code ['r'] of
    [PyOS_double_to_string] with [Py_DTSF_ADD_DOT_0]): exponent notation
    when [decpt <= -4] or [decpt > 16], positional notation otherwise. *)
Definition finite_repr (negative : bool) (digits : N) (decpt : Z) : string :=
  let ds := NilZero.string_of_uint (N.to_uint digits) in
  let n := Z.of_nat (String.length ds) in
  let sign := if negative then "-" else EmptyString in
  sign ++
  match digits with
  | N0 => "0.0"
  | _ =>
    if (decpt <=? -4) || (16 <? decpt) then
      substring 0 1 ds
        ++ (if 1 <? n then "." ++ substring_from 1 ds else EmptyString)
        ++ "e" ++ exponent_text (decpt - 1)
    else if decpt <=? 0 then
      "0." ++ zeros (Z.to_nat (- decpt)) ++ ds
    else if decpt <? n then
      substring 0 (Z.to_nat decpt) ds ++ "." ++ substring_from (Z.to_nat decpt) ds
    else
      ds ++ zeros (Z.to_nat (decpt - n)) ++ ".0"
  end.

(** [float.__repr__], also what [str] and an f-string print. *)
Definition float_repr (f : pyfloat) : string :=
  match f with
  | FNaN => "nan"
  | FInf false => "inf"
  | FInf true => "-inf"
  | FDec s d p => finite_repr s d p
  end.

(** What [json.dumps] prints for a float. *)
Definition float_json (f : pyfloat) : string :=
  match f with
  | FNaN => "NaN"
  | FInf false => "Infinity"
  | FInf true => "-Infinity"
  | FDec s d p => finite_repr s d p
  end.

(** ** [json.dumps] *)

(** One character of [json.encoder.encode_basestring_ascii]. *)
Definition escape_ascii (c : ascii) : string :=
  if Ascii.eqb c dquote then String backslash (str1 dquote)
  else if Ascii.eqb c backslash then String backslash (str1 backslash)
  else if Ascii.eqb c char_nl then String backslash "n"
  else if Ascii.eqb c char_cr then String backslash "r"
  else if Ascii.eqb c char_tab then String backslash "t"
  else if Ascii.eqb c char_bs then String backslash "b"
  else if Ascii.eqb c char_ff then String backslash "f"
  else
    let n := nat_of_ascii c in
    if ((32 <=? n) && (n <=? 126))%nat then str1 c
    else String backslash ("u00" ++ hex2 c).

Fixpoint escape_body (s : string) : string :=
  match s with
  | EmptyString => EmptyString
  | String c r => escape_ascii c ++ escape_body r
  end.

Definition encode_basestring_ascii (s : string) : string :=
  String dquote (escape_body s) ++ str1 dquote.

(** [json.dumps(v)] with the default arguments: [ensure_ascii=True],
    separators [", "] and [": "], no indentation. *)
Fixpoint json_dumps (v : json) : string :=
  match v with
  | JNull => "null"
  | JBool true => "true"
  | JBool false => "false"
  | JInt z => int_repr z
  | JFloat f => float_json f
  | JStr s => encode_basestring_ascii s
  | JArr items => "[" ++ join ", " (map json_dumps items) ++ "]"
  | JObj fields =>
      "{" ++ join ", "
               (map (fun kv => encode_basestring_ascii (fst kv)
                                 ++ ": " ++ json_dumps (snd kv)) fields)
          ++ "}"
  end.

(** ** [int(text)] *)

(** The digits of a decimal literal: digits, single underscores allowed
    between two digits. *)
Fixpoint int_digits (after_digit : bool) (s : string) : option string :=
  match s with
  | EmptyString => if after_digit then Some EmptyString else None
  | String c r =>
      if is_digit c then option_map (String c) (int_digits true r)
      else if Ascii.eqb c "_" then
        if after_digit then int_digits false r else None
      else None
  end.

Definition unsigned_of_text (s : string) : outcome Z :=
  match int_digits false s with
  | Some ds =>
      match NilEmpty.uint_of_string ds with
      | Some u => Returned (Z.of_uint u)
      | None => Raised ValueError
      end
  | None => Raised ValueError
  end.

(** [int(s)] for a [str] argument, base 10: surrounding whitespace, an
    optional sign, then the digits; [ValueError] otherwise. *)
Definition py_int (s : string) : outcome Z :=
  match strip is_space s with
  | String c r =>
      if Ascii.eqb c "-" then obind (unsigned_of_text r) (fun n => Returned (- n))
      else if Ascii.eqb c "+" then unsigned_of_text r
      else unsigned_of_text (String c r)
  | EmptyString => Raised ValueError
  end.

(** ** Truth value, subscripting, [repr] and [str] *)

Definition is_empty {A} (l : list A) : bool :=
  match l with [] => true | _ => false end.

(** [bool(v)], as tested by [if v:] and [if not v:]. *)
Definition truthy (v : json) : bool :=
  match v with
  | JNull => false
  | JBool b => b
  | JInt z => negb (z =? 0)
  | JFloat (FDec _ N0 _) => false
  | JFloat _ => true
  | JStr s => negb (String.eqb s EmptyString)
  | JArr items => negb (is_empty items)
  | JObj fields => negb (is_empty fields)
  end.

(** [d.get(k)] on the association list of a [dict]. *)
Fixpoint dict_get (k : string) (fields : list (string * json)) : option json :=
  match fields with
  | [] => None
  | (k', v) :: rest => if String.eqb k k' then Some v else dict_get k rest
  end.

(** [v[k]] for a string [k]. *)
Definition getitem (v : json) (k : string) : outcome json :=
  match v with
  | JObj fields =>
      match dict_get k fields with
      | Some x => Returned x
      | None => Raised KeyError
      end
  | _ => Raised TypeError
  end.

(** [v[i]] for an integer [i]. *)
Definition getitem_int (v : json) (i : Z) : outcome json :=
  match v with
  | JArr items =>
      let n := Z.of_nat (List.length items) in
      let j := if i <? 0 then i + n else i in
      if (0 <=? j) && (j <? n)
      then match nth_error items (Z.to_nat j) with
           | Some x => Returned x
           | None => Raised IndexError
           end
      else Raised IndexError
  | JStr s =>
      let n := Z.of_nat (String.length s) in
      let j := if i <? 0 then i + n else i in
      if (0 <=? j) && (j <? n)
      then match String.get (Z.to_nat j) s with
           | Some c => Returned (JStr (str1 c))
           | None => Raised IndexError
           end
      else Raised IndexError
  | JObj _ => Raised KeyError
  | _ => Raised TypeError
  end.

(** [v[k1][k2]...[kn]] *)
Fixpoint getpath (v : json) (path : list string) : outcome json :=
  match path with
  | [] => Returned v
  | k :: rest => obind (getitem v k) (fun x => getpath x rest)
  end.

Fixpoint contains_char (c : ascii) (s : string) : bool :=
  match s with
  | EmptyString => false
  | String a r => Ascii.eqb a c || contains_char c r
  end.

(** One character of [repr] of a [str] whose quote is [q]. *)
Definition repr_char (q c : ascii) : string :=
  let n := nat_of_ascii c in
  if Ascii.eqb c q || Ascii.eqb c backslash then String backslash (str1 c)
  else if Ascii.eqb c char_tab then String backslash "t"
  else if Ascii.eqb c char_nl then String backslash "n"
  else if Ascii.eqb c char_cr then String backslash "r"
  else if ((n <? 32) || (n =? 127)
           || ((128 <=? n) && (n <=? 160)) || (n =? 173))%nat
  then String backslash ("x" ++ hex2 c)
  else str1 c.

Fixpoint repr_body (q : ascii) (s : string) : string :=
  match s with
  | EmptyString => EmptyString
  | String c r => repr_char q c ++ repr_body q r
  end.

(** [repr(s)] of a [str]: single quotes, unless [s] holds a single quote
    and no double quote. *)
Definition str_repr (s : string) : string :=
  let q := if contains_char squote s && negb (contains_char dquote s)
           then dquote else squote in
  String q (repr_body q s) ++ str1 q.

(** [repr(v)] *)
Fixpoint py_repr (v : json) : string :=
  match v with
  | JNull => "None"
  | JBool true => "True"
  | JBool false => "False"
  | JInt z => int_repr z
  | JFloat f => float_repr f
  | JStr s => str_repr s
  | JArr items => "[" ++ join ", " (map py_repr items) ++ "]"
  | JObj fields =>
      "{" ++ join ", "
               (map (fun kv => str_repr (fst kv) ++ ": " ++ py_repr (snd kv))
                    fields)
          ++ "}"
  end.

(** [str(v)], the text an f-string puts for [{v}]. *)
Definition py_str (v : json) : string :=
  match v with
  | JStr s => s
  | _ => py_repr v
  end.

(** ** The world of a run *)

(** An HTTP request as the classes build it. *)
Record request : Type := mk_request {
  url : string;
  headers : list (string * string);
  params : list (string * string)
}.

(** The body of a response: text that decodes to a value, or text that
    the JSON decoder rejects with an error message. *)
Inductive body : Type :=
| JSONText (v : json)
| NotJSON (error_text : string).

Record response : Type := mk_response {
  status_code : Z;
  text : body
}.

(** What the network does with a request: a response comes back, or
    [requests] raises. *)
Inductive reply : Type :=
| Answer (r : response)
| Failure (kind : request_error) (msg : string).

(** The remote services: the reply to the [n]-th request of the run. *)
Definition network : Type := nat -> request -> reply.

(** The state a run changes: the class attribute [data] of [ArinWhois]
    and of [MacAddressLookup] (both start as the empty dict), the lines
    written to the console with their colour, and how many requests have
    been sent. *)
Record world : Type := mk_world {
  arin_data : json;
  mac_data : json;
  console : list (string * string);
  requests_sent : nat
}.

Definition initial_world : world :=
  {| arin_data := JObj []; mac_data := JObj [];
     console := []; requests_sent := 0 |}.

(** A computation: from a world to how it ends and the world it leaves. *)
Definition M (A : Type) : Type := world -> outcome A * world.

Definition ret {A} (a : A) : M A := fun w => (Returned a, w).

Definition bind {A B} (m : M A) (f : A -> M B) : M B :=
  fun w =>
    match m w with
    | (Returned a, w') => f a w'
    | (Exited c, w') => (Exited c, w')
    | (Raised e, w') => (Raised e, w')
    end.

Definition lift {A} (o : outcome A) : M A := fun w => (o, w).

Declare Scope py_scope.
Delimit Scope py_scope with py.
Notation "x <- m ;; k" := (bind m (fun x => k))
  (at level 61, m at next level, right associativity) : py_scope.
Notation "m ;; k" := (bind m (fun _ => k))
  (at level 61, right associativity) : py_scope.
Notation "'let!' x := o 'in' k" := (obind o (fun x => k))
  (at level 10, x name, o at level 100, k at level 200) : py_scope.
Local Open Scope py_scope.

(** [sys.exit(code)] *)
Definition sys_exit {A} (code : Z) : M A := fun w => (Exited code, w).

(** [try: m  except <clauses>]: [handler e] is the body of the first
    clause that matches [e], [None] when no clause does.  [SystemExit]
    is matched by none of the clauses of the sources. *)
Definition try_except {A} (m : M A) (handler : exn -> option (M A)) : M A :=
  fun w =>
    match m w with
    | (Raised e, w') =>
        match handler e with
        | Some h => h w'
        | None => (Raised e, w')
        end
    | r => r
    end.

(** Modelled from the spec: [utilities.colorized_text.colorized_text] is
    not among the sources; the spec has every reported error surface as
    a human-readable message on the console.  The call appends the text
    and its colour to the console. *)
Definition colorized_text (text color : string) : M unit :=
  fun w => (Returned tt,
            {| arin_data := arin_data w; mac_data := mac_data w;
               console := console w ++ [(text, color)];
               requests_sent := requests_sent w |}).

(** [sleep(randint(a=1, b=3))]: time is not part of the world. *)
Definition sleep_randint_1_3 : M unit := ret tt.

(** [requests.get(url, timeout=(5, 10))] and [requests.request('GET', ...)]:
    the network answers the request, or the call raises. *)
Definition requests_request (net : network) (req : request) : M response :=
  fun w =>
    let w' := {| arin_data := arin_data w; mac_data := mac_data w;
                 console := console w;
                 requests_sent := S (requests_sent w) |} in
    match net (requests_sent w) req with
    | Answer r => (Returned r, w')
    | Failure kind msg => (Raised (RequestException kind msg), w')
    end.

(** [response.json()] *)
Definition response_json (r : response) : outcome json :=
  match text r with
  | JSONText v => Returned v
  | NotJSON msg => Raised (RequestException InvalidJSONError msg)
  end.

(** [json.loads(response.text)] *)
Definition json_loads_text (r : response) : outcome json :=
  match text r with
  | JSONText v => Returned v
  | NotJSON _ => Raised JSONDecodeError
  end.

(** [except requests.ConnectionError] and [except requests.Timeout] *)
Definition is_ConnectionError (k : request_error) : bool :=
  match k with ConnectTimeout | ConnectionError => true | _ => false end.

Definition is_Timeout (k : request_error) : bool :=
  match k with ConnectTimeout | ReadTimeout => true | _ => false end.

(** The argument of a lookup class: a [str], a [list] of [str], or an
    object that is neither. *)
Inductive lookup_value : Type :=
| LStr (s : string)
| LList (items : list string)
| LOther.

(** [None] for a missing value, the value otherwise. *)
Definition or_None (o : option json) : json :=
  match o with Some v => v | None => JNull end.

(** ** [arin_whois_lookup.py] *)

Module ArinWhois.

Definition org_path : list string := ["net"; "orgRef"; "@name"].
Definition start_path : list string :=
  ["net"; "netBlocks"; "netBlock"; "startAddress"; "$"].
Definition end_path : list string :=
  ["net"; "netBlocks"; "netBlock"; "endAddress"; "$"].
Definition cidr_path : list string :=
  ["net"; "netBlocks"; "netBlock"; "cidrLength"; "$"].

(** Reading and writing the class attribute [ArinWhois.data]. *)
Definition get_data : M json := fun w => (Returned (arin_data w), w).

Definition set_data (d : json) : M unit :=
  fun w => (Returned tt,
            {| arin_data := d; mac_data := mac_data w;
               console := console w; requests_sent := requests_sent w |}).

(** [cls.data[k1]...[kn]] *)
Definition data_at (path : list string) : M json :=
  d <- get_data ;; lift (getpath d path).

(** The clause [except KeyError: colorized_text(text=msg, color='red')]. *)
Definition except_KeyError (msg : string) (e : exn) : option (M (option json)) :=
  match e with
  | KeyError => Some (colorized_text msg "red" ;; ret None)
  | _ => None
  end.

Section Remote.
Variable net : network.

Definition _get_whois_json (ip_address : string) : M json :=
  sleep_randint_1_3 ;;
  r <- try_except
         (response <- requests_request net
                        (mk_request ("https://whois.arin.net/rest/ip/"
                                       ++ ip_address ++ ".json") [] []) ;;
          if status_code response =? 200 then
            d <- lift (response_json response) ;;
            set_data d ;;
            d' <- get_data ;;
            ret (Some d')
          else ret None)
         (fun e =>
            match e with
            | RequestException kind msg =>
                if is_Timeout kind then
                  Some (colorized_text
                          ("Request timed out for IP address " ++ ip_address)
                          "red" ;; ret None)
                else
                  Some (colorized_text ("An error occurred: " ++ msg) "red" ;;
                        ret None)
            | _ => None
            end) ;;
  ret (or_None r).

End Remote.

Definition _get_registered_organization : M json :=
  r <- try_except
         (v <- data_at org_path ;;
          if negb (truthy v) then
            ret (Some (JStr "registered organization unavailable"))
          else
            v' <- data_at org_path ;;
            if truthy v' then
              v'' <- data_at org_path ;; ret (Some v'')
            else ret None)
         (except_KeyError "Registered_organization is not present in JSON data") ;;
  ret (or_None r).

Definition _get_network_range : M json :=
  r <- try_except
         (v <- data_at start_path ;;
          if negb (truthy v) then
            ret (Some (JStr "netblock range unavailable"))
          else
            v' <- data_at start_path ;;
            if truthy v' then
              starting_ip_address <- data_at start_path ;;
              ending_ip_address <- data_at end_path ;;
              ret (Some (JStr (py_str starting_ip_address ++ "-"
                                 ++ py_str ending_ip_address)))
            else ret None)
         (except_KeyError
            "The JSON keys to obtain the network range were invalid.") ;;
  ret (or_None r).

Definition _get_cidr_range : M json :=
  r <- try_except
         (v <- data_at start_path ;;
          if negb (truthy v) then
            ret (Some (JStr "CIDR range unavailable"))
          else
            v' <- data_at start_path ;;
            if truthy v' then
              starting_ip_address <- data_at start_path ;;
              cidr_subnet_range <- data_at cidr_path ;;
              ret (Some (JStr (py_str starting_ip_address ++ "/"
                                 ++ py_str cidr_subnet_range)))
            else ret None)
         (except_KeyError
            "The JSON keys to obtain the CIDR range were invalid.") ;;
  ret (or_None r).

(** The three extraction calls and the dict they fill. *)
Definition read_fields (item : string) : M json :=
  registered_organization <- _get_registered_organization ;;
  network_range <- _get_network_range ;;
  cidr_range <- _get_cidr_range ;;
  ret (JObj [("ip_address", JStr item);
             ("organization", registered_organization);
             ("network", network_range);
             ("cidr", cidr_range)]).

Section Query.
Variable net : network.

(** One turn of the lookup, the same statements in the [str] branch and
    in the body of the loop: the fetch, whose result is dropped, then
    the Record for [item] read from [ArinWhois.data]. *)
Definition lookup_one (item : string) : M json :=
  _get_whois_json net item ;;
  read_fields item.

(** The [for item in self.lookup_value] loop, [data_elements] being the
    list built so far. *)
Fixpoint query_loop (items : list string) (data_elements : list json)
  : M json :=
  match items with
  | [] => ret (JArr data_elements)
  | item :: rest =>
      data <- lookup_one item ;;
      query_loop rest (data_elements ++ [data])
  end.

Definition query_whois (self_lookup_value : lookup_value) : M json :=
  match self_lookup_value with
  | LStr s => lookup_one s
  | LList items => query_loop items []
  | LOther => ret JNull
  end.

End Query.

End ArinWhois.

(** ** [ip_reputation_lookup.py] *)

Module IPReputation.

(** [json.dumps(decoded_response["errors"][0]['detail'])], then the
    double quotes stripped from both ends. *)
Definition error_detail (decoded_response : json) : outcome string :=
  let! errors := getitem decoded_response "errors" in
  let! first := getitem_int errors 0 in
  let! detail := getitem first "detail" in
  Returned (strip_quotes (json_dumps detail)).

Definition report_error_detail (decoded_response : json) : M (option json) :=
  error_message <- lift (error_detail decoded_response) ;;
  colorized_text error_message "red" ;;
  ret None.

Section Remote.
Variable net : network.

Definition _get_json_data (ip_address api_key : string) : M json :=
  sleep_randint_1_3 ;;
  let url := "https://api.abuseipdb.com/api/v2/check" in
  let querystring := [("ipAddress", ip_address); ("maxAgeInDays", "90")] in
  let headers := [("Accept", "application/json"); ("Key", api_key)] in
  r <- try_except
         (response <- requests_request net (mk_request url headers querystring) ;;
          decoded_response <- lift (json_loads_text response) ;;
          if status_code response =? 401 then
            report_error_detail decoded_response
          else if status_code response =? 422 then
            report_error_detail decoded_response
          else if status_code response =? 429 then
            report_error_detail decoded_response
          else if status_code response =? 200 then
            ret (Some decoded_response)
          else ret None)
         (fun e =>
            match e with
            | RequestException kind _ =>
                if is_ConnectionError kind then
                  Some (colorized_text "A ConnectionError has occurred." "red" ;;
                        sys_exit 1)
                else if is_Timeout kind then
                  Some (colorized_text "A connection timeout has occurred." "red" ;;
                        sys_exit 1)
                else None
            | _ => None
            end) ;;
  ret (or_None r).

End Remote.

Definition _determine_abuse_level (confidence_score : Z) : option string :=
  if confidence_score =? 0 then
    Some "not malicious"
  else if confidence_score =? 100 then
    Some "is malicious and warrants additional investigation"
  else if (confidence_score <? 100) && (25 <? confidence_score) then
    Some "likley malicious and warrants further investigation"
  else if (0 <? confidence_score) && (confidence_score <=? 25) then
    Some "likley not malicious but warrants further investigation"
  else None.

(** [json.dumps(json_data["data"][key])] *)
Definition dumps_data (json_data : json) (key : string) : outcome string :=
  let! data := getitem json_data "data" in
  let! v := getitem data key in
  Returned (json_dumps v).

Definition str_or_None (o : option string) : json :=
  match o with Some s => JStr s | None => JNull end.

Definition _decoded_json (json_data : json) : outcome json :=
  let! ip_address := dumps_data json_data "ipAddress" in
  let! domain_name := dumps_data json_data "domain" in
  let! host_name := dumps_data json_data "hostnames" in
  let! usage_type := dumps_data json_data "usageType" in
  let! isp_name := dumps_data json_data "isp" in
  let! country_code := dumps_data json_data "countryCode" in
  let! confidence_of_abuse := dumps_data json_data "abuseConfidenceScore" in
  let! score := py_int confidence_of_abuse in
  let level_of_abuse := _determine_abuse_level score in
  let! white_listed := dumps_data json_data "isWhitelisted" in
  let! tor_node := dumps_data json_data "isTor" in
  let! times_reported := dumps_data json_data "totalReports" in
  let! date_last_reported := dumps_data json_data "lastReportedAt" in
  Returned
    (JObj [("ip_address", JStr (strip_quotes ip_address));
           ("domain_name", JStr (strip_quotes domain_name));
           ("host_name", JStr host_name);
           ("usage_type", JStr (strip_quotes usage_type));
           ("isp_name", JStr (strip_quotes isp_name));
           ("country_code", JStr (strip_quotes country_code));
           ("confidence_of_abuse", JStr (strip_quotes confidence_of_abuse));
           ("level_of_abuse", str_or_None level_of_abuse);
           ("white_listed", JStr (strip_quotes white_listed));
           ("tor_node", JStr (strip_quotes tor_node));
           ("number_of_times_reported", JStr (strip_quotes times_reported));
           ("date_last_reported", JStr (strip_quotes date_last_reported))]).

Section Query.
Variable net : network.

(** The [for item in self.lookup_value] loop. *)
Fixpoint query_loop (api_key : string) (items : list string)
    (data_elements : list json) : M json :=
  match items with
  | [] => ret (JArr data_elements)
  | item :: rest =>
      data <- _get_json_data net item api_key ;;
      if truthy data then
        record <- lift (_decoded_json data) ;;
        query_loop api_key rest (data_elements ++ [record])
      else query_loop api_key rest data_elements
  end.

Definition query_abuse_database (self_lookup_value : lookup_value)
    (self_api_key : string) : M json :=
  match self_lookup_value with
  | LStr s =>
      data <- _get_json_data net s self_api_key ;;
      if truthy data then lift (_decoded_json data) else ret JNull
  | LList items => query_loop self_api_key items []
  | LOther => ret JNull
  end.

End Query.

End IPReputation.

(** ** [ip_geolocation_lookup.py] *)

Module IPGeoLocation.

(** [v == s] for a string literal [s]. *)
Definition eq_str (v : json) (s : string) : bool :=
  match v with JStr t => String.eqb t s | _ => false end.

Section Remote.
Variable net : network.

Definition _get_json_data (ip_address : string) : M json :=
  sleep_randint_1_3 ;;
  r <- try_except
         (response <- requests_request net
                        (mk_request ("http://ip-api.com/json/" ++ ip_address)
                                    [] []) ;;
          decoded_response <- lift (json_loads_text response) ;;
          if status_code response =? 200 then
            query_status <- lift (getitem decoded_response "status") ;;
            if eq_str query_status "fail" then
              colorized_text
                ("The query failed. Please review your input data for "
                   ++ ip_address) "red" ;;
              ret None
            else if eq_str query_status "success" then
              ret (Some decoded_response)
            else ret None
          else ret None)
         (fun e =>
            match e with
            | RequestException kind _ =>
                if is_ConnectionError kind then
                  Some (colorized_text "A ConnectionError has occurred." "red" ;;
                        sys_exit 1)
                else if is_Timeout kind then
                  Some (colorized_text "A connection timeout has occurred." "red" ;;
                        sys_exit 1)
                else None
            | _ => None
            end) ;;
  ret (or_None r).

End Remote.

(** [json.dumps(json_data[key])] *)
Definition dumps_field (json_data : json) (key : string) : outcome string :=
  let! v := getitem json_data key in
  Returned (json_dumps v).

Definition _decoded_json (json_data : json) : outcome json :=
  let! ip_address := dumps_field json_data "query" in
  let! organization_name := dumps_field json_data "org" in
  let! isp_name := dumps_field json_data "isp" in
  let! country_code := dumps_field json_data "countryCode" in
  let! region_name := dumps_field json_data "regionName" in
  let! city_name := dumps_field json_data "city" in
  let! longitude := dumps_field json_data "lat" in
  let! latitude := dumps_field json_data "lon" in
  let! timezone := dumps_field json_data "timezone" in
  let! as_text := dumps_field json_data "as" in
  let as_number := split_space_first as_text in
  Returned
    (JObj [("ip_address", JStr (strip_quotes ip_address));
           ("domain_name", JStr (strip_quotes organization_name));
           ("as_number", JStr (strip_quotes as_number));
           ("isp_name", JStr (strip_quotes isp_name));
           ("country_code", JStr (strip_quotes country_code));
           ("region_name", JStr region_name);
           ("city_name", JStr (strip_quotes city_name));
           ("longitude", JStr (strip_quotes longitude));
           ("latitude", JStr (strip_quotes latitude));
           ("timezone", JStr (strip_quotes timezone))]).

Section Query.
Variable net : network.

(** The [for item in self.lookup_value] loop. *)
Fixpoint query_loop (items : list string) (data_elements : list json)
  : M json :=
  match items with
  | [] => ret (JArr data_elements)
  | item :: rest =>
      data <- _get_json_data net item ;;
      if truthy data then
        record <- lift (_decoded_json data) ;;
        query_loop rest (data_elements ++ [record])
      else query_loop rest data_elements
  end.

Definition query_geolocation_database (self_lookup_value : lookup_value)
  : M json :=
  match self_lookup_value with
  | LStr s =>
      data <- _get_json_data net s ;;
      if truthy data then lift (_decoded_json data) else ret JNull
  | LList items => query_loop items []
  | LOther => ret JNull
  end.

End Query.

End IPGeoLocation.

(** ** [mac_address_vendor_lookup.py] *)

Module MacAddressLookup.

(** Reading and writing the class attribute [MacAddressLookup.data]. *)
Definition get_data : M json := fun w => (Returned (mac_data w), w).

Definition set_data (d : json) : M unit :=
  fun w => (Returned tt,
            {| arin_data := arin_data w; mac_data := d;
               console := console w; requests_sent := requests_sent w |}).

(** [cls.data[key]] *)
Definition data_at (key : string) : M json :=
  d <- get_data ;; lift (getitem d key).

(** [v is True] and [v is False] *)
Definition is_True (v : json) : bool :=
  match v with JBool true => true | _ => false end.

Definition is_False (v : json) : bool :=
  match v with JBool false => true | _ => false end.

(** The clause [except KeyError: colorized_text(text=msg, color='red')]. *)
Definition except_KeyError (msg : string) (e : exn) : option (M (option json)) :=
  match e with
  | KeyError => Some (colorized_text msg "red" ;; ret None)
  | _ => None
  end.

Section Remote.
Variable net : network.

Definition _get_json_data (hardware_id : string) : M json :=
  sleep_randint_1_3 ;;
  response <- requests_request net
                (mk_request ("https://api.maclookup.app/v2/macs/" ++ hardware_id)
                            [] []) ;;
  if status_code response =? 400 then
    colorized_text "An unknown error has occurred." "red" ;;
    sys_exit 1
  else if status_code response =? 401 then
    colorized_text "An Unauthorized Request has occurred." "red" ;;
    sys_exit 1
  else if status_code response =? 429 then
    colorized_text "Too Many Requests with the Rate Limit period." "red" ;;
    sys_exit 1
  else if status_code response =? 200 then
    d <- lift (response_json response) ;;
    set_data d ;;
    get_data
  else ret JNull.

End Remote.

Definition _get_registered_organization : M json :=
  r <- try_except
         (v <- data_at "isRand" ;;
          if is_True v then ret (Some (JStr "randomly assigned"))
          else
            v' <- data_at "isRand" ;;
            if is_False v' then
              company <- data_at "company" ;; ret (Some company)
            else ret None)
         (except_KeyError "Registered organization is not present in JSON data") ;;
  ret (or_None r).

Definition _get_registered_organization_address : M json :=
  r <- try_except
         (v <- data_at "address" ;;
          if negb (truthy v) then ret (Some (JStr "address unavailable"))
          else
            v' <- data_at "address" ;;
            if truthy v' then
              address <- data_at "address" ;; ret (Some address)
            else ret None)
         (except_KeyError
            "Registered organization's address is not present in JSON data") ;;
  ret (or_None r).

Definition _get_registered_organization_country : M json :=
  r <- try_except
         (v <- data_at "country" ;;
          if negb (truthy v) then ret (Some (JStr "country unavailable"))
          else
            v' <- data_at "country" ;;
            if truthy v' then
              country <- data_at "country" ;; ret (Some country)
            else ret None)
         (except_KeyError
            "Registered organization's country is not present in JSON data") ;;
  ret (or_None r).

(** The three extraction calls and the dict they fill. *)
Definition read_fields (item : string) : M json :=
  registered_organization <- _get_registered_organization ;;
  organization_address <- _get_registered_organization_address ;;
  country <- _get_registered_organization_country ;;
  ret (JObj [("mac_address", JStr item);
             ("registered_organization", registered_organization);
             ("organization_address", organization_address);
             ("country", country)]).

Section Query.
Variable net : network.

(** One turn of the lookup, the same statements in the [str] branch and
    in the body of the loop: the fetch, whose result is dropped, then
    the Record for [item] read from [MacAddressLookup.data]. *)
Definition lookup_one (item : string) : M json :=
  _get_json_data net item ;;
  read_fields item.

(** The [for item in self.lookup_value] loop. *)
Fixpoint query_loop (items : list string) (data_elements : list json)
  : M json :=
  match items with
  | [] => ret (JArr data_elements)
  | item :: rest =>
      data <- lookup_one item ;;
      query_loop rest (data_elements ++ [data])
  end.

Definition lookup_address_information (self_lookup_value : lookup_value)
  : M json :=
  match self_lookup_value with
  | LStr s => lookup_one s
  | LList items => query_loop items []
  | LOther => ret JNull
  end.

End Query.

End MacAddressLookup.

(** ** Sample worlds *)

Definition sample_arin (org first last len : string) : json :=
  JObj [("net",
         JObj [("orgRef", JObj [("@name", JStr org)]);
               ("netBlocks",
                JObj [("netBlock",
                       JObj [("startAddress", JObj [("$", JStr first)]);
                             ("endAddress", JObj [("$", JStr last)]);
                             ("cidrLength", JObj [("$", JStr len)])])])])].

Definition ok (v : json) : reply := Answer (mk_response 200 (JSONText v)).


(** ** Predicates used by the statements *)

(** Every character of [s] passes the test [p]. *)
Fixpoint all_chars (p : ascii -> bool) (s : string) : bool :=
  match s with
  | EmptyString => true
  | String c r => p c && all_chars p r
  end.

Definition not_dquote (c : ascii) : bool := negb (Ascii.eqb dquote c).

(** [int] and [float] values. *)
Definition is_number (v : json) : bool :=
  match v with JInt _ | JFloat _ => true | _ => false end.

(** Every value that the subscripts of [path] are applied to is a dict,
    as far as the keys are present. *)
Fixpoint dicts_along (d : json) (path : list string) : bool :=
  match path with
  | [] => true
  | k :: rest =>
      match d with
      | JObj fields =>
          match dict_get k fields with
          | Some x => dicts_along x rest
          | None => true
          end
      | _ => false
      end
  end.

(** The world with more lines on its console. *)
Definition log (lines : list (string * string)) (w : world) : world :=
  {| arin_data := arin_data w; mac_data := mac_data w;
     console := console w ++ lines; requests_sent := requests_sent w |}.

(** The world after one more request. *)
Definition sent (w : world) : world :=
  {| arin_data := arin_data w; mac_data := mac_data w;
     console := console w; requests_sent := S (requests_sent w) |}.

(** The call ended the process: [sys.exit] or an uncaught exception. *)
Definition terminated {A} (o : outcome A) : Prop :=
  match o with
  | Returned _ => False
  | _ => True
  end.

(** The keys that [IPGeoLocation._decoded_json] reads. *)
Definition geo_keys : list string :=
  ["query"; "org"; "isp"; "countryCode"; "regionName"; "city";
   "lat"; "lon"; "timezone"; "as"].

(** The requests the classes send. *)
Definition arin_request (ip_address : string) : request :=
  mk_request ("https://whois.arin.net/rest/ip/" ++ ip_address ++ ".json") [] [].

Definition abuse_request (ip_address api_key : string) : request :=
  mk_request "https://api.abuseipdb.com/api/v2/check"
             [("Accept", "application/json"); ("Key", api_key)]
             [("ipAddress", ip_address); ("maxAgeInDays", "90")].

Definition geo_request (ip_address : string) : request :=
  mk_request ("http://ip-api.com/json/" ++ ip_address) [] [].

Definition mac_request (hardware_id : string) : request :=
  mk_request ("https://api.maclookup.app/v2/macs/" ++ hardware_id) [] [].

(** The worlds after [ArinWhois.data] or [MacAddressLookup.data] has
    been assigned. *)
Definition with_arin_data (d : json) (w : world) : world :=
  {| arin_data := d; mac_data := mac_data w;
     console := console w; requests_sent := requests_sent w |}.

Definition with_mac_data (d : json) (w : world) : world :=
  {| arin_data := arin_data w; mac_data := d;
     console := console w; requests_sent := requests_sent w |}.

Definition sample_geo : list (string * json) :=
  [("status", JStr "success"); ("country", JStr "United States");
   ("countryCode", JStr "US"); ("region", JStr "VA");
   ("regionName", JStr "Virginia"); ("city", JStr "Ashburn");
   ("zip", JStr "20149");
   ("lat", JFloat (FDec false 3903 2));
   ("lon", JFloat (FDec true 775 2));
   ("timezone", JStr "America/New_York"); ("isp", JStr "Google LLC");
   ("org", JStr "Google Public DNS"); ("as", JStr "AS15169 Google LLC");
   ("query", JStr "8.8.8.8")].

Definition red (text : string) : string * string := (text, "red").

(** Vendor responses: a randomly assigned address and a registered one. *)
Definition sample_mac_random : list (string * json) :=
  [("success", JBool true); ("found", JBool false);
   ("macPrefix", JStr "DA0A1B"); ("company", JStr "Some Vendor");
   ("address", JStr EmptyString); ("country", JStr EmptyString);
   ("isRand", JBool true); ("isPrivate", JBool false)].

Definition sample_mac_vendor : list (string * json) :=
  [("success", JBool true); ("found", JBool true);
   ("macPrefix", JStr "047BCB"); ("company", JStr "Universal Global Scientific");
   ("address", JStr "141, Lane 351, Taiping Road"); ("country", JStr "TW");
   ("isRand", JBool false); ("isPrivate", JBool false)].

(** Reputation responses: a report and an error body. *)
Definition sample_abuse (ip : string) (score : Z) : json :=
  JObj [("data",
         JObj [("ipAddress", JStr ip); ("isPublic", JBool true);
               ("ipVersion", JInt 4); ("isWhitelisted", JBool false);
               ("abuseConfidenceScore", JInt score);
               ("countryCode", JStr "US"); ("usageType", JStr "Data Center");
               ("isp", JStr "Example ISP"); ("domain", JStr "example.net");
               ("hostnames", JArr [JStr "host.example.net"]);
               ("isTor", JBool false); ("totalReports", JInt 3);
               ("numDistinctUsers", JInt 2);
               ("lastReportedAt", JStr "2024-07-01T10:00:00+00:00")])].

Definition abuse_error (detail : string) (status : Z) : json :=
  JObj [("errors", JArr [JObj [("detail", JStr detail); ("status", JInt status)]])].

(** The first request is answered 401, the later ones 200. *)
Definition net_401_then_ok : network :=
  fun n _ =>
    match n with
    | O => Answer (mk_response 401
                     (JSONText (abuse_error "Authentication failed." 401)))
    | _ => ok (sample_abuse "198.51.100.1" 50)
    end.

(** The first request times out, the later ones are answered 200. *)
Definition net_timeout_then_ok (v : json) : network :=
  fun n _ =>
    match n with
    | O => Failure ReadTimeout "Read timed out. (read timeout=10)"
    | _ => ok v
    end.

(** The first request is answered 200 with a body whose [status] is
    [fail], the later ones with a full body. *)
Definition net_fail_then_ok : network :=
  fun n _ =>
    match n with
    | O => ok (JObj [("status", JStr "fail"); ("message", JStr "invalid query");
                     ("query", JStr "not-an-ip")])
    | _ => ok (JObj sample_geo)
    end.

(** Every value on the four paths that the registry extraction walks is
    a dict. *)
Definition arin_shaped (d : json) : bool :=
  dicts_along d ArinWhois.org_path && dicts_along d ArinWhois.start_path
  && dicts_along d ArinWhois.end_path && dicts_along d ArinWhois.cidr_path.

Definition is_dict (d : json) : bool :=
  match d with JObj _ => true | _ => false end.

(** [record.get(key)] for a value that is a dict, [None] for any other
    value. *)
Definition dict_of_key (key : string) (record : json) : option json :=
  match record with
  | JObj fields => dict_get key fields
  | _ => None
  end.

(** A reply that the vendor lookup survives: an answer whose status is
    none of 400, 401 and 429 and whose body, when the status is 200, is
    a JSON object. *)
Definition vendor_served (rp : reply) : bool :=
  match rp with
  | Answer r =>
      negb (status_code r =? 400) && negb (status_code r =? 401)
      && negb (status_code r =? 429)
      && (if status_code r =? 200
          then match text r with JSONText (JObj _) => true | _ => false end
          else true)
  | Failure _ _ => false
  end.

Definition is_returned {A} (o : outcome A) : bool :=
  match o with Returned _ => true | _ => false end.

(** The data that a reply gives the reputation lookup: the body of a 200
    answer when it is true in a boolean context. *)
Definition abuse_yield (rp : reply) : option json :=
  match rp with
  | Answer r =>
      match text r with
      | JSONText d =>
          if (status_code r =? 200) && truthy d then Some d else None
      | NotJSON _ => None
      end
  | Failure _ _ => None
  end.

(** The data that a reply gives the geolocation lookup: the body of a
    200 answer whose [status] is [success]. *)
Definition geo_yield (rp : reply) : option json :=
  match rp with
  | Answer r =>
      match text r with
      | JSONText d =>
          match getitem d "status" with
          | Returned s =>
              if (status_code r =? 200) && IPGeoLocation.eq_str s "success"
              then Some d else None
          | _ => None
          end
      | NotJSON _ => None
      end
  | Failure _ _ => None
  end.

(** The data yielded for the identifiers of a list, in order, when the
    first of them is sent as request number [n]. *)
Fixpoint yielded (yield : reply -> option json) (mk : string -> request)
    (net : network) (n : nat) (items : list string) : list json :=
  match items with
  | [] => []
  | item :: rest =>
      match yield (net n (mk item)) with
      | Some d => d :: yielded yield mk net (S n) rest
      | None => yielded yield mk net (S n) rest
      end
  end.

(** A reply that the reputation lookup survives: a JSON body, with the
    error detail when the status is 401, 422 or 429, and with the fields
    of a report when it yields data. *)
Definition abuse_served (rp : reply) : bool :=
  match rp with
  | Answer r =>
      match text r with
      | JSONText d =>
          let code := status_code r in
          if (code =? 401) || (code =? 422) || (code =? 429)
          then is_returned (IPReputation.error_detail d)
          else if (code =? 200) && truthy d
               then is_returned (IPReputation._decoded_json d)
               else true
      | NotJSON _ => false
      end
  | Failure _ _ => false
  end.

(** A reply that the geolocation lookup survives: a JSON body, which for
    the status 200 has a [status] field and, when it yields data, the
    fields of a location. *)
Definition geo_served (rp : reply) : bool :=
  match rp with
  | Answer r =>
      match text r with
      | JSONText d =>
          if status_code r =? 200 then
            match getitem d "status" with
            | Returned s =>
                if IPGeoLocation.eq_str s "fail" then true
                else if IPGeoLocation.eq_str s "success"
                     then is_returned (IPGeoLocation._decoded_json d)
                     else true
            | _ => false
            end
          else true
      | NotJSON _ => false
      end
  | Failure _ _ => false
  end.

(** The keys of [data] that [IPReputation._decoded_json] reads, in the
    order of the reads. *)
Definition abuse_keys : list string :=
  ["ipAddress"; "domain"; "hostnames"; "usageType"; "isp"; "countryCode";
   "abuseConfidenceScore"; "isWhitelisted"; "isTor"; "totalReports";
   "lastReportedAt"].

Definition has_key (fields : list (string * json)) (k : string) : bool :=
  match dict_get k fields with Some _ => true | None => false end.

(** A reputation body with every field of a report, the confidence
    score an [int]. *)
Definition abuse_complete (d : json) : bool :=
  match getitem d "data" with
  | Returned (JObj fields) =>
      forallb (has_key fields) abuse_keys
      && match dict_get "abuseConfidenceScore" fields with
         | Some (JInt _) => true
         | _ => false
         end
  | _ => false
  end.

(** A geolocation body with every field of a location. *)
Definition geo_complete (d : json) : bool :=
  match d with
  | JObj fields => forallb (has_key fields) geo_keys
  | _ => false
  end.

(** Every request is answered 404. *)
Definition net_404 : network :=
  fun _ _ => Answer (mk_response 404 (NotJSON "Expecting value: line 1 column 1 (char 0)")).

(** The first request is answered 200 with the given body, the later
    ones 404. *)
Definition net_ok_then_404 (v : json) : network :=
  fun n _ =>
    match n with
    | O => ok v
    | _ => Answer (mk_response 404 (NotJSON "Expecting value: line 1 column 1 (char 0)"))
    end.

(** A reputation body whose [data] has no [domain]. *)
Definition abuse_without_domain : json :=
  JObj [("data",
         JObj [("ipAddress", JStr "203.0.113.7"); ("isWhitelisted", JBool false);
               ("abuseConfidenceScore", JInt 0); ("countryCode", JStr "US");
               ("usageType", JStr "Data Center"); ("isp", JStr "Example ISP");
               ("hostnames", JArr []); ("isTor", JBool false);
               ("totalReports", JInt 0); ("lastReportedAt", JNull)])].

(** A registry body without [orgRef]. *)
Definition arin_without_org : json :=
  JObj [("net",
         JObj [("netBlocks",
                JObj [("netBlock",
                       JObj [("startAddress", JObj [("$", JStr "192.0.2.0")]);
                             ("endAddress", JObj [("$", JStr "192.0.2.255")]);
                             ("cidrLength", JObj [("$", JStr "24")])])])])].

(** A vendor body without [country]. *)
Definition mac_without_country : list (string * json) :=
  [("success", JBool true); ("found", JBool true);
   ("macPrefix", JStr "047BCB"); ("company", JStr "Universal Global Scientific");
   ("address", JStr "141, Lane 351, Taiping Road");
   ("isRand", JBool false); ("isPrivate", JBool false)].

(** A geolocation body without [city]. *)
Definition geo_without_city : list (string * json) :=
  [("status", JStr "success"); ("countryCode", JStr "US");
   ("regionName", JStr "Virginia");
   ("lat", JFloat (FDec false 3903 2)); ("lon", JFloat (FDec true 775 2));
   ("timezone", JStr "America/New_York"); ("isp", JStr "Google LLC");
   ("org", JStr "Google Public DNS"); ("as", JStr "AS15169 Google LLC");
   ("query", JStr "8.8.8.8")].

(** ** [cli.py] *)

Module Cli.

(** [print(v)]: the text [str(v)] is written to the console as a line
    without a colour. *)
Definition print (v : json) : M unit :=
  fun w => (Returned tt,
            {| arin_data := arin_data w; mac_data := mac_data w;
               console := console w ++ [(py_str v, EmptyString)];
               requests_sent := requests_sent w |}).

(** The namespace that [parser.parse_args()] returns: the subcommand in
    [args.command] with its arguments; [ip_address] of [arin] is a list
    ([nargs='+']), the other arguments are strings; [NoCommand] when no
    subcommand was given. *)
Inductive namespace : Type :=
| Arin (ip_address : list string)
| Abuse (ip_address api_key : string)
| Geo (ip_address : string)
| Mac (mac_address : string)
| NoCommand.

Section Main.
Variable net : network.
(** The text that [parser.print_help()] writes. *)
Variable help_text : string.

Definition run_arin_whois (ip_address : lookup_value) : M unit :=
  result <- ArinWhois.query_whois net ip_address ;;
  print result.

Definition run_ip_reputation (ip_address : lookup_value) (api_key : string)
  : M unit :=
  result <- IPReputation.query_abuse_database net ip_address api_key ;;
  print result.

Definition run_ip_geolocation (ip_address : lookup_value) : M unit :=
  result <- IPGeoLocation.query_geolocation_database net ip_address ;;
  print result.

Definition run_mac_address_lookup (mac_address : lookup_value) : M unit :=
  result <- MacAddressLookup.lookup_address_information net mac_address ;;
  print result.

(** [main()] from [args = parser.parse_args()] on. *)
Definition main (args : namespace) : M unit :=
  match args with
  | Arin ip_address => run_arin_whois (LList ip_address)
  | Abuse ip_address api_key =>
      run_ip_reputation (LStr ip_address) api_key ;;
      print (JStr api_key)
  | Geo ip_address => run_ip_geolocation (LStr ip_address)
  | Mac mac_address => run_mac_address_lookup (LStr mac_address)
  | NoCommand =>
      print (JStr help_text) ;;
      sys_exit 1
  end.

End Main.

End Cli.

(** ** More predicates used by the statements *)

(** A printable ASCII character other than the double quote and the
    backslash: [json.dumps] prints it as it is. *)
Definition is_plain (c : ascii) : bool :=
  let n := nat_of_ascii c in
  ((32 <=? n) && (n <=? 126))%nat
  && negb (Ascii.eqb c dquote) && negb (Ascii.eqb c backslash).

Definition is_str (v : json) : bool :=
  match v with JStr _ => true | _ => false end.

Definition is_int (v : json) : bool :=
  match v with JInt _ => true | _ => false end.

(** The fields of the geolocation Record that are stripped of double
    quotes: the key read from the response and the key of the Record. *)
Definition geo_stripped : list (string * string) :=
  [("query", "ip_address"); ("org", "domain_name"); ("isp", "isp_name");
   ("countryCode", "country_code"); ("city", "city_name");
   ("lat", "longitude"); ("lon", "latitude"); ("timezone", "timezone")].

(** The same for the reputation Record. *)
Definition abuse_stripped : list (string * string) :=
  [("ipAddress", "ip_address"); ("domain", "domain_name");
   ("usageType", "usage_type"); ("isp", "isp_name");
   ("countryCode", "country_code");
   ("abuseConfidenceScore", "confidence_of_abuse");
   ("isWhitelisted", "white_listed"); ("isTor", "tor_node");
   ("totalReports", "number_of_times_reported");
   ("lastReportedAt", "date_last_reported")].

(** A digit or an underscore, the characters of a decimal literal. *)
Definition digit_or_underscore (c : ascii) : bool :=
  is_digit c || Ascii.eqb c "_".

(** [d.get(k)]: the value under [k], [None] when [d] has no such key. *)
Definition dict_value (fields : list (string * json)) (k : string) : json :=
  or_None (dict_get k fields).

(** The keys of [data] that are read before the confidence score. *)
Definition abuse_keys_before_score : list string :=
  ["ipAddress"; "domain"; "hostnames"; "usageType"; "isp"; "countryCode"].

(** A reputation body whose confidence score is the given value. *)
Definition abuse_with_score (v : json) : json :=
  JObj [("data",
         JObj [("ipAddress", JStr "198.51.100.1"); ("isWhitelisted", JBool false);
               ("abuseConfidenceScore", v);
               ("countryCode", JStr "US"); ("usageType", JStr "Data Center");
               ("isp", JStr "Example ISP"); ("domain", JStr "example.net");
               ("hostnames", JArr []); ("isTor", JBool false);
               ("totalReports", JInt 3); ("lastReportedAt", JNull)])].

(** The one exception that can leave the call is [TypeError]; the call
    does not exit. *)
Definition only_TypeError {A} (o : outcome A) : Prop :=
  match o with
  | Returned _ => True
  | Raised e => e = TypeError
  | Exited _ => False
  end.

(** The path to the net block, the common part of the three paths of
    the range and the CIDR block. *)
Definition netblock_path : list string := ["net"; "netBlocks"; "netBlock"].

(** A registry body whose [netBlock] is a list of two blocks. *)
Definition arin_two_blocks : json :=
  JObj [("net",
         JObj [("orgRef", JObj [("@name", JStr "Example Org")]);
               ("netBlocks",
                JObj [("netBlock",
                       JArr [JObj [("startAddress", JObj [("$", JStr "192.0.2.0")]);
                                   ("endAddress", JObj [("$", JStr "192.0.2.127")]);
                                   ("cidrLength", JObj [("$", JStr "25")])];
                             JObj [("startAddress", JObj [("$", JStr "192.0.2.128")]);
                                   ("endAddress", JObj [("$", JStr "192.0.2.255")]);
                                   ("cidrLength", JObj [("$", JStr "25")])]])])])].

(** The same world but for the console. *)
Definition same_store (w w' : world) : Prop :=
  arin_data w' = arin_data w /\ mac_data w' = mac_data w
  /\ requests_sent w' = requests_sent w.

(** A call returns or raises [TypeError], and changes nothing but the
    console. *)
Definition ends_well (m : M json) : Prop :=
  forall w, exists o w',
    m w = (o, w') /\ only_TypeError o /\ same_store w w'.

(** The line that the vendor fetch prints before it exits. *)
Definition vendor_fatal_line (code : Z) : string :=
  if code =? 400 then "An unknown error has occurred."
  else if code =? 401 then "An Unauthorized Request has occurred."
  else "Too Many Requests with the Rate Limit period.".

(** Every request is answered with the given status and a body that is
    not JSON. *)
Definition net_status (code : Z) : network :=
  fun _ _ => Answer (mk_response code (NotJSON "Expecting value: line 1 column 1 (char 0)")).

(** Every request is answered with the given status and JSON body. *)
Definition net_json (code : Z) (v : json) : network :=
  fun _ _ => Answer (mk_response code (JSONText v)).

(** The ways a vendor lookup ends: it returns, it exits with status 1,
    or it raises an exception of [requests] or [TypeError]. *)
Definition vendor_end {A} (o : outcome A) : Prop :=
  match o with
  | Returned _ => True
  | Exited c => c = 1
  | Raised TypeError => True
  | Raised (RequestException _ _) => True
  | Raised _ => False
  end.

(** A geolocation body whose city has a character outside ASCII (the
    code point 227, a with tilde). *)
Definition sample_geo_accent : list (string * json) :=
  [("status", JStr "success"); ("countryCode", JStr "BR");
   ("regionName", JStr "Sao Paulo");
   ("city", JStr ("S" ++ String "227"%char "o Paulo"));
   ("lat", JFloat (FDec true 235475 2)); ("lon", JFloat (FDec true 466361 2));
   ("timezone", JStr "America/Sao_Paulo"); ("isp", JStr "Example ISP");
   ("org", JStr "Example Org"); ("as", JStr "AS64500 Example");
   ("query", JStr "203.0.113.9")].

(** * Properties *)

(** ** Text *)

Section Text.

Lemma all_chars_app p s t :
  all_chars p (s ++ t) = all_chars p s && all_chars p t.
Proof.
  induction s as [|c s IH]; simpl; [reflexivity|].
  now rewrite IH, andb_assoc.
Qed.

Lemma all_chars_weaken (p q : ascii -> bool) s :
  (forall c, p c = true -> q c = true) ->
  all_chars p s = true -> all_chars q s = true.
Proof.
  intros Hpq; induction s as [|c s IH]; simpl; [easy|].
  rewrite !andb_true_iff; intros [Hc Hs]; split; auto.
Qed.

Lemma all_chars_substring p s : forall n m,
  all_chars p s = true -> all_chars p (substring n m s) = true.
Proof.
  induction s as [|c s IH]; intros n m; simpl.
  - now destruct n, m.
  - rewrite andb_true_iff; intros [Hc Hs].
    destruct n as [|n]; [destruct m as [|m]|]; simpl; auto.
    rewrite Hc; simpl. now apply IH.
Qed.

Lemma all_chars_zeros p n : p "0"%char = true -> all_chars p (zeros n) = true.
Proof. intros H; induction n; simpl; [easy|now rewrite H]. Qed.

Lemma lstrip_kept drop s :
  all_chars (fun c => negb (drop c)) s = true -> lstrip drop s = s.
Proof.
  destruct s as [|c s]; simpl; [easy|].
  rewrite andb_true_iff; intros [Hc _].
  now apply negb_true_iff in Hc; rewrite Hc.
Qed.

Lemma rstrip_kept drop s :
  all_chars (fun c => negb (drop c)) s = true -> rstrip drop s = s.
Proof.
  induction s as [|c s IH]; simpl; [easy|].
  rewrite andb_true_iff; intros [Hc Hs].
  rewrite (IH Hs). apply negb_true_iff in Hc; rewrite Hc.
  now destruct s.
Qed.

Lemma strip_kept drop s :
  all_chars (fun c => negb (drop c)) s = true -> strip drop s = s.
Proof.
  intros H; unfold strip. now rewrite (lstrip_kept _ _ H), rstrip_kept.
Qed.

Lemma strip_quotes_kept s : all_chars not_dquote s = true -> strip_quotes s = s.
Proof. intros H; now apply strip_kept. Qed.

Lemma digits_of_uint d : all_chars is_digit (NilEmpty.string_of_uint d) = true.
Proof. induction d; simpl; auto. Qed.

Lemma digits_of_uint_nz d : all_chars is_digit (NilZero.string_of_uint d) = true.
Proof. destruct d; try apply digits_of_uint; reflexivity. Qed.

Lemma is_digit_not_dquote c : is_digit c = true -> not_dquote c = true.
Proof.
  destruct c as [[|] [|] [|] [|] [|] [|] [|] [|]]; vm_compute; congruence.
Qed.

Lemma is_digit_not_space c : is_digit c = true -> negb (is_space c) = true.
Proof.
  destruct c as [[|] [|] [|] [|] [|] [|] [|] [|]]; vm_compute; congruence.
Qed.

Lemma int_repr_no_dquote z : all_chars not_dquote (int_repr z) = true.
Proof.
  unfold int_repr.
  destruct (Z.to_int z) as [d|d]; simpl;
    apply (all_chars_weaken is_digit), digits_of_uint_nz;
    apply is_digit_not_dquote.
Qed.

Lemma finite_repr_no_dquote s d p : all_chars not_dquote (finite_repr s d p) = true.
Proof.
  assert (Hds : all_chars not_dquote (NilZero.string_of_uint (N.to_uint d)) = true).
  { apply (all_chars_weaken is_digit), digits_of_uint_nz.
    apply is_digit_not_dquote. }
  assert (Hex : forall e, all_chars not_dquote (exponent_text e) = true).
  { intros e. unfold exponent_text. rewrite all_chars_app.
    assert (Ha : all_chars not_dquote
                   (NilZero.string_of_uint (N.to_uint (Z.abs_N e))) = true).
    { apply (all_chars_weaken is_digit), digits_of_uint_nz.
      apply is_digit_not_dquote. }
    destruct (e <? 0); simpl;
      destruct (String.length _ <? 2)%nat; simpl; now rewrite ?Ha. }
  unfold finite_repr. rewrite all_chars_app.
  apply andb_true_iff; split; [now destruct s|].
  destruct d as [|q]; [reflexivity|].
  set (ds := NilZero.string_of_uint (N.to_uint (N.pos q))) in *.
  destruct ((p <=? -4) || (16 <? p)).
  - rewrite !all_chars_app, all_chars_substring by exact Hds.
    rewrite Hex. simpl.
    destruct (1 <? _); simpl; [|reflexivity].
    unfold substring_from. now rewrite all_chars_substring.
  - destruct (p <=? 0).
    + simpl. rewrite all_chars_app, Hds, all_chars_zeros; reflexivity.
    + destruct (p <? _).
      * rewrite !all_chars_app, all_chars_substring by exact Hds.
        unfold substring_from. simpl. now rewrite all_chars_substring.
      * rewrite !all_chars_app, Hds, all_chars_zeros; reflexivity.
Qed.

Lemma number_text_no_dquote v :
  is_number v = true -> all_chars not_dquote (json_dumps v) = true.
Proof.
  destruct v as [| | z | f | | |]; try discriminate; intros _; simpl.
  - apply int_repr_no_dquote.
  - destruct f as [|[|]|s d p]; try reflexivity. apply finite_repr_no_dquote.
Qed.

(** [strip] leaves the text of a number as it is. *)
Lemma strip_quotes_number v :
  is_number v = true -> strip_quotes (json_dumps v) = json_dumps v.
Proof. intros H. apply strip_quotes_kept, number_text_no_dquote, H. Qed.

End Text.

(** ** [int] reads back what [json.dumps] printed for an [int] *)

Section IntText.

Lemma int_digits_digits s :
  all_chars is_digit s = true -> s <> EmptyString ->
  int_digits false s = Some s.
Proof.
  assert (H : forall t b, all_chars is_digit t = true ->
                          (t = EmptyString -> b = true) ->
                          int_digits b t = Some t).
  { induction t as [|c t IH]; intros b Hd Hb; simpl in *.
    - now rewrite Hb.
    - apply andb_true_iff in Hd as [Hc Ht]. rewrite Hc.
      now rewrite (IH true Ht). }
  intros Hd Hne. apply H; [assumption|contradiction].
Qed.

Lemma nonempty_of_uint d : d <> Nil -> NilEmpty.string_of_uint d <> EmptyString.
Proof. destruct d; simpl; congruence. Qed.

Lemma unsigned_of_text_uint d :
  d <> Nil ->
  unsigned_of_text (NilEmpty.string_of_uint d) = Returned (Z.of_uint d).
Proof.
  intros Hd. unfold unsigned_of_text.
  rewrite int_digits_digits by (apply digits_of_uint || now apply nonempty_of_uint).
  now rewrite NilEmpty.usu.
Qed.

Lemma first_char_of_uint d c r :
  NilEmpty.string_of_uint d = String c r -> is_digit c = true.
Proof.
  intros H. pose proof (digits_of_uint d) as Hd. rewrite H in Hd.
  simpl in Hd. now apply andb_true_iff in Hd.
Qed.

Lemma digit_not_sign c :
  is_digit c = true -> Ascii.eqb c "-" = false /\ Ascii.eqb c "+" = false.
Proof.
  destruct c as [[|] [|] [|] [|] [|] [|] [|] [|]]; vm_compute; intuition congruence.
Qed.

Lemma py_int_of_digits d :
  d <> Nil -> py_int (NilEmpty.string_of_uint d) = Returned (Z.of_uint d).
Proof.
  intros Hd. unfold py_int.
  rewrite strip_kept
    by (apply (all_chars_weaken is_digit), digits_of_uint; apply is_digit_not_space).
  destruct (NilEmpty.string_of_uint d) as [|c r] eqn:E.
  - now apply nonempty_of_uint in E.
  - destruct (digit_not_sign c (first_char_of_uint _ _ _ E)) as [-> ->].
    rewrite <- E. now apply unsigned_of_text_uint.
Qed.

Lemma py_int_of_neg_digits d :
  d <> Nil ->
  py_int (String "-" (NilEmpty.string_of_uint d)) = Returned (- Z.of_uint d).
Proof.
  intros Hd. unfold py_int.
  rewrite strip_kept.
  - simpl. now rewrite unsigned_of_text_uint.
  - simpl. apply (all_chars_weaken is_digit), digits_of_uint.
    apply is_digit_not_space.
Qed.

Lemma string_of_uint_nz d :
  d <> Nil -> NilZero.string_of_uint d = NilEmpty.string_of_uint d.
Proof. destruct d; simpl; congruence. Qed.

Lemma py_int_int_repr z : py_int (int_repr z) = Returned z.
Proof.
  unfold int_repr. rewrite <- (DecimalZ.of_to z) at 2.
  destruct z as [|p|p]; simpl Z.to_int.
  - reflexivity.
  - assert (Hp : Pos.to_uint p <> Nil) by apply DecimalPos.Unsigned.to_uint_nonnil.
    unfold NilZero.string_of_int. rewrite string_of_uint_nz by exact Hp.
    now rewrite py_int_of_digits.
  - assert (Hp : Pos.to_uint p <> Nil) by apply DecimalPos.Unsigned.to_uint_nonnil.
    unfold NilZero.string_of_int. rewrite string_of_uint_nz by exact Hp.
    now rewrite py_int_of_neg_digits.
Qed.

End IntText.

(** ** The abuse level of a confidence score *)

(** The four bands of [_determine_abuse_level], with the labels as the
    source spells them. *)
Lemma determine_abuse_level_bands (score : Z) :
  IPReputation._determine_abuse_level score =
    if score =? 0 then Some "not malicious"
    else if (0 <? score) && (score <=? 25)
    then Some "likley not malicious but warrants further investigation"
    else if (25 <? score) && (score <? 100)
    then Some "likley malicious and warrants further investigation"
    else if score =? 100
    then Some "is malicious and warrants additional investigation"
    else None.
Proof.
  unfold IPReputation._determine_abuse_level.
  destruct (Z.eqb_spec score 0) as [->|H0]; [reflexivity|].
  destruct (Z.eqb_spec score 100) as [->|H100]; [reflexivity|].
  destruct (Z.ltb_spec score 100), (Z.ltb_spec 25 score),
    (Z.ltb_spec 0 score), (Z.leb_spec score 25); simpl; try reflexivity; lia.
Qed.

(** C2: at the scores 10 and 50 the classifier returns the labels that
    begin with the misspelt word [likley], not the labels [likely ...]
    of the banding rule. *)
Theorem abuse_level_labels_misspelt :
  IPReputation._determine_abuse_level 10
    = Some "likley not malicious but warrants further investigation"
  /\ IPReputation._determine_abuse_level 10
    <> Some "likely not malicious but warrants further investigation"
  /\ IPReputation._determine_abuse_level 50
    = Some "likley malicious and warrants further investigation"
  /\ IPReputation._determine_abuse_level 50
    <> Some "likely malicious and warrants further investigation".
Proof. repeat split; (reflexivity || discriminate). Qed.

(** ** Geolocation: the fields [lat] and [lon] *)

Lemma dict_get_present k fields :
  dict_get k fields <> None -> exists v, dict_get k fields = Some v.
Proof. destruct (dict_get k fields) as [v|]; [now exists v|congruence]. Qed.

Lemma geo_fetch_success net ip w fields :
  net (requests_sent w) (geo_request ip) = ok (JObj fields) ->
  dict_get "status" fields = Some (JStr "success") ->
  IPGeoLocation._get_json_data net ip w = (Returned (JObj fields), sent w).
Proof.
  intros Hnet Hst.
  unfold geo_request in Hnet.
  unfold IPGeoLocation._get_json_data, sleep_randint_1_3, bind, ret,
    try_except, requests_request, lift.
  rewrite Hnet. unfold ok. simpl. rewrite Hst.
  reflexivity.
Qed.

(** C10: when the raw response holds numbers under [lat] and [lon] (and
    the other keys the extraction reads), the Record has the text of the
    raw [lat] under [longitude] and the text of the raw [lon] under
    [latitude]; a scalar lookup whose fetch succeeds returns that Record. *)
Theorem geolocation_lat_lon_swapped (fields : list (string * json))
    (lat lon : json) :
  (forall k, In k geo_keys -> dict_get k fields <> None) ->
  dict_get "lat" fields = Some lat ->
  dict_get "lon" fields = Some lon ->
  is_number lat = true ->
  is_number lon = true ->
  exists record,
    IPGeoLocation._decoded_json (JObj fields) = Returned (JObj record)
    /\ dict_get "longitude" record = Some (JStr (json_dumps lat))
    /\ dict_get "latitude" record = Some (JStr (json_dumps lon))
    /\ forall net ip w,
         net (requests_sent w) (geo_request ip) = ok (JObj fields) ->
         dict_get "status" fields = Some (JStr "success") ->
         fst (IPGeoLocation.query_geolocation_database net (LStr ip) w)
           = Returned (JObj record).
Proof.
  intros Hkeys Hlat Hlon Nlat Nlon.
  assert (Hk : forall k, In k geo_keys -> exists v, dict_get k fields = Some v)
    by (intros k Hin; apply dict_get_present, Hkeys, Hin).
  destruct (Hk "query") as [v1 E1]; [simpl; tauto|].
  destruct (Hk "org") as [v2 E2]; [simpl; tauto|].
  destruct (Hk "isp") as [v3 E3]; [simpl; tauto|].
  destruct (Hk "countryCode") as [v4 E4]; [simpl; tauto|].
  destruct (Hk "regionName") as [v5 E5]; [simpl; tauto|].
  destruct (Hk "city") as [v6 E6]; [simpl; tauto|].
  destruct (Hk "timezone") as [v7 E7]; [simpl; tauto|].
  destruct (Hk "as") as [v8 E8]; [simpl; tauto|].
  assert (Hdec : IPGeoLocation._decoded_json (JObj fields) = Returned (JObj
    [("ip_address", JStr (strip_quotes (json_dumps v1)));
     ("domain_name", JStr (strip_quotes (json_dumps v2)));
     ("as_number", JStr (strip_quotes (split_space_first (json_dumps v8))));
     ("isp_name", JStr (strip_quotes (json_dumps v3)));
     ("country_code", JStr (strip_quotes (json_dumps v4)));
     ("region_name", JStr (json_dumps v5));
     ("city_name", JStr (strip_quotes (json_dumps v6)));
     ("longitude", JStr (json_dumps lat));
     ("latitude", JStr (json_dumps lon));
     ("timezone", JStr (strip_quotes (json_dumps v7)))])).
  { unfold IPGeoLocation._decoded_json, IPGeoLocation.dumps_field, getitem.
    rewrite E1, E2, E3, E4, E5, E6, E7, E8, Hlat, Hlon. unfold obind.
    now rewrite (strip_quotes_number lat Nlat), (strip_quotes_number lon Nlon). }
  eexists; split; [exact Hdec|]. split; [reflexivity|]. split; [reflexivity|].
  intros net ip w Hnet Hst.
  unfold IPGeoLocation.query_geolocation_database, bind.
  rewrite (geo_fetch_success _ _ _ _ Hnet Hst).
  assert (Ht : truthy (JObj fields) = true) by (destruct fields; [discriminate|reflexivity]).
  rewrite Ht. unfold lift. simpl. exact Hdec.
Qed.

Lemma geolocation_lat_lon_swapped_witness :
  exists record,
    IPGeoLocation._decoded_json (JObj sample_geo) = Returned (JObj record)
    /\ dict_get "longitude" record = Some (JStr "39.03")
    /\ dict_get "latitude" record = Some (JStr "-77.5")
    /\ fst (IPGeoLocation.query_geolocation_database net_fail_then_ok
              (LStr "8.8.8.8") (sent initial_world))
       = Returned (JObj record).
Proof.
  destruct (geolocation_lat_lon_swapped sample_geo
              (JFloat (FDec false 3903 2)) (JFloat (FDec true 775 2)))
    as [record [H1 [H2 [H3 H4]]]].
  - intros k Hin. simpl in Hin.
    repeat (destruct Hin as [<-|Hin]; [vm_compute; discriminate|]).
    destruct Hin.
  - reflexivity.
  - reflexivity.
  - reflexivity.
  - reflexivity.
  - exists record. split; [exact H1|]. split; [exact H2|]. split; [exact H3|].
    apply (H4 net_fail_then_ok "8.8.8.8" (sent initial_world)); reflexivity.
Defined.

(** ** The vendor lookup *)

Module MacFacts.
Import MacAddressLookup.

Ltac mac_run :=
  cbv [_get_registered_organization _get_registered_organization_address
       _get_registered_organization_country _get_json_data data_at get_data
       set_data except_KeyError try_except bind ret lift colorized_text
       getitem sleep_randint_1_3 sys_exit requests_request response_json].

Lemma mac_organization_spec w fields :
  mac_data w = JObj fields ->
  _get_registered_organization w =
    match dict_get "isRand" fields with
    | Some (JBool true) => (Returned (JStr "randomly assigned"), w)
    | Some (JBool false) =>
        match dict_get "company" fields with
        | Some company => (Returned company, w)
        | None =>
            (Returned JNull,
             log [red "Registered organization is not present in JSON data"] w)
        end
    | Some _ => (Returned JNull, w)
    | None =>
        (Returned JNull,
         log [red "Registered organization is not present in JSON data"] w)
    end.
Proof.
  intros Hd. mac_run.
  destruct (dict_get "isRand" fields) as [[| [|] | | | | |]|] eqn:E;
    repeat (rewrite ?Hd, ?E; simpl); unfold log, red; rewrite ?Hd;
    try reflexivity.
  destruct (dict_get "company" fields) eqn:E2;
    repeat (rewrite ?Hd, ?E2; simpl); unfold log, red; rewrite ?Hd; reflexivity.
Qed.

Lemma mac_address_spec w fields :
  mac_data w = JObj fields ->
  _get_registered_organization_address w =
    match dict_get "address" fields with
    | Some v =>
        (Returned (if truthy v then v else JStr "address unavailable"), w)
    | None =>
        (Returned JNull,
         log [red "Registered organization's address is not present in JSON data"] w)
    end.
Proof.
  intros Hd. mac_run.
  destruct (dict_get "address" fields) as [v|] eqn:E;
    repeat (rewrite ?Hd, ?E; simpl); [|unfold log, red; rewrite ?Hd; reflexivity].
  destruct (truthy v) eqn:T; repeat (rewrite ?Hd, ?E, ?T; simpl); reflexivity.
Qed.

Lemma mac_country_spec w fields :
  mac_data w = JObj fields ->
  _get_registered_organization_country w =
    match dict_get "country" fields with
    | Some v =>
        (Returned (if truthy v then v else JStr "country unavailable"), w)
    | None =>
        (Returned JNull,
         log [red "Registered organization's country is not present in JSON data"] w)
    end.
Proof.
  intros Hd. mac_run.
  destruct (dict_get "country" fields) as [v|] eqn:E;
    repeat (rewrite ?Hd, ?E; simpl); [|unfold log, red; rewrite ?Hd; reflexivity].
  destruct (truthy v) eqn:T; repeat (rewrite ?Hd, ?E, ?T; simpl); reflexivity.
Qed.

(** A fetch that is answered 200 with a JSON body stores the body in
    [MacAddressLookup.data] and returns it. *)
Lemma mac_fetch_ok net hardware_id w d :
  net (requests_sent w) (mac_request hardware_id) = ok d ->
  _get_json_data net hardware_id w = (Returned d, with_mac_data d (sent w)).
Proof.
  intros Hnet. unfold mac_request in Hnet.
  mac_run. rewrite Hnet. reflexivity.
Qed.

End MacFacts.

(** C9: with [isRand] true the registered organization is the literal
    [randomly assigned], whatever [company] holds; with [isRand] false
    it is the value of [company].  The same holds for the Record of a
    scalar lookup whose fetch returned the response. *)
Theorem vendor_random_flag (fields : list (string * json)) :
  (dict_get "isRand" fields = Some (JBool true) ->
   (forall w, mac_data w = JObj fields ->
      MacAddressLookup._get_registered_organization w
        = (Returned (JStr "randomly assigned"), w))
   /\ forall net hardware_id w,
        net (requests_sent w) (mac_request hardware_id) = ok (JObj fields) ->
        exists record w',
          MacAddressLookup.lookup_address_information net (LStr hardware_id) w
            = (Returned (JObj record), w')
          /\ dict_get "registered_organization" record
             = Some (JStr "randomly assigned"))
  /\ (forall company,
        dict_get "isRand" fields = Some (JBool false) ->
        dict_get "company" fields = Some company ->
        (forall w, mac_data w = JObj fields ->
           MacAddressLookup._get_registered_organization w
             = (Returned company, w))
        /\ forall net hardware_id w,
             net (requests_sent w) (mac_request hardware_id) = ok (JObj fields) ->
             exists record w',
               MacAddressLookup.lookup_address_information net (LStr hardware_id) w
                 = (Returned (JObj record), w')
               /\ dict_get "registered_organization" record = Some company).
Proof.
  assert (Hlook : forall net hardware_id w org,
    net (requests_sent w) (mac_request hardware_id) = ok (JObj fields) ->
    (forall w0, mac_data w0 = JObj fields ->
       MacAddressLookup._get_registered_organization w0 = (Returned org, w0)) ->
    exists record w',
      MacAddressLookup.lookup_address_information net (LStr hardware_id) w
        = (Returned (JObj record), w')
      /\ dict_get "registered_organization" record = Some org).
  { intros net hardware_id w org Hnet Horg. simpl.
    unfold MacAddressLookup.lookup_one, bind at 1.
    rewrite (MacFacts.mac_fetch_ok _ _ _ _ Hnet).
    unfold MacAddressLookup.read_fields, bind at 1. rewrite Horg by reflexivity.
    unfold bind at 1. rewrite (MacFacts.mac_address_spec _ fields) by reflexivity.
    destruct (dict_get "address" fields) as [a|];
      (unfold bind at 1; rewrite (MacFacts.mac_country_spec _ fields) by reflexivity;
       destruct (dict_get "country" fields) as [c|];
       (eexists; eexists; split; [reflexivity|reflexivity])). }
  split.
  - intros Hrand.
    assert (Horg : forall w, mac_data w = JObj fields ->
              MacAddressLookup._get_registered_organization w
                = (Returned (JStr "randomly assigned"), w)).
    { intros w Hd. now rewrite (MacFacts.mac_organization_spec w fields Hd), Hrand. }
    split; [exact Horg|]. intros net hardware_id w Hnet. now apply Hlook.
  - intros company Hrand Hco.
    assert (Horg : forall w, mac_data w = JObj fields ->
              MacAddressLookup._get_registered_organization w
                = (Returned company, w)).
    { intros w Hd. now rewrite (MacFacts.mac_organization_spec w fields Hd), Hrand, Hco. }
    split; [exact Horg|]. intros net hardware_id w Hnet. now apply Hlook.
Qed.

Lemma vendor_random_flag_witness :
  MacAddressLookup._get_registered_organization
    (with_mac_data (JObj sample_mac_random) initial_world)
    = (Returned (JStr "randomly assigned"),
       with_mac_data (JObj sample_mac_random) initial_world)
  /\ (exists record w',
        MacAddressLookup.lookup_address_information
          (net_ok_then_404 (JObj sample_mac_random)) (LStr "da:0a:1b:00:00:01")
          initial_world
        = (Returned (JObj record), w')
        /\ dict_get "registered_organization" record
           = Some (JStr "randomly assigned"))
  /\ MacAddressLookup._get_registered_organization
       (with_mac_data (JObj sample_mac_vendor) initial_world)
     = (Returned (JStr "Universal Global Scientific"),
        with_mac_data (JObj sample_mac_vendor) initial_world)
  /\ (exists record w',
        MacAddressLookup.lookup_address_information
          (net_ok_then_404 (JObj sample_mac_vendor)) (LStr "04:7b:cb:3b:75:94")
          initial_world
        = (Returned (JObj record), w')
        /\ dict_get "registered_organization" record
           = Some (JStr "Universal Global Scientific")).
Proof.
  split; [|split; [|split]].
  - apply (proj1 (proj1 (vendor_random_flag sample_mac_random) eq_refl));
      reflexivity.
  - apply (proj2 (proj1 (vendor_random_flag sample_mac_random) eq_refl));
      reflexivity.
  - apply (proj1 (proj2 (vendor_random_flag sample_mac_vendor)
                    (JStr "Universal Global Scientific") eq_refl eq_refl));
      reflexivity.
  - apply (proj2 (proj2 (vendor_random_flag sample_mac_vendor)
                    (JStr "Universal Global Scientific") eq_refl eq_refl));
      reflexivity.
Defined.

(** ** Geolocation: a body that reports failure *)

(** C8: a 200 response whose body has [status] equal to [fail] yields no
    Record: the fetch reports the failure and returns [None], a scalar
    lookup returns [None], and the loop of a list lookup goes on with
    the list built so far unchanged. *)
Theorem geolocation_soft_fail (net : network) (ip : string) (w : world)
    (fields : list (string * json)) :
  net (requests_sent w) (geo_request ip) = ok (JObj fields) ->
  dict_get "status" fields = Some (JStr "fail") ->
  let w' :=
    log [red ("The query failed. Please review your input data for " ++ ip)]
        (sent w) in
  IPGeoLocation._get_json_data net ip w = (Returned JNull, w')
  /\ IPGeoLocation.query_geolocation_database net (LStr ip) w
     = (Returned JNull, w')
  /\ forall rest data_elements,
       IPGeoLocation.query_loop net (ip :: rest) data_elements w
       = IPGeoLocation.query_loop net rest data_elements w'.
Proof.
  intros Hnet Hst w'.
  assert (Hfetch : IPGeoLocation._get_json_data net ip w = (Returned JNull, w')).
  { unfold geo_request in Hnet.
    cbv [IPGeoLocation._get_json_data sleep_randint_1_3 bind ret try_except
         requests_request lift json_loads_text colorized_text].
    rewrite Hnet. unfold ok. simpl. rewrite Hst. reflexivity. }
  split; [exact Hfetch|]. split.
  - unfold IPGeoLocation.query_geolocation_database, bind.
    now rewrite Hfetch.
  - intros rest data_elements. simpl. unfold bind at 1. now rewrite Hfetch.
Qed.

Lemma geolocation_soft_fail_witness :
  IPGeoLocation.query_geolocation_database net_fail_then_ok (LStr "not-an-ip")
    initial_world
  = (Returned JNull,
     log [red "The query failed. Please review your input data for not-an-ip"]
         (sent initial_world))
  /\ exists record w',
       IPGeoLocation.query_geolocation_database net_fail_then_ok
         (LList ["not-an-ip"; "8.8.8.8"]) initial_world
       = (Returned (JArr [JObj record]), w')
       /\ dict_get "ip_address" record = Some (JStr "8.8.8.8").
Proof.
  destruct (geolocation_soft_fail net_fail_then_ok "not-an-ip" initial_world
              [("status", JStr "fail"); ("message", JStr "invalid query");
               ("query", JStr "not-an-ip")] eq_refl eq_refl)
    as [_ [Hscalar Hloop]].
  split; [exact Hscalar|].
  unfold IPGeoLocation.query_geolocation_database. rewrite Hloop.
  eexists; eexists; split; vm_compute; reflexivity.
Defined.

(** ** Reputation: a 401 response *)

Lemma reputation_reported_status net ip key w code decoded msg :
  net (requests_sent w) (abuse_request ip key)
    = Answer (mk_response code (JSONText decoded)) ->
  code = 401 \/ code = 422 \/ code = 429 ->
  IPReputation.error_detail decoded = Returned msg ->
  IPReputation._get_json_data net ip key w
    = (Returned JNull, log [red msg] (sent w)).
Proof.
  intros Hnet Hcode Hmsg. unfold abuse_request in Hnet.
  cbv [IPReputation._get_json_data sleep_randint_1_3 bind ret try_except
       requests_request lift json_loads_text colorized_text
       IPReputation.report_error_detail].
  rewrite Hnet. cbv [text status_code]. rewrite Hmsg.
  destruct Hcode as [ -> | [ -> | -> ] ]; reflexivity.
Qed.

(** C1, as the code has it: a 401 response whose body carries
    [errors[0].detail] is reported on the console and the fetch returns
    [None]; the process goes on: a scalar lookup returns [None], no
    Record, and a list lookup leaves the identifier out and continues
    with the rest. *)
Theorem reputation_401_reported (net : network) (ip key : string) (w : world)
    (decoded : json) (msg : string) :
  net (requests_sent w) (abuse_request ip key)
    = Answer (mk_response 401 (JSONText decoded)) ->
  IPReputation.error_detail decoded = Returned msg ->
  let w' := log [red msg] (sent w) in
  IPReputation._get_json_data net ip key w = (Returned JNull, w')
  /\ IPReputation.query_abuse_database net (LStr ip) key w = (Returned JNull, w')
  /\ forall rest data_elements,
       IPReputation.query_loop net key (ip :: rest) data_elements w
       = IPReputation.query_loop net key rest data_elements w'.
Proof.
  intros Hnet Hmsg w'.
  assert (Hfetch : IPReputation._get_json_data net ip key w = (Returned JNull, w'))
    by (apply (reputation_reported_status net ip key w 401 decoded msg); auto).
  split; [exact Hfetch|]. split.
  - unfold IPReputation.query_abuse_database, bind. now rewrite Hfetch.
  - intros rest data_elements. simpl. unfold bind at 1. now rewrite Hfetch.
Qed.

Lemma reputation_401_reported_witness :
  IPReputation.query_abuse_database net_401_then_ok (LStr "203.0.113.7")
    "revoked-key" initial_world
  = (Returned JNull, log [red "Authentication failed."] (sent initial_world)).
Proof.
  apply (reputation_401_reported net_401_then_ok "203.0.113.7" "revoked-key"
           initial_world (abuse_error "Authentication failed." 401)
           "Authentication failed."); reflexivity.
Defined.

(** C1, the claim as stated fails: after a 401 response the fetch
    returns, and the list lookup goes on to the next identifier and
    returns its Record. *)
Lemma reputation_401_not_fatal :
  ~ terminated
      (fst (IPReputation._get_json_data net_401_then_ok "203.0.113.7"
              "revoked-key" initial_world))
  /\ exists record w',
       IPReputation.query_abuse_database net_401_then_ok
         (LList ["203.0.113.7"; "198.51.100.1"]) "revoked-key" initial_world
       = (Returned (JArr [JObj record]), w')
       /\ dict_get "ip_address" record = Some (JStr "198.51.100.1")
       /\ requests_sent w' = 2%nat.
Proof.
  split.
  - vm_compute. exact (fun H => H).
  - eexists; eexists; split; [vm_compute; reflexivity|].
    split; reflexivity.
Qed.

(** ** A timeout or a connection error during the fetch *)

Section NetworkFailure.

Variable net : network.
Variables (id : string) (w : world) (kind : request_error) (msg : string).
Hypothesis Hkind : is_ConnectionError kind || is_Timeout kind = true.

Lemma geolocation_fetch_failure :
  net (requests_sent w) (geo_request id) = Failure kind msg ->
  IPGeoLocation._get_json_data net id w
    = (Exited 1, log [red (if is_ConnectionError kind
                         then "A ConnectionError has occurred."
                         else "A connection timeout has occurred.")] (sent w)).
Proof.
  intros Hnet. unfold geo_request in Hnet.
  cbv [IPGeoLocation._get_json_data sleep_randint_1_3 bind ret try_except
       requests_request lift colorized_text sys_exit].
  rewrite Hnet.
  destruct kind; try discriminate Hkind; reflexivity.
Qed.

Lemma reputation_fetch_failure key :
  net (requests_sent w) (abuse_request id key) = Failure kind msg ->
  IPReputation._get_json_data net id key w
    = (Exited 1, log [red (if is_ConnectionError kind
                         then "A ConnectionError has occurred."
                         else "A connection timeout has occurred.")] (sent w)).
Proof.
  intros Hnet. unfold abuse_request in Hnet.
  cbv [IPReputation._get_json_data sleep_randint_1_3 bind ret try_except
       requests_request lift colorized_text sys_exit].
  rewrite Hnet.
  destruct kind; try discriminate Hkind; reflexivity.
Qed.

Lemma vendor_fetch_failure :
  net (requests_sent w) (mac_request id) = Failure kind msg ->
  MacAddressLookup._get_json_data net id w
    = (Raised (RequestException kind msg), sent w).
Proof.
  intros Hnet. unfold mac_request in Hnet.
  cbv [MacAddressLookup._get_json_data sleep_randint_1_3 bind ret
       requests_request].
  now rewrite Hnet.
Qed.

Lemma registry_fetch_failure :
  net (requests_sent w) (arin_request id) = Failure kind msg ->
  ArinWhois._get_whois_json net id w
    = (Returned JNull, log [red (if is_Timeout kind
                            then "Request timed out for IP address " ++ id
                            else "An error occurred: " ++ msg)] (sent w)).
Proof.
  intros Hnet. unfold arin_request in Hnet.
  cbv [ArinWhois._get_whois_json sleep_randint_1_3 bind ret try_except
       requests_request lift colorized_text or_None].
  rewrite Hnet.
  destruct kind; try discriminate Hkind; reflexivity.
Qed.

End NetworkFailure.

(** C3, as the code has it: on a timeout or a connection error the
    geolocation and the reputation fetch print a line and exit with
    status 1, the vendor fetch lets the exception leave the call, and
    each of their lookups ends there, for a scalar and in the loop of a
    list; the registry fetch prints a line and returns [None], and the
    loop of a list lookup builds the Record of the identifier from
    [ArinWhois.data] and goes on with the next identifier. *)
Theorem network_failure_policy (net : network) (id key : string) (w : world)
    (kind : request_error) (msg : string) :
  is_ConnectionError kind || is_Timeout kind = true ->
  let exit_world :=
    log [red (if is_ConnectionError kind then "A ConnectionError has occurred."
              else "A connection timeout has occurred.")] (sent w) in
  let arin_world :=
    log [red (if is_Timeout kind then "Request timed out for IP address " ++ id
              else "An error occurred: " ++ msg)] (sent w) in
  (net (requests_sent w) (geo_request id) = Failure kind msg ->
   IPGeoLocation.query_geolocation_database net (LStr id) w
     = (Exited 1, exit_world)
   /\ forall rest data_elements,
        IPGeoLocation.query_loop net (id :: rest) data_elements w
        = (Exited 1, exit_world))
  /\ (net (requests_sent w) (abuse_request id key) = Failure kind msg ->
      IPReputation.query_abuse_database net (LStr id) key w
        = (Exited 1, exit_world)
      /\ forall rest data_elements,
           IPReputation.query_loop net key (id :: rest) data_elements w
           = (Exited 1, exit_world))
  /\ (net (requests_sent w) (mac_request id) = Failure kind msg ->
      MacAddressLookup.lookup_address_information net (LStr id) w
        = (Raised (RequestException kind msg), sent w)
      /\ forall rest data_elements,
           MacAddressLookup.query_loop net (id :: rest) data_elements w
           = (Raised (RequestException kind msg), sent w))
  /\ (net (requests_sent w) (arin_request id) = Failure kind msg ->
      ArinWhois._get_whois_json net id w = (Returned JNull, arin_world)
      /\ forall rest data_elements,
           ArinWhois.query_loop net (id :: rest) data_elements w
           = (data <- ArinWhois.read_fields id ;;
              ArinWhois.query_loop net rest (data_elements ++ [data]))
               arin_world).
Proof.
  intros Hkind exit_world arin_world. repeat split.
  - unfold IPGeoLocation.query_geolocation_database, bind.
    now rewrite (geolocation_fetch_failure net id w kind msg Hkind H).
  - intros rest acc. simpl. unfold bind at 1.
    now rewrite (geolocation_fetch_failure net id w kind msg Hkind H).
  - unfold IPReputation.query_abuse_database, bind.
    now rewrite (reputation_fetch_failure net id w kind msg Hkind key H).
  - intros rest acc. simpl. unfold bind at 1.
    now rewrite (reputation_fetch_failure net id w kind msg Hkind key H).
  - unfold MacAddressLookup.lookup_address_information,
      MacAddressLookup.lookup_one, bind.
    now rewrite (vendor_fetch_failure net id w kind msg H).
  - intros rest acc. simpl. unfold MacAddressLookup.lookup_one, bind at 1.
    unfold bind at 1.
    now rewrite (vendor_fetch_failure net id w kind msg H).
  - exact (registry_fetch_failure net id w kind msg Hkind H).
  - intros rest acc. simpl. unfold ArinWhois.lookup_one, bind at 1.
    unfold bind at 1.
    now rewrite (registry_fetch_failure net id w kind msg Hkind H).
Qed.

Lemma network_failure_policy_witness :
  IPGeoLocation.query_geolocation_database
    (net_timeout_then_ok (JObj sample_geo)) (LStr "8.8.8.8") initial_world
  = (Exited 1,
     log [red "A connection timeout has occurred."] (sent initial_world))
  /\ IPReputation.query_abuse_database
       (net_timeout_then_ok (sample_abuse "203.0.113.7" 50))
       (LStr "203.0.113.7") "key" initial_world
     = (Exited 1,
        log [red "A connection timeout has occurred."] (sent initial_world))
  /\ MacAddressLookup.lookup_address_information
       (net_timeout_then_ok (JObj sample_mac_vendor))
       (LStr "04:7b:cb:3b:75:94") initial_world
     = (Raised (RequestException ReadTimeout "Read timed out. (read timeout=10)"),
        sent initial_world)
  /\ ArinWhois._get_whois_json
       (net_timeout_then_ok (sample_arin "Example Org" "192.0.2.0" "192.0.2.255" "24"))
       "192.0.2.7" initial_world
     = (Returned JNull,
        log [red "Request timed out for IP address 192.0.2.7"]
            (sent initial_world)).
Proof.
  split; [|split; [|split]].
  - apply (proj1 (network_failure_policy
                    (net_timeout_then_ok (JObj sample_geo)) "8.8.8.8" "key"
                    initial_world ReadTimeout
                    "Read timed out. (read timeout=10)" eq_refl)).
    reflexivity.
  - apply (proj1 (proj2 (network_failure_policy
                           (net_timeout_then_ok (sample_abuse "203.0.113.7" 50))
                           "203.0.113.7" "key" initial_world ReadTimeout
                           "Read timed out. (read timeout=10)" eq_refl))).
    reflexivity.
  - apply (proj1 (proj2 (proj2 (network_failure_policy
                           (net_timeout_then_ok (JObj sample_mac_vendor))
                           "04:7b:cb:3b:75:94" "key" initial_world ReadTimeout
                           "Read timed out. (read timeout=10)" eq_refl)))).
    reflexivity.
  - apply (proj2 (proj2 (proj2 (network_failure_policy
                           (net_timeout_then_ok
                              (sample_arin "Example Org" "192.0.2.0"
                                           "192.0.2.255" "24"))
                           "192.0.2.7" "key" initial_world ReadTimeout
                           "Read timed out. (read timeout=10)" eq_refl)))).
    reflexivity.
Defined.

(** C3, the claim as stated fails for the reputation source: a read
    timeout on the first identifier of a list ends the process with
    status 1, and the second identifier is never requested. *)
Lemma reputation_timeout_is_fatal :
  IPReputation.query_abuse_database
    (net_timeout_then_ok (sample_abuse "198.51.100.1" 50))
    (LList ["203.0.113.7"; "198.51.100.1"]) "key" initial_world
  = (Exited 1,
     {| arin_data := JObj []; mac_data := JObj [];
        console := [("A connection timeout has occurred.", "red")];
        requests_sent := 1 |}).
Proof. vm_compute. reflexivity. Qed.

(** ** The registry lookup *)

Module ArinFacts.
Import ArinWhois.

(** Along a path of dicts a read returns a value or misses a key. *)
Lemma arin_getpath_dicts path : forall d,
  dicts_along d path = true ->
  (exists v, getpath d path = Returned v) \/ getpath d path = Raised KeyError.
Proof.
  induction path as [|k rest IH]; intros d Hd; simpl.
  - left; now exists d.
  - simpl in Hd. destruct d; try discriminate. simpl.
    destruct (dict_get k fields) as [x|]; simpl; [now apply IH|now right].
Qed.

(** What the fetch does, reply by reply: it always returns. *)
Lemma arin_fetch_cases net ip w :
  _get_whois_json net ip w =
    match net (requests_sent w) (arin_request ip) with
    | Answer r =>
        if status_code r =? 200 then
          match text r with
          | JSONText d => (Returned d, with_arin_data d (sent w))
          | NotJSON m =>
              (Returned JNull, log [red ("An error occurred: " ++ m)] (sent w))
          end
        else (Returned JNull, sent w)
    | Failure kind m =>
        (Returned JNull,
         log [red (if is_Timeout kind
                   then "Request timed out for IP address " ++ ip
                   else "An error occurred: " ++ m)] (sent w))
    end.
Proof.
  cbv [_get_whois_json sleep_randint_1_3 bind ret try_except requests_request
       lift colorized_text or_None response_json set_data get_data arin_request].
  destruct (net _ _) as [r|kind m].
  - destruct (status_code r =? 200); [|reflexivity].
    destruct (text r); reflexivity.
  - destruct kind; reflexivity.
Qed.

Ltac arin_run :=
  cbv [_get_registered_organization _get_network_range _get_cidr_range
       data_at get_data except_KeyError try_except bind ret lift
       colorized_text or_None].

Lemma arin_organization_spec w :
  _get_registered_organization w =
    match getpath (arin_data w) org_path with
    | Returned v =>
        (Returned (if truthy v then v
                   else JStr "registered organization unavailable"), w)
    | Raised KeyError =>
        (Returned JNull,
         log [red "Registered_organization is not present in JSON data"] w)
    | Raised e => (Raised e, w)
    | Exited c => (Exited c, w)
    end.
Proof.
  arin_run. generalize org_path as p; intros p.
  destruct (getpath (arin_data w) p) as [v|c|e] eqn:E; try reflexivity.
  - destruct (truthy v) eqn:T; simpl; rewrite ?E; simpl; rewrite ?T; simpl;
      rewrite ?E; reflexivity.
  - destruct e; reflexivity.
Qed.

(** The two fields that are put together from a start address and a
    second value share one shape. *)
Lemma arin_pair_spec (p q : list string) (sentinel sep msg : string) w :
  (r <- try_except
          (v <- data_at p ;;
           if negb (truthy v) then ret (Some (JStr sentinel))
           else
             v' <- data_at p ;;
             if truthy v' then
               a <- data_at p ;;
               b <- data_at q ;;
               ret (Some (JStr (py_str a ++ sep ++ py_str b)))
             else ret None)
          (except_KeyError msg) ;;
   ret (or_None r)) w =
    match getpath (arin_data w) p with
    | Returned a =>
        if truthy a then
          match getpath (arin_data w) q with
          | Returned b => (Returned (JStr (py_str a ++ sep ++ py_str b)), w)
          | Raised KeyError => (Returned JNull, log [red msg] w)
          | Raised e => (Raised e, w)
          | Exited c => (Exited c, w)
          end
        else (Returned (JStr sentinel), w)
    | Raised KeyError => (Returned JNull, log [red msg] w)
    | Raised e => (Raised e, w)
    | Exited c => (Exited c, w)
    end.
Proof.
  arin_run.
  destruct (getpath (arin_data w) p) as [a|c|e] eqn:E; try reflexivity.
  - destruct (truthy a) eqn:T; simpl; rewrite ?E; simpl; rewrite ?T; simpl;
      rewrite ?E; try reflexivity.
    destruct (getpath (arin_data w) q) as [b|c|e] eqn:E'; try reflexivity.
    destruct e; reflexivity.
  - destruct e; reflexivity.
Qed.

Lemma arin_network_range_spec w :
  _get_network_range w =
    match getpath (arin_data w) start_path with
    | Returned a =>
        if truthy a then
          match getpath (arin_data w) end_path with
          | Returned b => (Returned (JStr (py_str a ++ "-" ++ py_str b)), w)
          | Raised KeyError =>
              (Returned JNull,
               log [red "The JSON keys to obtain the network range were invalid."] w)
          | Raised e => (Raised e, w)
          | Exited c => (Exited c, w)
          end
        else (Returned (JStr "netblock range unavailable"), w)
    | Raised KeyError =>
        (Returned JNull,
         log [red "The JSON keys to obtain the network range were invalid."] w)
    | Raised e => (Raised e, w)
    | Exited c => (Exited c, w)
    end.
Proof. apply (arin_pair_spec start_path end_path). Qed.

Lemma arin_cidr_range_spec w :
  _get_cidr_range w =
    match getpath (arin_data w) start_path with
    | Returned a =>
        if truthy a then
          match getpath (arin_data w) cidr_path with
          | Returned b => (Returned (JStr (py_str a ++ "/" ++ py_str b)), w)
          | Raised KeyError =>
              (Returned JNull,
               log [red "The JSON keys to obtain the CIDR range were invalid."] w)
          | Raised e => (Raised e, w)
          | Exited c => (Exited c, w)
          end
        else (Returned (JStr "CIDR range unavailable"), w)
    | Raised KeyError =>
        (Returned JNull,
         log [red "The JSON keys to obtain the CIDR range were invalid."] w)
    | Raised e => (Raised e, w)
    | Exited c => (Exited c, w)
    end.
Proof. apply (arin_pair_spec start_path cidr_path). Qed.

End ArinFacts.

Module ArinTotal.
Import ArinWhois ArinFacts.

Lemma arin_shaped_paths d :
  arin_shaped d = true ->
  dicts_along d org_path = true /\ dicts_along d start_path = true
  /\ dicts_along d end_path = true /\ dicts_along d cidr_path = true.
Proof.
  unfold arin_shaped. rewrite !andb_true_iff. tauto.
Qed.

Lemma arin_organization_returns w :
  dicts_along (arin_data w) org_path = true ->
  exists v w', _get_registered_organization w = (Returned v, w')
               /\ arin_data w' = arin_data w.
Proof.
  intros Hd. rewrite arin_organization_spec.
  destruct (arin_getpath_dicts _ _ Hd) as [[v ->]| ->]; eauto.
Qed.

Lemma arin_pair_returns (p q : list string) (f : M json) (sentinel sep msg : string) w :
  (forall w0, f w0 =
     match getpath (arin_data w0) p with
     | Returned a =>
         if truthy a then
           match getpath (arin_data w0) q with
           | Returned b => (Returned (JStr (py_str a ++ sep ++ py_str b)), w0)
           | Raised KeyError => (Returned JNull, log [red msg] w0)
           | Raised e => (Raised e, w0)
           | Exited c => (Exited c, w0)
           end
         else (Returned (JStr sentinel), w0)
     | Raised KeyError => (Returned JNull, log [red msg] w0)
     | Raised e => (Raised e, w0)
     | Exited c => (Exited c, w0)
     end) ->
  dicts_along (arin_data w) p = true ->
  dicts_along (arin_data w) q = true ->
  exists v w', f w = (Returned v, w') /\ arin_data w' = arin_data w.
Proof.
  intros Hf Hp Hq. rewrite Hf.
  destruct (arin_getpath_dicts _ _ Hp) as [[a ->]| ->]; [|eauto].
  destruct (truthy a); [|eauto].
  destruct (arin_getpath_dicts _ _ Hq) as [[b ->]| ->]; eauto.
Qed.

(** On shaped data the three extraction calls return and fill a Record
    for the identifier; only the console changes. *)
Lemma arin_read_fields_returns item w :
  arin_shaped (arin_data w) = true ->
  exists org range cidr w',
    read_fields item w
      = (Returned (JObj [("ip_address", JStr item); ("organization", org);
                         ("network", range); ("cidr", cidr)]), w')
    /\ arin_data w' = arin_data w.
Proof.
  intros Hs. destruct (arin_shaped_paths _ Hs) as (Ho & Hst & He & Hc).
  destruct (arin_organization_returns w Ho) as (org & w1 & E1 & D1).
  assert (Hst1 : dicts_along (arin_data w1) start_path = true) by now rewrite D1.
  assert (He1 : dicts_along (arin_data w1) end_path = true) by now rewrite D1.
  destruct (arin_pair_returns _ _ _ _ _ _ w1 arin_network_range_spec Hst1 He1)
    as (range & w2 & E2 & D2).
  assert (Hst2 : dicts_along (arin_data w2) start_path = true)
    by now rewrite D2, D1.
  assert (Hc2 : dicts_along (arin_data w2) cidr_path = true)
    by now rewrite D2, D1.
  destruct (arin_pair_returns _ _ _ _ _ _ w2 arin_cidr_range_spec Hst2 Hc2)
    as (cidr & w3 & E3 & D3).
  exists org, range, cidr, w3. split; [|now rewrite D3, D2, D1].
  unfold read_fields, bind. now rewrite E1, E2, E3.
Qed.

(** The fetch returns; afterwards [ArinWhois.data] is what it was, or
    the body of a 200 answer to this request. *)
Lemma arin_fetch_returns net item w :
  exists v w', _get_whois_json net item w = (Returned v, w')
    /\ requests_sent w' = S (requests_sent w)
    /\ (arin_data w' = arin_data w
        \/ net (requests_sent w) (arin_request item) = ok (arin_data w')).
Proof.
  rewrite arin_fetch_cases.
  destruct (net (requests_sent w) (arin_request item)) as [[code [d|m]]|kind m] eqn:E;
    simpl; try destruct (Z.eqb_spec code 200) as [->|Hc]; eauto 10.
Qed.

Lemma arin_lookup_one_returns net item w :
  (forall d, net (requests_sent w) (arin_request item) = ok d ->
             arin_shaped d = true) ->
  arin_shaped (arin_data w) = true ->
  exists org range cidr w',
    lookup_one net item w
      = (Returned (JObj [("ip_address", JStr item); ("organization", org);
                         ("network", range); ("cidr", cidr)]), w')
    /\ arin_shaped (arin_data w') = true.
Proof.
  intros Hnet Hs.
  destruct (arin_fetch_returns net item w) as (v & w1 & E1 & _ & D1).
  assert (Hs1 : arin_shaped (arin_data w1) = true)
    by (destruct D1 as [->|D1]; [exact Hs|now apply Hnet]).
  destruct (arin_read_fields_returns item w1 Hs1) as (org & range & cidr & w2 & E2 & D2).
  exists org, range, cidr, w2. split; [|now rewrite D2].
  unfold lookup_one, bind. now rewrite E1, E2.
Qed.

Lemma arin_query_loop_returns net : forall items data_elements w,
  (forall n req d, net n req = ok d -> arin_shaped d = true) ->
  arin_shaped (arin_data w) = true ->
  exists records w',
    query_loop net items data_elements w
      = (Returned (JArr (data_elements ++ records)), w')
    /\ map (dict_of_key "ip_address") records
       = map (fun item => Some (JStr item)) items.
Proof.
  induction items as [|item rest IH]; intros acc w Hnet Hs.
  - exists [], w. simpl. now rewrite app_nil_r.
  - destruct (arin_lookup_one_returns net item w (fun d => Hnet _ _ d) Hs)
      as (org & range & cidr & w1 & E1 & Hs1).
    destruct (IH (acc ++ [JObj [("ip_address", JStr item); ("organization", org);
                                ("network", range); ("cidr", cidr)]])%list
                w1 Hnet Hs1)
      as (records & w2 & E2 & Hk).
    eexists (_ :: records), w2. split.
    + simpl. unfold bind at 1. rewrite E1, E2. now rewrite <- app_assoc.
    + simpl. now rewrite Hk.
Qed.

Lemma arin_fetch_ok net ip w d :
  net (requests_sent w) (arin_request ip) = ok d ->
  _get_whois_json net ip w = (Returned d, with_arin_data d (sent w)).
Proof. intros Hnet. rewrite arin_fetch_cases, Hnet. reflexivity. Qed.

Lemma arin_organization_value w :
  dicts_along (arin_data w) org_path = true ->
  exists w',
    _get_registered_organization w =
      (Returned match getpath (arin_data w) org_path with
                | Returned v =>
                    if truthy v then v
                    else JStr "registered organization unavailable"
                | _ => JNull
                end, w')
    /\ arin_data w' = arin_data w.
Proof.
  intros Hd. rewrite arin_organization_spec.
  destruct (arin_getpath_dicts _ _ Hd) as [[v ->]| ->]; eauto.
Qed.

Lemma arin_pair_value (p q : list string) (f : M json) (sentinel sep msg : string) w :
  (forall w0, f w0 =
     match getpath (arin_data w0) p with
     | Returned a =>
         if truthy a then
           match getpath (arin_data w0) q with
           | Returned b => (Returned (JStr (py_str a ++ sep ++ py_str b)), w0)
           | Raised KeyError => (Returned JNull, log [red msg] w0)
           | Raised e => (Raised e, w0)
           | Exited c => (Exited c, w0)
           end
         else (Returned (JStr sentinel), w0)
     | Raised KeyError => (Returned JNull, log [red msg] w0)
     | Raised e => (Raised e, w0)
     | Exited c => (Exited c, w0)
     end) ->
  dicts_along (arin_data w) p = true ->
  dicts_along (arin_data w) q = true ->
  exists w',
    f w = (Returned match getpath (arin_data w) p with
                    | Returned a =>
                        if truthy a then
                          match getpath (arin_data w) q with
                          | Returned b => JStr (py_str a ++ sep ++ py_str b)
                          | _ => JNull
                          end
                        else JStr sentinel
                    | _ => JNull
                    end, w')
    /\ arin_data w' = arin_data w.
Proof.
  intros Hf Hp Hq. rewrite Hf.
  destruct (arin_getpath_dicts _ _ Hp) as [[a ->]| ->]; [|eauto].
  destruct (truthy a); [|eauto].
  destruct (arin_getpath_dicts _ _ Hq) as [[b ->]| ->]; eauto.
Qed.

(** The Record that the extraction fills from shaped data, field by
    field. *)
Lemma arin_read_fields_value item w :
  arin_shaped (arin_data w) = true ->
  exists w',
    read_fields item w =
      (Returned
         (JObj
            [("ip_address", JStr item);
             ("organization",
              match getpath (arin_data w) org_path with
              | Returned v =>
                  if truthy v then v
                  else JStr "registered organization unavailable"
              | _ => JNull
              end);
             ("network",
              match getpath (arin_data w) start_path with
              | Returned a =>
                  if truthy a then
                    match getpath (arin_data w) end_path with
                    | Returned b => JStr (py_str a ++ "-" ++ py_str b)
                    | _ => JNull
                    end
                  else JStr "netblock range unavailable"
              | _ => JNull
              end);
             ("cidr",
              match getpath (arin_data w) start_path with
              | Returned a =>
                  if truthy a then
                    match getpath (arin_data w) cidr_path with
                    | Returned b => JStr (py_str a ++ "/" ++ py_str b)
                    | _ => JNull
                    end
                  else JStr "CIDR range unavailable"
              | _ => JNull
              end)]), w').
Proof.
  intros Hs. destruct (arin_shaped_paths _ Hs) as (Ho & Hst & He & Hc).
  destruct (arin_organization_value w Ho) as (w1 & E1 & D1).
  assert (Hst1 : dicts_along (arin_data w1) start_path = true) by now rewrite D1.
  assert (He1 : dicts_along (arin_data w1) end_path = true) by now rewrite D1.
  destruct (arin_pair_value _ _ _ _ _ _ w1 arin_network_range_spec Hst1 He1)
    as (w2 & E2 & D2).
  assert (Hst2 : dicts_along (arin_data w2) start_path = true)
    by now rewrite D2, D1.
  assert (Hc2 : dicts_along (arin_data w2) cidr_path = true)
    by now rewrite D2, D1.
  destruct (arin_pair_value _ _ _ _ _ _ w2 arin_cidr_range_spec Hst2 Hc2)
    as (w3 & E3 & D3).
  exists w3. unfold read_fields, bind. rewrite E1, E2, E3.
  now rewrite D2, D1.
Qed.

End ArinTotal.

Module MacTotal.
Import MacAddressLookup MacFacts.

(** What the fetch does, reply by reply. *)
Lemma mac_fetch_cases net hardware_id w :
  _get_json_data net hardware_id w =
    match net (requests_sent w) (mac_request hardware_id) with
    | Answer r =>
        if status_code r =? 400 then
          (Exited 1, log [red "An unknown error has occurred."] (sent w))
        else if status_code r =? 401 then
          (Exited 1, log [red "An Unauthorized Request has occurred."] (sent w))
        else if status_code r =? 429 then
          (Exited 1,
           log [red "Too Many Requests with the Rate Limit period."] (sent w))
        else if status_code r =? 200 then
          match text r with
          | JSONText d => (Returned d, with_mac_data d (sent w))
          | NotJSON m => (Raised (RequestException InvalidJSONError m), sent w)
          end
        else (Returned JNull, sent w)
    | Failure kind m => (Raised (RequestException kind m), sent w)
    end.
Proof.
  mac_run. unfold mac_request.
  destruct (net _ _) as [r|kind m]; [|reflexivity].
  destruct (status_code r =? 400); [reflexivity|].
  destruct (status_code r =? 401); [reflexivity|].
  destruct (status_code r =? 429); [reflexivity|].
  destruct (status_code r =? 200); [|reflexivity].
  destruct (text r); reflexivity.
Qed.

Lemma mac_read_fields_returns item w :
  is_dict (mac_data w) = true ->
  exists org address country w',
    read_fields item w
      = (Returned (JObj [("mac_address", JStr item);
                         ("registered_organization", org);
                         ("organization_address", address);
                         ("country", country)]), w')
    /\ mac_data w' = mac_data w.
Proof.
  intros Hd. destruct (mac_data w) as [| | | | | |fields] eqn:D; try discriminate.
  assert (H1 : exists org w1, _get_registered_organization w = (Returned org, w1)
                              /\ mac_data w1 = JObj fields).
  { rewrite (mac_organization_spec w fields D).
    destruct (dict_get "isRand" fields) as [[| [|] | | | | |]|]; eauto.
    destruct (dict_get "company" fields); eauto. }
  destruct H1 as (org & w1 & E1 & D1).
  assert (H2 : exists a w2, _get_registered_organization_address w1 = (Returned a, w2)
                            /\ mac_data w2 = JObj fields).
  { rewrite (mac_address_spec w1 fields D1).
    destruct (dict_get "address" fields); eauto. }
  destruct H2 as (a & w2 & E2 & D2).
  assert (H3 : exists c w3, _get_registered_organization_country w2 = (Returned c, w3)
                            /\ mac_data w3 = JObj fields).
  { rewrite (mac_country_spec w2 fields D2).
    destruct (dict_get "country" fields); eauto. }
  destruct H3 as (c & w3 & E3 & D3).
  exists org, a, c, w3. split; [|exact D3].
  unfold read_fields, bind. now rewrite E1, E2, E3.
Qed.

Lemma mac_fetch_returns net item w :
  vendor_served (net (requests_sent w) (mac_request item)) = true ->
  is_dict (mac_data w) = true ->
  exists v w', _get_json_data net item w = (Returned v, w')
               /\ is_dict (mac_data w') = true.
Proof.
  intros Hserved Hd. rewrite mac_fetch_cases.
  destruct (net (requests_sent w) (mac_request item)) as [r|kind m];
    [|discriminate]. simpl in Hserved.
  destruct (status_code r =? 400); [discriminate|].
  destruct (status_code r =? 401); [discriminate|].
  destruct (status_code r =? 429); [discriminate|].
  destruct (status_code r =? 200); [|eauto].
  destruct (text r) as [[| | | | | |fields]|m]; try discriminate. eauto.
Qed.

Lemma mac_lookup_one_returns net item w :
  vendor_served (net (requests_sent w) (mac_request item)) = true ->
  is_dict (mac_data w) = true ->
  exists org address country w',
    lookup_one net item w
      = (Returned (JObj [("mac_address", JStr item);
                         ("registered_organization", org);
                         ("organization_address", address);
                         ("country", country)]), w')
    /\ is_dict (mac_data w') = true.
Proof.
  intros Hserved Hd.
  destruct (mac_fetch_returns net item w Hserved Hd) as (v & w1 & E1 & D1).
  destruct (mac_read_fields_returns item w1 D1) as (org & a & c & w2 & E2 & D2).
  exists org, a, c, w2. split; [|now rewrite D2].
  unfold lookup_one, bind. now rewrite E1, E2.
Qed.

Lemma mac_query_loop_returns net : forall items data_elements w,
  (forall n req, vendor_served (net n req) = true) ->
  is_dict (mac_data w) = true ->
  exists records w',
    query_loop net items data_elements w
      = (Returned (JArr (data_elements ++ records)), w')
    /\ map (dict_of_key "mac_address") records
       = map (fun item => Some (JStr item)) items.
Proof.
  induction items as [|item rest IH]; intros acc w Hnet Hd.
  - exists [], w. simpl. now rewrite app_nil_r.
  - destruct (mac_lookup_one_returns net item w (Hnet _ _) Hd)
      as (org & a & c & w1 & E1 & D1).
    destruct (IH (acc ++ [JObj [("mac_address", JStr item);
                                ("registered_organization", org);
                                ("organization_address", a);
                                ("country", c)]])%list w1 Hnet D1)
      as (records & w2 & E2 & Hk).
    eexists (_ :: records), w2. split.
    + simpl. unfold bind at 1. rewrite E1, E2. now rewrite <- app_assoc.
    + simpl. now rewrite Hk.
Qed.

(** The Record that the extraction fills from a dict, field by field. *)
Lemma mac_read_fields_value item w fields :
  mac_data w = JObj fields ->
  exists w',
    read_fields item w =
      (Returned
         (JObj
            [("mac_address", JStr item);
             ("registered_organization",
              match dict_get "isRand" fields with
              | Some (JBool true) => JStr "randomly assigned"
              | Some (JBool false) => or_None (dict_get "company" fields)
              | _ => JNull
              end);
             ("organization_address",
              match dict_get "address" fields with
              | Some v => if truthy v then v else JStr "address unavailable"
              | None => JNull
              end);
             ("country",
              match dict_get "country" fields with
              | Some v => if truthy v then v else JStr "country unavailable"
              | None => JNull
              end)]), w').
Proof.
  intros D.
  assert (H1 : exists w1,
             _get_registered_organization w =
               (Returned match dict_get "isRand" fields with
                         | Some (JBool true) => JStr "randomly assigned"
                         | Some (JBool false) => or_None (dict_get "company" fields)
                         | _ => JNull
                         end, w1)
             /\ mac_data w1 = JObj fields).
  { rewrite (mac_organization_spec w fields D).
    destruct (dict_get "isRand" fields) as [[| [|] | | | | |]|]; eauto.
    destruct (dict_get "company" fields); eauto. }
  destruct H1 as (w1 & E1 & D1).
  assert (H2 : exists w2,
             _get_registered_organization_address w1 =
               (Returned match dict_get "address" fields with
                         | Some v => if truthy v then v
                                     else JStr "address unavailable"
                         | None => JNull
                         end, w2)
             /\ mac_data w2 = JObj fields).
  { rewrite (mac_address_spec w1 fields D1).
    destruct (dict_get "address" fields); eauto. }
  destruct H2 as (w2 & E2 & D2).
  assert (H3 : exists w3,
             _get_registered_organization_country w2 =
               (Returned match dict_get "country" fields with
                         | Some v => if truthy v then v
                                     else JStr "country unavailable"
                         | None => JNull
                         end, w3)).
  { rewrite (mac_country_spec w2 fields D2).
    destruct (dict_get "country" fields); eauto. }
  destruct H3 as (w3 & E3).
  exists w3. unfold read_fields, bind. now rewrite E1, E2, E3.
Qed.

End MacTotal.

(** ** Loops that keep a Record only for data that is true *)

Section GuardedLoop.

Variable net : network.
Variable mk : string -> request.
Variable fetch : string -> M json.
Variable decode : json -> outcome json.
Variable loop : list string -> list json -> M json.
Variable yield : reply -> option json.
Variable served : reply -> bool.

Hypothesis loop_nil : forall acc, loop [] acc = ret (JArr acc).
Hypothesis loop_cons : forall item rest acc,
  loop (item :: rest) acc =
    (data <- fetch item ;;
     if truthy data then
       record <- lift (decode data) ;; loop rest (acc ++ [record])
     else loop rest acc).

Hypothesis fetch_yield : forall item w d w1,
  fetch item w = (Returned d, w1) ->
  requests_sent w1 = S (requests_sent w)
  /\ yield (net (requests_sent w) (mk item)) = if truthy d then Some d else None.

Hypothesis fetch_served : forall item w,
  served (net (requests_sent w) (mk item)) = true ->
  exists d w1, fetch item w = (Returned d, w1)
               /\ (truthy d = true -> exists r, decode d = Returned r).

Lemma yielded_length : forall items n,
  (List.length (yielded yield mk net n items) <= List.length items)%nat.
Proof.
  induction items as [|item rest IH]; intros n; simpl; [lia|].
  destruct (yield _); simpl; specialize (IH (S n)); lia.
Qed.

(** When the loop returns, it returns the list built so far followed by
    one Record for each identifier that yielded data, in order. *)
Lemma guarded_loop_result : forall items acc w v w',
  loop items acc w = (Returned v, w') ->
  exists records,
    v = JArr (acc ++ records)
    /\ Forall2 (fun d r => decode d = Returned r)
               (yielded yield mk net (requests_sent w) items) records.
Proof.
  induction items as [|item rest IH]; intros acc w v w' Hrun.
  - rewrite loop_nil in Hrun. injection Hrun as <- <-.
    exists []. rewrite app_nil_r. split; [reflexivity|constructor].
  - rewrite loop_cons in Hrun. unfold bind at 1 in Hrun.
    destruct (fetch item w) as [[d|c|e] w1] eqn:Ef; try discriminate.
    destruct (fetch_yield _ _ _ _ Ef) as [Hn Hy]. simpl. rewrite Hy.
    destruct (truthy d).
    + unfold bind, lift in Hrun.
      destruct (decode d) as [r|c|e] eqn:Ed; try discriminate.
      destruct (IH _ _ _ _ Hrun) as (records & -> & HF).
      exists (r :: records). rewrite <- app_assoc. split; [reflexivity|].
      constructor; [exact Ed|]. now rewrite <- Hn.
    + destruct (IH _ _ _ _ Hrun) as (records & -> & HF).
      exists records. split; [reflexivity|]. now rewrite <- Hn.
Qed.

(** When every request is served, the loop returns. *)
Lemma guarded_loop_returns : forall items acc w,
  (forall n req, served (net n req) = true) ->
  exists v w', loop items acc w = (Returned v, w').
Proof.
  induction items as [|item rest IH]; intros acc w Hs.
  - rewrite loop_nil. now exists (JArr acc), w.
  - rewrite loop_cons. unfold bind at 1.
    destruct (fetch_served item w (Hs _ _)) as (d & w1 & -> & Hdec).
    destruct (truthy d).
    + destruct (Hdec eq_refl) as [r Hr]. unfold bind, lift. rewrite Hr.
      apply IH, Hs.
    + apply IH, Hs.
Qed.

End GuardedLoop.

(** Subscripting raises nothing but a lookup error. *)
Lemma getitem_raises v k e :
  getitem v k = Raised e -> e = KeyError \/ e = TypeError.
Proof.
  destruct v; simpl; try (intros [= <-]; auto).
  destruct (dict_get k fields); intros H; inversion H; auto.
Qed.

Lemma getitem_int_raises v i e :
  getitem_int v i = Raised e -> e = KeyError \/ e = TypeError \/ e = IndexError.
Proof.
  destruct v; simpl; try (intros [= <-]; auto).
  - destruct (_ && _); [|intros [= <-]; auto].
    destruct (String.get _ _); intros H; inversion H; auto.
  - destruct (_ && _); [|intros [= <-]; auto].
    destruct (nth_error _ _); intros H; inversion H; auto.
Qed.

Lemma getitem_no_exit v k c : getitem v k <> Exited c.
Proof.
  destruct v; simpl; try discriminate. destruct (dict_get k fields); discriminate.
Qed.

Lemma getitem_int_no_exit v i c : getitem_int v i <> Exited c.
Proof.
  destruct v; simpl; try discriminate.
  - destruct (_ && _); [destruct (String.get _ _)|]; discriminate.
  - destruct (_ && _); [destruct (nth_error _ _)|]; discriminate.
Qed.

Module ReputationFacts.
Import IPReputation.

(** Reading the error detail raises nothing but a lookup error. *)
Lemma abuse_error_detail_raises d e :
  error_detail d = Raised e ->
  e = KeyError \/ e = TypeError \/ e = IndexError.
Proof.
  unfold error_detail, obind.
  destruct (getitem d "errors") as [errors| |e1] eqn:E1; try discriminate.
  2:{ intros [= <-]. destruct (getitem_raises _ _ _ E1); auto. }
  destruct (getitem_int errors 0) as [first| |e2] eqn:E2; try discriminate.
  2:{ intros [= <-]. apply (getitem_int_raises _ _ _ E2). }
  destruct (getitem first "detail") as [detail| |e3] eqn:E3; try discriminate.
  intros [= <-]. destruct (getitem_raises _ _ _ E3); auto.
Qed.

Lemma abuse_error_detail_no_exit d c : error_detail d <> Exited c.
Proof.
  unfold error_detail, obind.
  destruct (getitem d "errors") as [errors|c1|e1] eqn:E1;
    [|now apply getitem_no_exit in E1|discriminate].
  destruct (getitem_int errors 0) as [first|c2|e2] eqn:E2;
    [|now apply getitem_int_no_exit in E2|discriminate].
  destruct (getitem first "detail") as [detail|c3|e3] eqn:E3;
    [discriminate|now apply getitem_no_exit in E3|discriminate].
Qed.

(** What the fetch does, reply by reply. *)
Lemma abuse_fetch_cases net ip key w :
  _get_json_data net ip key w =
    match net (requests_sent w) (abuse_request ip key) with
    | Answer r =>
        match text r with
        | JSONText d =>
            if (status_code r =? 401) || (status_code r =? 422)
               || (status_code r =? 429)
            then match error_detail d with
                 | Returned m => (Returned JNull, log [red m] (sent w))
                 | Exited c => (Exited c, sent w)
                 | Raised e => (Raised e, sent w)
                 end
            else if status_code r =? 200 then (Returned d, sent w)
                 else (Returned JNull, sent w)
        | NotJSON _ => (Raised JSONDecodeError, sent w)
        end
    | Failure kind m =>
        if is_ConnectionError kind then
          (Exited 1, log [red "A ConnectionError has occurred."] (sent w))
        else if is_Timeout kind then
          (Exited 1, log [red "A connection timeout has occurred."] (sent w))
        else (Raised (RequestException kind m), sent w)
    end.
Proof.
  cbv [_get_json_data sleep_randint_1_3 bind ret try_except requests_request
       lift json_loads_text colorized_text report_error_detail sys_exit
       abuse_request or_None].
  destruct (net _ _) as [r|kind m].
  - destruct (text r) as [d|m]; [|reflexivity].
    assert (Hd : match error_detail d with
                 | Raised (RequestException _ _) => False
                 | _ => True
                 end).
    { destruct (error_detail d) as [m|c|e] eqn:E; auto.
      destruct (abuse_error_detail_raises _ _ E) as [ -> | [ -> | -> ] ]; exact I. }
    destruct (status_code r =? 401); simpl.
    { destruct (error_detail d) as [m|c|[]]; (reflexivity || contradiction). }
    destruct (status_code r =? 422); simpl.
    { destruct (error_detail d) as [m|c|[]]; (reflexivity || contradiction). }
    destruct (status_code r =? 429); simpl.
    { destruct (error_detail d) as [m|c|[]]; (reflexivity || contradiction). }
    destruct (status_code r =? 200); reflexivity.
  - destruct kind; reflexivity.
Qed.

Lemma abuse_fetch_yield net key item w d w1 :
  _get_json_data net item key w = (Returned d, w1) ->
  requests_sent w1 = S (requests_sent w)
  /\ abuse_yield (net (requests_sent w) (abuse_request item key))
     = if truthy d then Some d else None.
Proof.
  rewrite abuse_fetch_cases. unfold abuse_yield.
  destruct (net _ _) as [r|kind m].
  - destruct (text r) as [d0|m]; [|discriminate].
    destruct (Z.eqb_spec (status_code r) 401) as [ -> |H1]; simpl.
    { destruct (error_detail d0); intros [= <- <-]; auto. }
    destruct (Z.eqb_spec (status_code r) 422) as [ -> |H2]; simpl.
    { destruct (error_detail d0); intros [= <- <-]; auto. }
    destruct (Z.eqb_spec (status_code r) 429) as [ -> |H3]; simpl.
    { destruct (error_detail d0); intros [= <- <-]; auto. }
    destruct (status_code r =? 200); simpl; intros [= <- <-]; auto.
  - destruct (is_ConnectionError kind); [discriminate|].
    destruct (is_Timeout kind); discriminate.
Qed.

Lemma abuse_fetch_served net key item w :
  abuse_served (net (requests_sent w) (abuse_request item key)) = true ->
  exists d w1, _get_json_data net item key w = (Returned d, w1)
               /\ (truthy d = true -> exists r, _decoded_json d = Returned r).
Proof.
  rewrite abuse_fetch_cases. unfold abuse_served.
  destruct (net _ _) as [r|kind m]; [|discriminate].
  destruct (text r) as [d0|m]; [|discriminate].
  destruct ((status_code r =? 401) || (status_code r =? 422)
            || (status_code r =? 429)).
  - destruct (error_detail d0); try discriminate. intros _.
    eexists; eexists; split; [reflexivity|discriminate].
  - destruct (status_code r =? 200); simpl.
    + destruct (truthy d0) eqn:T.
      * destruct (_decoded_json d0) as [rec| |] eqn:D; try discriminate.
        intros _. eexists; eexists; split; [reflexivity|]. intros _. eauto.
      * intros _. eexists; eexists; split; [reflexivity|]. congruence.
    + intros _. eexists; eexists; split; [reflexivity|discriminate].
Qed.

End ReputationFacts.

Module GeoFacts.
Import IPGeoLocation.

(** What the fetch does, reply by reply. *)
Lemma geo_fetch_cases net ip w :
  _get_json_data net ip w =
    match net (requests_sent w) (geo_request ip) with
    | Answer r =>
        match text r with
        | JSONText d =>
            if status_code r =? 200 then
              match getitem d "status" with
              | Returned s =>
                  if eq_str s "fail" then
                    (Returned JNull,
                     log [red ("The query failed. Please review your input data for "
                                 ++ ip)] (sent w))
                  else if eq_str s "success" then (Returned d, sent w)
                  else (Returned JNull, sent w)
              | Exited c => (Exited c, sent w)
              | Raised e => (Raised e, sent w)
              end
            else (Returned JNull, sent w)
        | NotJSON _ => (Raised JSONDecodeError, sent w)
        end
    | Failure kind m =>
        if is_ConnectionError kind then
          (Exited 1, log [red "A ConnectionError has occurred."] (sent w))
        else if is_Timeout kind then
          (Exited 1, log [red "A connection timeout has occurred."] (sent w))
        else (Raised (RequestException kind m), sent w)
    end.
Proof.
  cbv [_get_json_data sleep_randint_1_3 bind ret try_except requests_request
       lift json_loads_text colorized_text sys_exit geo_request or_None].
  destruct (net _ _) as [r|kind m].
  - destruct (text r) as [d|m]; [|reflexivity].
    destruct (status_code r =? 200); [|reflexivity].
    assert (Hd : match getitem d "status" with
                 | Raised (RequestException _ _) => False
                 | _ => True
                 end).
    { destruct (getitem d "status") as [s|c|e] eqn:E; auto.
      destruct (getitem_raises _ _ _ E) as [ -> | -> ]; exact I. }
    destruct (getitem d "status") as [s|c|[]];
      try (reflexivity || contradiction).
    destruct (eq_str s "fail"); [reflexivity|].
    destruct (eq_str s "success"); reflexivity.
  - destruct kind; reflexivity.
Qed.

Lemma geo_success_truthy d s :
  getitem d "status" = Returned s -> truthy d = true.
Proof. destruct d as [| | | | | |[|kv fields]]; simpl; try discriminate. easy. Qed.

Lemma geo_fail_not_success s : eq_str s "fail" = true -> eq_str s "success" = false.
Proof.
  destruct s; simpl; try discriminate.
  intros H. apply String.eqb_eq in H. now subst.
Qed.

Lemma geo_fetch_yield net item w d w1 :
  _get_json_data net item w = (Returned d, w1) ->
  requests_sent w1 = S (requests_sent w)
  /\ geo_yield (net (requests_sent w) (geo_request item))
     = if truthy d then Some d else None.
Proof.
  rewrite geo_fetch_cases. unfold geo_yield.
  destruct (net _ _) as [r|kind m].
  - destruct (text r) as [d0|m]; [|discriminate].
    destruct (status_code r =? 200); simpl.
    + destruct (getitem d0 "status") as [s|c|e] eqn:Es; try discriminate.
      destruct (eq_str s "fail") eqn:Ef.
      * rewrite (geo_fail_not_success _ Ef). intros [= <- <-]; auto.
      * destruct (eq_str s "success"); intros [= <- <-]; auto.
        now rewrite (geo_success_truthy _ _ Es).
    + destruct (getitem d0 "status"); intros [= <- <-]; auto.
  - destruct (is_ConnectionError kind); [discriminate|].
    destruct (is_Timeout kind); discriminate.
Qed.

Lemma geo_fetch_served net item w :
  geo_served (net (requests_sent w) (geo_request item)) = true ->
  exists d w1, _get_json_data net item w = (Returned d, w1)
               /\ (truthy d = true -> exists r, _decoded_json d = Returned r).
Proof.
  rewrite geo_fetch_cases. unfold geo_served.
  destruct (net _ _) as [r|kind m]; [|discriminate].
  destruct (text r) as [d0|m]; [|discriminate].
  destruct (status_code r =? 200).
  - destruct (getitem d0 "status") as [s|c|e]; try discriminate.
    destruct (eq_str s "fail").
    + intros _. eexists; eexists; split; [reflexivity|discriminate].
    + destruct (eq_str s "success").
      * destruct (_decoded_json d0) as [rec| |] eqn:D; try discriminate.
        intros _. eexists; eexists; split; [reflexivity|]. intros _. eauto.
      * intros _. eexists; eexists; split; [reflexivity|discriminate].
  - intros _. eexists; eexists; split; [reflexivity|discriminate].
Qed.

End GeoFacts.

(** ** Complete bodies decode *)

Lemma forallb_has_key fields keys k :
  forallb (has_key fields) keys = true -> In k keys ->
  exists v, dict_get k fields = Some v.
Proof.
  rewrite forallb_forall. intros H Hin. specialize (H k Hin).
  unfold has_key in H. destruct (dict_get k fields) as [v|]; [eauto|discriminate].
Qed.

Lemma abuse_complete_decodes d :
  abuse_complete d = true ->
  exists fields,
    IPReputation._decoded_json d = Returned (JObj fields)
    /\ has_key fields "ip_address" = true.
Proof.
  unfold abuse_complete.
  destruct (getitem d "data") as [[| | | | | |fields]| |] eqn:Ed; try discriminate.
  rewrite andb_true_iff. intros [Hkeys Hscore].
  assert (Hk : forall k, In k abuse_keys -> exists v, dict_get k fields = Some v)
    by (intros k; apply forallb_has_key, Hkeys).
  destruct (Hk "ipAddress") as [v1 E1]; [simpl; tauto|].
  destruct (Hk "domain") as [v2 E2]; [simpl; tauto|].
  destruct (Hk "hostnames") as [v3 E3]; [simpl; tauto|].
  destruct (Hk "usageType") as [v4 E4]; [simpl; tauto|].
  destruct (Hk "isp") as [v5 E5]; [simpl; tauto|].
  destruct (Hk "countryCode") as [v6 E6]; [simpl; tauto|].
  destruct (Hk "isWhitelisted") as [v7 E7]; [simpl; tauto|].
  destruct (Hk "isTor") as [v8 E8]; [simpl; tauto|].
  destruct (Hk "totalReports") as [v9 E9]; [simpl; tauto|].
  destruct (Hk "lastReportedAt") as [v10 E10]; [simpl; tauto|].
  destruct (dict_get "abuseConfidenceScore" fields) as [[| |score| | | |]|] eqn:Es;
    try discriminate.
  unfold IPReputation._decoded_json, IPReputation.dumps_data.
  rewrite Ed. unfold obind, getitem.
  rewrite E1, E2, E3, E4, E5, E6, E7, E8, E9, E10, Es.
  change (json_dumps (JInt score)) with (int_repr score).
  rewrite py_int_int_repr.
  eexists; split; reflexivity.
Qed.

Lemma geo_complete_decodes d :
  geo_complete d = true ->
  exists fields,
    IPGeoLocation._decoded_json d = Returned (JObj fields)
    /\ has_key fields "ip_address" = true.
Proof.
  destruct d as [| | | | | |fields]; try discriminate. simpl.
  intros Hkeys.
  assert (Hk : forall k, In k geo_keys -> exists v, dict_get k fields = Some v)
    by (intros k; apply forallb_has_key, Hkeys).
  destruct (Hk "query") as [v1 E1]; [simpl; tauto|].
  destruct (Hk "org") as [v2 E2]; [simpl; tauto|].
  destruct (Hk "isp") as [v3 E3]; [simpl; tauto|].
  destruct (Hk "countryCode") as [v4 E4]; [simpl; tauto|].
  destruct (Hk "regionName") as [v5 E5]; [simpl; tauto|].
  destruct (Hk "city") as [v6 E6]; [simpl; tauto|].
  destruct (Hk "lat") as [v7 E7]; [simpl; tauto|].
  destruct (Hk "lon") as [v8 E8]; [simpl; tauto|].
  destruct (Hk "timezone") as [v9 E9]; [simpl; tauto|].
  destruct (Hk "as") as [v10 E10]; [simpl; tauto|].
  unfold IPGeoLocation._decoded_json, IPGeoLocation.dumps_field, getitem, obind.
  rewrite E1, E2, E3, E4, E5, E6, E7, E8, E9, E10.
  eexists; split; reflexivity.
Qed.

(** ** A scalar input *)




(** ** A list input *)




(** ** Data left from an earlier fetch *)

(** When the request is answered with a status other than 200, the
    fetch changes nothing but the count of requests, and the Record is
    read from what [data] held before. *)
Lemma arin_lookup_one_no_data net item w r :
  net (requests_sent w) (arin_request item) = Answer r ->
  status_code r <> 200 ->
  ArinWhois.lookup_one net item w = ArinWhois.read_fields item (sent w).
Proof.
  intros Hnet Hcode. unfold ArinWhois.lookup_one, bind.
  rewrite ArinFacts.arin_fetch_cases, Hnet.
  now destruct (Z.eqb_spec (status_code r) 200).
Qed.

Lemma mac_lookup_one_no_data net item w r :
  net (requests_sent w) (mac_request item) = Answer r ->
  status_code r <> 200 -> status_code r <> 400 ->
  status_code r <> 401 -> status_code r <> 429 ->
  MacAddressLookup.lookup_one net item w
    = MacAddressLookup.read_fields item (sent w).
Proof.
  intros Hnet H200 H400 H401 H429. unfold MacAddressLookup.lookup_one, bind.
  rewrite MacTotal.mac_fetch_cases, Hnet.
  destruct (Z.eqb_spec (status_code r) 400); [contradiction|].
  destruct (Z.eqb_spec (status_code r) 401); [contradiction|].
  destruct (Z.eqb_spec (status_code r) 429); [contradiction|].
  now destruct (Z.eqb_spec (status_code r) 200).
Qed.

(** C5: in a list lookup of the registry the second identifier is
    answered 404, its fetch returns [None], and its Record holds the
    organization, the range and the CIDR block of the first
    identifier's response; the vendor lookup does the same. *)
Theorem record_from_previous_response :
  fst (ArinWhois.query_whois
         (net_ok_then_404 (sample_arin "Example Org" "192.0.2.0" "192.0.2.255" "24"))
         (LList ["192.0.2.7"; "198.51.100.1"]) initial_world)
  = Returned
      (JArr [JObj [("ip_address", JStr "192.0.2.7");
                   ("organization", JStr "Example Org");
                   ("network", JStr "192.0.2.0-192.0.2.255");
                   ("cidr", JStr "192.0.2.0/24")];
             JObj [("ip_address", JStr "198.51.100.1");
                   ("organization", JStr "Example Org");
                   ("network", JStr "192.0.2.0-192.0.2.255");
                   ("cidr", JStr "192.0.2.0/24")]])
  /\ fst (ArinWhois._get_whois_json
            (net_ok_then_404 (sample_arin "Example Org" "192.0.2.0" "192.0.2.255" "24"))
            "198.51.100.1"
            (snd (ArinWhois.lookup_one
                    (net_ok_then_404
                       (sample_arin "Example Org" "192.0.2.0" "192.0.2.255" "24"))
                    "192.0.2.7" initial_world)))
     = Returned JNull
  /\ fst (MacAddressLookup.lookup_address_information
            (net_ok_then_404 (JObj sample_mac_vendor))
            (LList ["04:7b:cb:3b:75:94"; "00:00:5e:00:53:01"]) initial_world)
     = Returned
         (JArr [JObj [("mac_address", JStr "04:7b:cb:3b:75:94");
                      ("registered_organization",
                       JStr "Universal Global Scientific");
                      ("organization_address",
                       JStr "141, Lane 351, Taiping Road");
                      ("country", JStr "TW")];
                JObj [("mac_address", JStr "00:00:5e:00:53:01");
                      ("registered_organization",
                       JStr "Universal Global Scientific");
                      ("organization_address",
                       JStr "141, Lane 351, Taiping Road");
                      ("country", JStr "TW")]]).
Proof. split; [|split]; vm_compute; reflexivity. Qed.

(** ** A field that is missing from the response *)

Lemma py_int_outcome s :
  (exists z, py_int s = Returned z) \/ py_int s = Raised ValueError.
Proof.
  assert (H : forall t, (exists z, unsigned_of_text t = Returned z)
                        \/ unsigned_of_text t = Raised ValueError).
  { intros t. unfold unsigned_of_text.
    destruct (int_digits false t); [|now right].
    destruct (NilEmpty.uint_of_string _); [left; eauto|now right]. }
  unfold py_int. destruct (strip is_space s) as [|c r]; [now right|].
  destruct (Ascii.eqb c "-").
  - destruct (H r) as [[z ->]| ->]; simpl; [left; eauto|now right].
  - destruct (Ascii.eqb c "+"); apply H.
Qed.

Module ReputationMissing.
Import IPReputation.

Lemma abuse_dumps_data_present d fields k v :
  getitem d "data" = Returned (JObj fields) ->
  dict_get k fields = Some v ->
  dumps_data d k = Returned (json_dumps v).
Proof. intros Hd Hk. unfold dumps_data. rewrite Hd. simpl. now rewrite Hk. Qed.

Lemma abuse_dumps_data_missing d fields k :
  getitem d "data" = Returned (JObj fields) ->
  dict_get k fields = None ->
  dumps_data d k = Raised KeyError.
Proof. intros Hd Hk. unfold dumps_data. rewrite Hd. simpl. now rewrite Hk. Qed.

Ltac abuse_read_key Hd fields key :=
  let E := fresh "E" in
  destruct (dict_get key fields) as [?|] eqn:E;
  [ rewrite (abuse_dumps_data_present _ _ key _ Hd E)
  | rewrite (abuse_dumps_data_missing _ _ key Hd E); eauto ].

(** Without one of the keys the extraction raises: [KeyError] at the
    first missing key, or [ValueError] earlier, at a confidence score
    that is not the text of an integer. *)
Lemma abuse_decoded_json_missing d fields k :
  getitem d "data" = Returned (JObj fields) ->
  In k abuse_keys ->
  dict_get k fields = None ->
  exists e, _decoded_json d = Raised e /\ (e = KeyError \/ e = ValueError).
Proof.
  intros Hd Hin Hk. unfold _decoded_json, obind.
  abuse_read_key Hd fields "ipAddress". abuse_read_key Hd fields "domain".
  abuse_read_key Hd fields "hostnames". abuse_read_key Hd fields "usageType".
  abuse_read_key Hd fields "isp". abuse_read_key Hd fields "countryCode".
  abuse_read_key Hd fields "abuseConfidenceScore".
  match goal with
  | |- context [py_int ?t] =>
      destruct (py_int_outcome t) as [[z ->]| ->]; [|eauto]
  end.
  abuse_read_key Hd fields "isWhitelisted". abuse_read_key Hd fields "isTor".
  abuse_read_key Hd fields "totalReports". abuse_read_key Hd fields "lastReportedAt".
  exfalso. simpl in Hin.
  repeat (destruct Hin as [<-|Hin]; [congruence|]). exact Hin.
Qed.

End ReputationMissing.

Module GeoMissing.
Import IPGeoLocation.

Lemma geo_dumps_field_present fields k v :
  dict_get k fields = Some v ->
  dumps_field (JObj fields) k = Returned (json_dumps v).
Proof. intros Hk. unfold dumps_field. simpl. now rewrite Hk. Qed.

Lemma geo_dumps_field_missing fields k :
  dict_get k fields = None ->
  dumps_field (JObj fields) k = Raised KeyError.
Proof. intros Hk. unfold dumps_field. simpl. now rewrite Hk. Qed.

Ltac geo_read_key fields key :=
  let E := fresh "E" in
  destruct (dict_get key fields) as [?|] eqn:E;
  [ rewrite (geo_dumps_field_present _ key _ E)
  | rewrite (geo_dumps_field_missing _ key E); reflexivity ].

(** Without one of the keys the extraction raises [KeyError]. *)
Lemma geo_decoded_json_missing fields k :
  In k geo_keys ->
  dict_get k fields = None ->
  _decoded_json (JObj fields) = Raised KeyError.
Proof.
  intros Hin Hk. unfold _decoded_json, obind.
  geo_read_key fields "query". geo_read_key fields "org".
  geo_read_key fields "isp". geo_read_key fields "countryCode".
  geo_read_key fields "regionName". geo_read_key fields "city".
  geo_read_key fields "lat". geo_read_key fields "lon".
  geo_read_key fields "timezone". geo_read_key fields "as".
  exfalso. simpl in Hin.
  repeat (destruct Hin as [<-|Hin]; [congruence|]). exact Hin.
Qed.

End GeoMissing.




(** * Further properties *)

(** ** The range of the abuse level *)

Lemma determine_abuse_level_none (score : Z) :
  IPReputation._determine_abuse_level score = None
  <-> score < 0 \/ 100 < score.
Proof.
  rewrite determine_abuse_level_bands.
  destruct (Z.eqb_spec score 0) as [->|H0]; [split; [discriminate|lia]|].
  destruct (Z.ltb_spec 0 score), (Z.leb_spec score 25); simpl;
    try (split; [discriminate|lia]);
    destruct (Z.ltb_spec 25 score), (Z.ltb_spec score 100); simpl;
    try (split; [discriminate|lia]);
    destruct (Z.eqb_spec score 100); try (split; [discriminate|lia]);
    (split; [intros _; lia|reflexivity]).
Qed.

(** X1: the classifier gives no label exactly for the scores below 0
    and above 100. *)
Theorem abuse_level_none_iff (score : Z) :
  IPReputation._determine_abuse_level score = None
  <-> score < 0 \/ 100 < score.
Proof.
  unfold IPReputation._determine_abuse_level.
  destruct (Z.eqb_spec score 0) as [->|H0]; [split; [discriminate|lia]|].
  destruct (Z.eqb_spec score 100) as [->|H100]; [split; [discriminate|lia]|].
  destruct (Z.ltb_spec score 100), (Z.ltb_spec 25 score); simpl;
    try (split; [discriminate|lia]);
    destruct (Z.ltb_spec 0 score), (Z.leb_spec score 25); simpl;
    try (split; [discriminate|lia]);
    (split; [intros _; lia|reflexivity]).
Qed.

(** ** Text of values *)

Section ValueText.

Lemma append_String c s t : (String c s ++ t)%string = String c (s ++ t).
Proof. reflexivity. Qed.

Lemma lstrip_first drop c r : drop c = false -> lstrip drop (String c r) = String c r.
Proof. intros H; simpl; now rewrite H. Qed.

Lemma lstrip_dropped drop c r :
  drop c = true -> lstrip drop (String c r) = lstrip drop r.
Proof. intros H; simpl; now rewrite H. Qed.

Lemma rstrip_first drop c r :
  drop c = false -> exists r', rstrip drop (String c r) = String c r'.
Proof.
  intros H. simpl. destruct (rstrip drop r); [rewrite H|]; unfold str1; eauto.
Qed.

(** Stripping keeps a first character that is not in the set. *)
Lemma strip_first drop c r :
  drop c = false -> exists r', strip drop (String c r) = String c r'.
Proof.
  intros H. unfold strip. rewrite (lstrip_first _ _ _ H).
  now apply rstrip_first.
Qed.

Lemma rstrip_end_kept drop c : forall s,
  drop c = false -> rstrip drop (s ++ str1 c) = s ++ str1 c.
Proof.
  intros s H. induction s as [|a s IH]; simpl.
  - now rewrite H.
  - rewrite IH. now destruct s.
Qed.

Lemma rstrip_end_dropped drop c : forall s,
  all_chars (fun a => negb (drop a)) s = true -> drop c = true ->
  rstrip drop (s ++ str1 c) = s.
Proof.
  intros s Hs H. induction s as [|a s IH]; simpl.
  - now rewrite H.
  - simpl in Hs. apply andb_true_iff in Hs as [Ha Hs].
    rewrite (IH Hs). apply negb_true_iff in Ha. rewrite Ha. now destruct s.
Qed.

(** Text between double quotes loses them, when it holds none itself. *)
Lemma strip_quotes_quoted s :
  all_chars not_dquote s = true ->
  strip_quotes (String dquote (s ++ str1 dquote)) = s.
Proof.
  intros Hs. destruct s as [|a s]; [reflexivity|].
  unfold strip_quotes, strip.
  assert (Hl : lstrip (Ascii.eqb dquote)
                 (String dquote (String a s ++ str1 dquote))
               = (String a s ++ str1 dquote)%string).
  { pose proof Hs as Hs'. simpl in Hs'. apply andb_true_iff in Hs' as [Ha _].
    unfold not_dquote in Ha. apply negb_true_iff in Ha.
    rewrite lstrip_dropped by reflexivity.
    rewrite append_String. now apply lstrip_first. }
  rewrite Hl. apply rstrip_end_dropped; [exact Hs|reflexivity].
Qed.

Lemma is_plain_not_dquote c : is_plain c = true -> not_dquote c = true.
Proof.
  unfold is_plain, not_dquote. rewrite !andb_true_iff.
  intros [[_ H] _]. now rewrite Ascii.eqb_sym.
Qed.

Lemma escape_ascii_plain c : is_plain c = true -> escape_ascii c = str1 c.
Proof.
  destruct c as [[|] [|] [|] [|] [|] [|] [|] [|]]; vm_compute;
    (reflexivity || discriminate).
Qed.

Lemma escape_body_plain s : all_chars is_plain s = true -> escape_body s = s.
Proof.
  induction s as [|c s IH]; simpl; [reflexivity|].
  rewrite andb_true_iff. intros [Hc Hs].
  now rewrite (escape_ascii_plain c Hc), (IH Hs).
Qed.

Lemma json_dumps_plain s :
  all_chars is_plain s = true ->
  json_dumps (JStr s) = String dquote (s ++ str1 dquote).
Proof.
  intros Hs. simpl. unfold encode_basestring_ascii.
  now rewrite (escape_body_plain s Hs).
Qed.

(** A string of plain characters comes back from [json.dumps] and
    [strip] as it was. *)
Lemma strip_quotes_plain s :
  all_chars is_plain s = true -> strip_quotes (json_dumps (JStr s)) = s.
Proof.
  intros Hs. rewrite (json_dumps_plain s Hs).
  apply strip_quotes_quoted.
  apply (all_chars_weaken is_plain); [apply is_plain_not_dquote|exact Hs].
Qed.

Lemma strip_quotes_brackets (a b : ascii) s :
  Ascii.eqb dquote a = false -> Ascii.eqb dquote b = false ->
  strip_quotes (String a (s ++ str1 b)) = String a (s ++ str1 b).
Proof.
  intros Ha Hb. unfold strip_quotes, strip.
  rewrite (lstrip_first _ _ _ Ha).
  change (String a (s ++ str1 b)) with ((String a s) ++ str1 b)%string.
  now apply rstrip_end_kept.
Qed.

Lemma append_assoc_str (s t u : string) : ((s ++ t) ++ u = s ++ (t ++ u))%string.
Proof. induction s as [|c s IH]; simpl; [reflexivity|now rewrite IH]. Qed.

(** The text of a value that is not a string has no double quote at
    either end: stripping leaves it as it is. *)
Lemma strip_quotes_non_string v :
  is_str v = false -> strip_quotes (json_dumps v) = json_dumps v.
Proof.
  destruct v as [|[|]|z|f|s|items|fields]; intros H; try discriminate H;
    try reflexivity.
  - now apply strip_quotes_number.
  - now apply strip_quotes_number.
  - simpl json_dumps. apply (strip_quotes_brackets "[" "]"); reflexivity.
  - simpl json_dumps. apply (strip_quotes_brackets "{" "}"); reflexivity.
Qed.

End ValueText.

Lemma length_append_str (s t : string) :
  String.length (s ++ t) = (String.length s + String.length t)%nat.
Proof. induction s as [|c s IH]; simpl; [reflexivity|now rewrite IH]. Qed.

Lemma quoted_differs s : String dquote (s ++ str1 dquote) <> s.
Proof.
  intros H. apply (f_equal String.length) in H. simpl in H.
  rewrite length_append_str in H. simpl in H. lia.
Qed.

(** ** The Record of the geolocation lookup, field by field *)

Section GeoRecord.

Variable fields : list (string * json).
Hypothesis Hcomplete : geo_complete (JObj fields) = true.

Lemma geo_value k :
  In k geo_keys -> dict_get k fields = Some (dict_value fields k).
Proof.
  intros Hin. simpl in Hcomplete.
  destruct (forallb_has_key fields geo_keys k Hcomplete Hin) as [v Hv].
  unfold dict_value. now rewrite Hv.
Qed.

(** The Record built from a body that has every key. *)
Lemma geo_decoded_record :
  IPGeoLocation._decoded_json (JObj fields) =
    Returned
      (JObj
         [("ip_address",
           JStr (strip_quotes (json_dumps (dict_value fields "query"))));
          ("domain_name",
           JStr (strip_quotes (json_dumps (dict_value fields "org"))));
          ("as_number",
           JStr (strip_quotes
                   (split_space_first (json_dumps (dict_value fields "as")))));
          ("isp_name",
           JStr (strip_quotes (json_dumps (dict_value fields "isp"))));
          ("country_code",
           JStr (strip_quotes (json_dumps (dict_value fields "countryCode"))));
          ("region_name", JStr (json_dumps (dict_value fields "regionName")));
          ("city_name",
           JStr (strip_quotes (json_dumps (dict_value fields "city"))));
          ("longitude",
           JStr (strip_quotes (json_dumps (dict_value fields "lat"))));
          ("latitude",
           JStr (strip_quotes (json_dumps (dict_value fields "lon"))));
          ("timezone",
           JStr (strip_quotes (json_dumps (dict_value fields "timezone"))))]).
Proof.
  unfold IPGeoLocation._decoded_json, IPGeoLocation.dumps_field, getitem, obind.
  rewrite !geo_value by (simpl; tauto). reflexivity.
Qed.

Lemma geo_stripped_field k o v :
  In (k, o) geo_stripped ->
  dict_get k fields = Some v ->
  exists record,
    IPGeoLocation._decoded_json (JObj fields) = Returned (JObj record)
    /\ dict_get o record = Some (JStr (strip_quotes (json_dumps v))).
Proof.
  intros Hin Hv. eexists. split; [apply geo_decoded_record|].
  assert (Hval : dict_value fields k = v) by (unfold dict_value; now rewrite Hv).
  simpl in Hin.
  repeat (destruct Hin as [Hin|Hin];
          [injection Hin as <- <-; rewrite <- Hval; reflexivity|]).
  destruct Hin.
Qed.

Lemma geo_unstripped_fields :
  exists record,
    IPGeoLocation._decoded_json (JObj fields) = Returned (JObj record)
    /\ dict_get "region_name" record
       = Some (JStr (json_dumps (dict_value fields "regionName")))
    /\ dict_get "as_number" record
       = Some (JStr (strip_quotes
                       (split_space_first
                          (json_dumps (dict_value fields "as"))))).
Proof.
  eexists. split; [apply geo_decoded_record|]. split; reflexivity.
Qed.

End GeoRecord.

(** X2: in the Record of a complete geolocation body, each field that
    is stripped holds a string of plain characters as it was in the
    response, and the JSON text of a value that is not a string (a
    number, [null], a boolean, a list or a dict). *)
Theorem geolocation_record_fields (fields : list (string * json)) :
  geo_complete (JObj fields) = true ->
  exists record,
    IPGeoLocation._decoded_json (JObj fields) = Returned (JObj record)
    /\ (forall k o s,
          In (k, o) geo_stripped ->
          dict_get k fields = Some (JStr s) ->
          all_chars is_plain s = true ->
          dict_get o record = Some (JStr s))
    /\ (forall k o v,
          In (k, o) geo_stripped ->
          dict_get k fields = Some v ->
          is_str v = false ->
          dict_get o record = Some (JStr (json_dumps v))).
Proof.
  intros Hc. eexists. split; [apply (geo_decoded_record fields Hc)|]. split.
  - intros k o s Hin Hv Hs.
    destruct (geo_stripped_field fields Hc k o _ Hin Hv) as (rec & Hrec & Hf).
    rewrite (geo_decoded_record fields Hc) in Hrec. injection Hrec as <-.
    now rewrite Hf, strip_quotes_plain.
  - intros k o v Hin Hv Hs.
    destruct (geo_stripped_field fields Hc k o _ Hin Hv) as (rec & Hrec & Hf).
    rewrite (geo_decoded_record fields Hc) in Hrec. injection Hrec as <-.
    now rewrite Hf, strip_quotes_non_string.
Qed.

Lemma geolocation_record_fields_witness :
  exists record,
    IPGeoLocation._decoded_json (JObj sample_geo) = Returned (JObj record)
    /\ dict_get "ip_address" record = Some (JStr "8.8.8.8")
    /\ dict_get "city_name" record = Some (JStr "Ashburn")
    /\ dict_get "longitude" record = Some (JStr "39.03").
Proof.
  destruct (geolocation_record_fields sample_geo eq_refl)
    as (record & Hrec & Hplain & Hother).
  exists record. split; [exact Hrec|]. split; [|split].
  - apply (Hplain "query"); [simpl; tauto|reflexivity|reflexivity].
  - apply (Hplain "city"); [simpl; tauto|reflexivity|reflexivity].
  - apply (Hother "lat" "longitude" (JFloat (FDec false 3903 2)));
      [simpl; tauto|reflexivity|reflexivity].
Defined.

(** X3: [region_name] is not stripped: for a string of plain characters
    the Record holds it between two double quotes, so it differs from
    the value in the response. *)
Theorem geolocation_region_name_quoted (fields : list (string * json))
    (s : string) :
  geo_complete (JObj fields) = true ->
  dict_get "regionName" fields = Some (JStr s) ->
  all_chars is_plain s = true ->
  exists record,
    IPGeoLocation._decoded_json (JObj fields) = Returned (JObj record)
    /\ dict_get "region_name" record
       = Some (JStr (String dquote (s ++ str1 dquote)))
    /\ dict_get "region_name" record <> Some (JStr s).
Proof.
  intros Hc Hv Hs.
  destruct (geo_unstripped_fields fields Hc) as (record & Hrec & Hf & _).
  unfold dict_value in Hf. rewrite Hv in Hf. simpl or_None in Hf.
  rewrite (json_dumps_plain s Hs) in Hf.
  exists record. split; [exact Hrec|]. split; [exact Hf|].
  rewrite Hf. intros [= H]. now apply quoted_differs in H.
Qed.

Lemma geolocation_region_name_quoted_witness :
  exists record,
    IPGeoLocation._decoded_json (JObj sample_geo) = Returned (JObj record)
    /\ dict_get "region_name" record
       = Some (JStr (String dquote ("Virginia" ++ str1 dquote))).
Proof.
  destruct (geolocation_region_name_quoted sample_geo "Virginia"
              eq_refl eq_refl eq_refl) as (record & Hrec & Hf & _).
  exists record. split; [exact Hrec|exact Hf].
Defined.

(** ** The AS number of the geolocation Record *)

Lemma split_space_first_app s t :
  split_space_first (s ++ t) =
    if contains_char " " s then split_space_first s
    else (s ++ split_space_first t)%string.
Proof.
  induction s as [|c s IH]; simpl; [reflexivity|].
  destruct (Ascii.eqb c " "); simpl; [reflexivity|].
  rewrite IH. now destruct (contains_char " " s).
Qed.

Lemma split_space_first_none s :
  contains_char " " s = false -> split_space_first s = s.
Proof.
  induction s as [|c s IH]; simpl; [reflexivity|].
  destruct (Ascii.eqb c " "); simpl; [discriminate|].
  intros H. now rewrite IH.
Qed.

Lemma all_chars_split_space_first p s :
  all_chars p s = true -> all_chars p (split_space_first s) = true.
Proof.
  induction s as [|c s IH]; simpl; [reflexivity|].
  rewrite andb_true_iff. intros [Hc Hs].
  destruct (Ascii.eqb c " "); simpl; [reflexivity|].
  now rewrite Hc, IH.
Qed.

Lemma strip_quotes_opened t :
  all_chars not_dquote t = true -> strip_quotes (String dquote t) = t.
Proof.
  intros Ht. unfold strip_quotes, strip.
  rewrite lstrip_dropped by reflexivity.
  rewrite lstrip_kept by exact Ht. now apply rstrip_kept.
Qed.

(** The first word of a quoted string of plain characters. *)
Lemma as_number_plain s :
  all_chars is_plain s = true ->
  strip_quotes (split_space_first (json_dumps (JStr s))) = split_space_first s.
Proof.
  intros Hs.
  assert (Hq : all_chars not_dquote s = true)
    by (apply (all_chars_weaken is_plain); [apply is_plain_not_dquote|exact Hs]).
  rewrite (json_dumps_plain s Hs).
  change (split_space_first (String dquote (s ++ str1 dquote)))
    with (String dquote (split_space_first (s ++ str1 dquote))).
  rewrite split_space_first_app.
  destruct (contains_char " " s) eqn:E.
  - apply strip_quotes_opened. now apply all_chars_split_space_first.
  - rewrite (split_space_first_none s E).
    change (split_space_first (str1 dquote)) with (str1 dquote).
    now apply strip_quotes_quoted.
Qed.

(** X4: when [as] is a string of plain characters, [as_number] is its
    text before the first space: the whole string when it has no space,
    the empty string when it begins with one. *)
Theorem geolocation_as_number (fields : list (string * json)) (s : string) :
  geo_complete (JObj fields) = true ->
  dict_get "as" fields = Some (JStr s) ->
  all_chars is_plain s = true ->
  exists record,
    IPGeoLocation._decoded_json (JObj fields) = Returned (JObj record)
    /\ dict_get "as_number" record = Some (JStr (split_space_first s))
    /\ contains_char " " (split_space_first s) = false
    /\ (contains_char " " s = false -> split_space_first s = s).
Proof.
  intros Hc Hv Hs.
  destruct (geo_unstripped_fields fields Hc) as (record & Hrec & _ & Hf).
  unfold dict_value in Hf. rewrite Hv in Hf. simpl or_None in Hf.
  rewrite (as_number_plain s Hs) in Hf.
  exists record. split; [exact Hrec|]. split; [exact Hf|]. split.
  - clear. induction s as [|c s IH]; simpl; [reflexivity|].
    destruct (Ascii.eqb c " ") eqn:E; simpl; [reflexivity|].
    now rewrite E, IH.
  - apply split_space_first_none.
Qed.

Lemma geolocation_as_number_witness :
  exists record,
    IPGeoLocation._decoded_json (JObj sample_geo) = Returned (JObj record)
    /\ dict_get "as_number" record = Some (JStr "AS15169").
Proof.
  destruct (geolocation_as_number sample_geo "AS15169 Google LLC"
              eq_refl eq_refl eq_refl) as (record & Hrec & Hf & _).
  exists record. split; [exact Hrec|exact Hf].
Defined.

(** ** The Record of the reputation lookup, field by field *)

Section AbuseRecord.

Variables (d : json) (fields : list (string * json)) (score : Z).
Hypothesis Hdata : getitem d "data" = Returned (JObj fields).
Hypothesis Hkeys : forallb (has_key fields) abuse_keys = true.
Hypothesis Hscore : dict_get "abuseConfidenceScore" fields = Some (JInt score).

Lemma abuse_value k :
  In k abuse_keys -> dict_get k fields = Some (dict_value fields k).
Proof.
  intros Hin.
  destruct (forallb_has_key fields abuse_keys k Hkeys Hin) as [v Hv].
  unfold dict_value. now rewrite Hv.
Qed.

Lemma abuse_dumps_data k :
  In k abuse_keys ->
  IPReputation.dumps_data d k = Returned (json_dumps (dict_value fields k)).
Proof.
  intros Hin. unfold IPReputation.dumps_data. rewrite Hdata. simpl.
  now rewrite (abuse_value k Hin).
Qed.

(** The Record built from a body that has every key and an integer
    score. *)
Lemma abuse_decoded_record :
  IPReputation._decoded_json d =
    Returned
      (JObj
         [("ip_address",
           JStr (strip_quotes (json_dumps (dict_value fields "ipAddress"))));
          ("domain_name",
           JStr (strip_quotes (json_dumps (dict_value fields "domain"))));
          ("host_name", JStr (json_dumps (dict_value fields "hostnames")));
          ("usage_type",
           JStr (strip_quotes (json_dumps (dict_value fields "usageType"))));
          ("isp_name",
           JStr (strip_quotes (json_dumps (dict_value fields "isp"))));
          ("country_code",
           JStr (strip_quotes (json_dumps (dict_value fields "countryCode"))));
          ("confidence_of_abuse",
           JStr (strip_quotes
                   (json_dumps (dict_value fields "abuseConfidenceScore"))));
          ("level_of_abuse",
           IPReputation.str_or_None (IPReputation._determine_abuse_level score));
          ("white_listed",
           JStr (strip_quotes (json_dumps (dict_value fields "isWhitelisted"))));
          ("tor_node",
           JStr (strip_quotes (json_dumps (dict_value fields "isTor"))));
          ("number_of_times_reported",
           JStr (strip_quotes (json_dumps (dict_value fields "totalReports"))));
          ("date_last_reported",
           JStr (strip_quotes
                   (json_dumps (dict_value fields "lastReportedAt"))))]).
Proof.
  unfold IPReputation._decoded_json.
  rewrite !abuse_dumps_data by (simpl; tauto).
  unfold obind.
  assert (Hs : dict_value fields "abuseConfidenceScore" = JInt score)
    by (unfold dict_value; now rewrite Hscore).
  rewrite Hs at 1.
  change (json_dumps (JInt score)) with (int_repr score).
  now rewrite py_int_int_repr.
Qed.

Lemma abuse_stripped_field k o v :
  In (k, o) abuse_stripped ->
  dict_get k fields = Some v ->
  exists record,
    IPReputation._decoded_json d = Returned (JObj record)
    /\ dict_get o record = Some (JStr (strip_quotes (json_dumps v))).
Proof.
  intros Hin Hv. eexists. split; [apply abuse_decoded_record|].
  assert (Hval : dict_value fields k = v) by (unfold dict_value; now rewrite Hv).
  simpl in Hin.
  repeat (destruct Hin as [Hin|Hin];
          [injection Hin as <- <-; rewrite <- Hval; reflexivity|]).
  destruct Hin.
Qed.

Lemma abuse_other_fields :
  exists record,
    IPReputation._decoded_json d = Returned (JObj record)
    /\ dict_get "host_name" record
       = Some (JStr (json_dumps (dict_value fields "hostnames")))
    /\ dict_get "confidence_of_abuse" record = Some (JStr (int_repr score))
    /\ dict_get "level_of_abuse" record
       = Some (IPReputation.str_or_None
                 (IPReputation._determine_abuse_level score)).
Proof.
  eexists. split; [apply abuse_decoded_record|].
  split; [reflexivity|]. split; [|reflexivity].
  change (dict_get "confidence_of_abuse" _)
    with (Some (JStr (strip_quotes
                        (json_dumps (dict_value fields "abuseConfidenceScore"))))).
  unfold dict_value. rewrite Hscore. simpl or_None.
  now rewrite strip_quotes_number.
Qed.

End AbuseRecord.

(** X5: in the Record of a reputation body that has every key and an
    integer score, each field that is stripped holds a string of plain
    characters as it was in the response and the JSON text of a value
    that is not a string ([null], [true], a number); [host_name] holds
    the JSON text of the list of host names. *)
Theorem reputation_record_fields (d : json) (fields : list (string * json))
    (score : Z) :
  getitem d "data" = Returned (JObj fields) ->
  forallb (has_key fields) abuse_keys = true ->
  dict_get "abuseConfidenceScore" fields = Some (JInt score) ->
  exists record,
    IPReputation._decoded_json d = Returned (JObj record)
    /\ (forall k o s,
          In (k, o) abuse_stripped ->
          dict_get k fields = Some (JStr s) ->
          all_chars is_plain s = true ->
          dict_get o record = Some (JStr s))
    /\ (forall k o v,
          In (k, o) abuse_stripped ->
          dict_get k fields = Some v ->
          is_str v = false ->
          dict_get o record = Some (JStr (json_dumps v)))
    /\ (forall hostnames,
          dict_get "hostnames" fields = Some hostnames ->
          dict_get "host_name" record = Some (JStr (json_dumps hostnames))).
Proof.
  intros Hd Hk Hsc. eexists.
  split; [apply (abuse_decoded_record d fields score Hd Hk Hsc)|].
  split; [|split].
  - intros k o s Hin Hv Hs.
    destruct (abuse_stripped_field d fields score Hd Hk Hsc k o _ Hin Hv)
      as (rec & Hrec & Hf).
    rewrite (abuse_decoded_record d fields score Hd Hk Hsc) in Hrec.
    injection Hrec as <-. now rewrite Hf, strip_quotes_plain.
  - intros k o v Hin Hv Hs.
    destruct (abuse_stripped_field d fields score Hd Hk Hsc k o _ Hin Hv)
      as (rec & Hrec & Hf).
    rewrite (abuse_decoded_record d fields score Hd Hk Hsc) in Hrec.
    injection Hrec as <-. now rewrite Hf, strip_quotes_non_string.
  - intros hostnames Hh.
    change (Some (JStr (json_dumps (dict_value fields "hostnames")))
            = Some (JStr (json_dumps hostnames))).
    unfold dict_value. now rewrite Hh.
Qed.

Lemma reputation_record_fields_witness :
  exists record,
    IPReputation._decoded_json (sample_abuse "198.51.100.1" 50)
      = Returned (JObj record)
    /\ dict_get "ip_address" record = Some (JStr "198.51.100.1")
    /\ dict_get "white_listed" record = Some (JStr "false")
    /\ dict_get "host_name" record
       = Some (JStr (json_dumps (JArr [JStr "host.example.net"]))).
Proof.
  destruct (reputation_record_fields (sample_abuse "198.51.100.1" 50) _ 50
              eq_refl eq_refl eq_refl)
    as (record & Hrec & Hplain & Hother & Hhost).
  exists record. split; [exact Hrec|]. split; [|split].
  - apply (Hplain "ipAddress"); [simpl; tauto|reflexivity|reflexivity].
  - apply (Hother "isWhitelisted" "white_listed" (JBool false));
      [simpl; tauto|reflexivity|reflexivity].
  - apply Hhost. reflexivity.
Defined.

(** X6: for an integer confidence score the Record holds its decimal
    text under [confidence_of_abuse] and the label of its band under
    [level_of_abuse]: a string for the scores from 0 to 100, [None] for
    any other score. *)
Theorem reputation_level_of_abuse (d : json) (fields : list (string * json))
    (score : Z) :
  getitem d "data" = Returned (JObj fields) ->
  forallb (has_key fields) abuse_keys = true ->
  dict_get "abuseConfidenceScore" fields = Some (JInt score) ->
  exists record,
    IPReputation._decoded_json d = Returned (JObj record)
    /\ dict_get "confidence_of_abuse" record = Some (JStr (int_repr score))
    /\ dict_get "level_of_abuse" record
       = Some (IPReputation.str_or_None
                 (IPReputation._determine_abuse_level score))
    /\ (0 <= score <= 100 ->
        exists label, dict_get "level_of_abuse" record = Some (JStr label))
    /\ (score < 0 \/ 100 < score ->
        dict_get "level_of_abuse" record = Some JNull).
Proof.
  intros Hd Hk Hsc.
  destruct (abuse_other_fields d fields score Hd Hk Hsc)
    as (record & Hrec & _ & Hconf & Hlevel).
  exists record. split; [exact Hrec|]. split; [exact Hconf|].
  split; [exact Hlevel|]. split.
  - intros Hrange. rewrite Hlevel.
    destruct (IPReputation._determine_abuse_level score) as [label|] eqn:E.
    + now exists label.
    + apply determine_abuse_level_none in E. lia.
  - intros Hout. rewrite Hlevel.
    now rewrite (proj2 (determine_abuse_level_none score) Hout).
Qed.

Lemma reputation_level_of_abuse_witness :
  exists record,
    IPReputation._decoded_json (sample_abuse "198.51.100.1" 100)
      = Returned (JObj record)
    /\ dict_get "confidence_of_abuse" record = Some (JStr "100")
    /\ dict_get "level_of_abuse" record
       = Some (JStr "is malicious and warrants additional investigation").
Proof.
  destruct (reputation_level_of_abuse (sample_abuse "198.51.100.1" 100) _ 100
              eq_refl eq_refl eq_refl)
    as (record & Hrec & Hconf & Hlevel & _).
  exists record. split; [exact Hrec|]. split; [exact Hconf|exact Hlevel].
Defined.

(** ** A confidence score that is not an integer *)

Section NotAnInteger.

Lemma int_digits_bad : forall s b,
  all_chars digit_or_underscore s = false -> int_digits b s = None.
Proof.
  induction s as [|c s IH]; intros b; simpl; [discriminate|].
  unfold digit_or_underscore at 1.
  destruct (is_digit c) eqn:Ed; simpl.
  - intros H. now rewrite (IH true H).
  - destruct (Ascii.eqb c "_"); simpl; [|reflexivity].
    intros H. destruct b; [now apply IH|reflexivity].
Qed.

Lemma unsigned_of_text_bad s :
  all_chars digit_or_underscore s = false ->
  unsigned_of_text s = Raised ValueError.
Proof. intros H. unfold unsigned_of_text. now rewrite (int_digits_bad s false H). Qed.

(** Text whose first character is no space, no sign and no digit is not
    an integer. *)
Lemma py_int_bad_first c r :
  is_space c = false -> is_digit c = false ->
  Ascii.eqb c "-" = false -> Ascii.eqb c "+" = false ->
  Ascii.eqb c "_" = false ->
  py_int (String c r) = Raised ValueError.
Proof.
  intros Hsp Hd Hm Hp Hu. unfold py_int.
  destruct (strip_first is_space c r Hsp) as [r' ->].
  rewrite Hm, Hp. unfold unsigned_of_text. simpl. now rewrite Hd, Hu.
Qed.

(** Text without spaces that has, after its first character, a
    character that is neither a digit nor an underscore is not an
    integer. *)
Lemma py_int_bad_tail c r :
  all_chars (fun a => negb (is_space a)) (String c r) = true ->
  all_chars digit_or_underscore r = false ->
  py_int (String c r) = Raised ValueError.
Proof.
  intros Hsp Hbad. unfold py_int. rewrite (strip_kept _ _ Hsp).
  destruct (Ascii.eqb c "-").
  - now rewrite (unsigned_of_text_bad r Hbad).
  - destruct (Ascii.eqb c "+"); apply unsigned_of_text_bad; [exact Hbad|].
    simpl. rewrite Hbad. apply andb_false_r.
Qed.

Lemma finite_repr_chars (p : ascii -> bool) s d e :
  (forall c, is_digit c = true -> p c = true) ->
  p "."%char = true -> p "e"%char = true ->
  p "+"%char = true -> p "-"%char = true ->
  all_chars p (finite_repr s d e) = true.
Proof.
  intros Hdig Hdot He Hplus Hminus.
  assert (Hu : forall u, all_chars p (NilZero.string_of_uint u) = true)
    by (intros u; apply (all_chars_weaken is_digit), digits_of_uint_nz; exact Hdig).
  assert (H0 : p "0"%char = true) by (apply Hdig; reflexivity).
  assert (Hex : forall x, all_chars p (exponent_text x) = true).
  { intros x. unfold exponent_text. rewrite all_chars_app.
    destruct (x <? 0); simpl;
      destruct (String.length _ <? 2)%nat; simpl;
      now rewrite ?Hminus, ?Hplus, ?H0, ?Hu. }
  unfold finite_repr. rewrite all_chars_app.
  apply andb_true_iff; split; [destruct s; simpl; now rewrite ?Hminus|].
  destruct d as [|q]; [simpl; now rewrite H0, Hdot|].
  set (ds := NilZero.string_of_uint (N.to_uint (N.pos q))) in *.
  assert (Hds : all_chars p ds = true) by apply Hu.
  destruct ((e <=? -4) || (16 <? e)).
  - rewrite !all_chars_app, all_chars_substring by exact Hds.
    rewrite Hex. simpl. rewrite He. simpl.
    destruct (1 <? _); simpl; [|reflexivity].
    unfold substring_from. now rewrite Hdot, all_chars_substring.
  - destruct (e <=? 0).
    + simpl. rewrite H0, Hdot. simpl.
      rewrite all_chars_app, Hds, all_chars_zeros; [reflexivity|exact H0].
    + destruct (e <? _).
      * rewrite !all_chars_app, all_chars_substring by exact Hds.
        unfold substring_from. simpl.
        now rewrite Hdot, all_chars_substring.
      * rewrite !all_chars_app, Hds, all_chars_zeros by exact H0.
        simpl. now rewrite Hdot, H0.
Qed.

Lemma all_chars_false_app_r p s t :
  all_chars p t = false -> all_chars p (s ++ t) = false.
Proof. intros H. rewrite all_chars_app, H. apply andb_false_r. Qed.

Lemma string_of_uint_nonempty u :
  exists c r, NilZero.string_of_uint u = String c r.
Proof. destruct u; simpl; eauto. Qed.

Lemma tail_after_sign (negative : bool) (body : string) :
  (exists c r, body = String c r /\ all_chars digit_or_underscore r = false) ->
  exists c r,
    ((if negative then "-" else EmptyString) ++ body)%string = String c r
    /\ all_chars digit_or_underscore r = false.
Proof.
  intros (c & r & -> & Hr). destruct negative.
  - exists "-"%char, (String c r). split; [reflexivity|].
    simpl. rewrite Hr. apply andb_false_r.
  - now exists c, r.
Qed.

(** The text of a finite float, after its first character, has a point
    or an exponent mark. *)
Lemma finite_repr_tail s d e :
  exists c r, finite_repr s d e = String c r
              /\ all_chars digit_or_underscore r = false.
Proof.
  unfold finite_repr. cbv zeta. apply tail_after_sign.
  destruct d as [|q]; [eexists; eexists; split; reflexivity|].
  destruct (string_of_uint_nonempty (N.to_uint (N.pos q))) as (c & r & ->).
  destruct ((e <=? -4) || (16 <? e)).
  - exists c. eexists. split.
    + change (substring 0 1 (String c r)) with (String c (substring 0 0 r)).
      rewrite append_String. reflexivity.
    + apply all_chars_false_app_r, all_chars_false_app_r. reflexivity.
  - destruct (Z.leb_spec e 0).
    + eexists; eexists; split; reflexivity.
    + destruct (e <? _).
      * destruct (Z.to_nat e) as [|k] eqn:Ek; [lia|].
        exists c. eexists. split.
        -- change (substring 0 (S k) (String c r))
             with (String c (substring 0 k r)).
           rewrite append_String. reflexivity.
        -- apply all_chars_false_app_r. reflexivity.
      * exists c. eexists. split; [rewrite append_String; reflexivity|].
        apply all_chars_false_app_r, all_chars_false_app_r. reflexivity.
Qed.

(** [int] rejects the text that [json.dumps] prints for any value but
    an [int]. *)
Lemma py_int_not_int v :
  is_int v = false -> py_int (json_dumps v) = Raised ValueError.
Proof.
  destruct v as [|[|]|z|f|s|items|fields]; intros H; try discriminate H;
    try reflexivity.
  - destruct f as [|[|]|s d e]; try reflexivity.
    simpl json_dumps. unfold float_json.
    destruct (finite_repr_tail s d e) as (c & r & Heq & Hr).
    pose proof (finite_repr_chars (fun a => negb (is_space a)) s d e) as Hsp.
    rewrite Heq in *. apply py_int_bad_tail; [|exact Hr].
    apply Hsp; try reflexivity. apply is_digit_not_space.
  - simpl json_dumps. unfold encode_basestring_ascii. rewrite append_String.
    apply py_int_bad_first; reflexivity.
  - simpl json_dumps. apply py_int_bad_first; reflexivity.
  - simpl json_dumps. apply py_int_bad_first; reflexivity.
Qed.

End NotAnInteger.

(** X7: when the confidence score of the response is anything but an
    integer (a float such as 50.0, a string, [null]), the extraction
    raises [ValueError], and so does the scalar lookup whose fetch
    returned the response. *)
Theorem reputation_score_not_int (d : json) (fields : list (string * json))
    (v : json) :
  getitem d "data" = Returned (JObj fields) ->
  forallb (has_key fields) abuse_keys_before_score = true ->
  dict_get "abuseConfidenceScore" fields = Some v ->
  is_int v = false ->
  IPReputation._decoded_json d = Raised ValueError
  /\ forall net id key w,
       net (requests_sent w) (abuse_request id key) = ok d ->
       IPReputation.query_abuse_database net (LStr id) key w
         = (Raised ValueError, sent w).
Proof.
  intros Hd Hk Hv Hint.
  assert (Hdec : IPReputation._decoded_json d = Raised ValueError).
  { assert (Hval : forall k, In k abuse_keys_before_score ->
                     exists x, dict_get k fields = Some x)
      by (intros k; apply forallb_has_key, Hk).
    destruct (Hval "ipAddress") as [v1 E1]; [simpl; tauto|].
    destruct (Hval "domain") as [v2 E2]; [simpl; tauto|].
    destruct (Hval "hostnames") as [v3 E3]; [simpl; tauto|].
    destruct (Hval "usageType") as [v4 E4]; [simpl; tauto|].
    destruct (Hval "isp") as [v5 E5]; [simpl; tauto|].
    destruct (Hval "countryCode") as [v6 E6]; [simpl; tauto|].
    unfold IPReputation._decoded_json.
    rewrite (ReputationMissing.abuse_dumps_data_present _ _ _ _ Hd E1),
      (ReputationMissing.abuse_dumps_data_present _ _ _ _ Hd E2),
      (ReputationMissing.abuse_dumps_data_present _ _ _ _ Hd E3),
      (ReputationMissing.abuse_dumps_data_present _ _ _ _ Hd E4),
      (ReputationMissing.abuse_dumps_data_present _ _ _ _ Hd E5),
      (ReputationMissing.abuse_dumps_data_present _ _ _ _ Hd E6),
      (ReputationMissing.abuse_dumps_data_present _ _ _ _ Hd Hv).
    unfold obind. now rewrite (py_int_not_int v Hint). }
  split; [exact Hdec|].
  intros net id key w Hnet.
  unfold IPReputation.query_abuse_database, bind.
  rewrite ReputationFacts.abuse_fetch_cases, Hnet. unfold ok. simpl.
  assert (Ht : truthy d = true).
  { destruct d as [| | | | | |[|kv l]]; try discriminate. reflexivity. }
  rewrite Ht. unfold lift. now rewrite Hdec.
Qed.

Lemma reputation_score_not_int_witness :
  IPReputation._decoded_json (abuse_with_score (JFloat (FDec false 5 2)))
    = Raised ValueError
  /\ IPReputation.query_abuse_database
       (net_ok_then_404 (abuse_with_score (JStr "50")))
       (LStr "198.51.100.1") "key" initial_world
     = (Raised ValueError, sent initial_world).
Proof.
  split.
  - apply (proj1 (reputation_score_not_int
                    (abuse_with_score (JFloat (FDec false 5 2))) _
                    (JFloat (FDec false 5 2)) eq_refl eq_refl eq_refl eq_refl)).
  - apply (proj2 (reputation_score_not_int
                    (abuse_with_score (JStr "50")) _ (JStr "50")
                    eq_refl eq_refl eq_refl eq_refl)).
    reflexivity.
Defined.

(** ** The registry lookup: what can end it *)

Lemma getpath_raises path : forall d e,
  getpath d path = Raised e -> e = KeyError \/ e = TypeError.
Proof.
  induction path as [|k rest IH]; intros d e; simpl; [discriminate|].
  destruct (getitem d k) as [x|c|e'] eqn:E; simpl.
  - apply IH.
  - discriminate.
  - intros [= <-]. now apply (getitem_raises d k).
Qed.

Lemma getpath_no_exit path : forall d c, getpath d path <> Exited c.
Proof.
  induction path as [|k rest IH]; intros d c; simpl; [discriminate|].
  destruct (getitem d k) as [x|c'|e'] eqn:E; simpl.
  - apply IH.
  - now apply getitem_no_exit in E.
  - discriminate.
Qed.

Lemma getpath_app p q : forall d,
  getpath d (p ++ q) = obind (getpath d p) (fun x => getpath x q).
Proof.
  induction p as [|k p IH]; intros d; simpl; [reflexivity|].
  destruct (getitem d k); simpl; [apply IH|reflexivity|reflexivity].
Qed.

Lemma same_store_refl w : same_store w w.
Proof. unfold same_store; auto. Qed.

Lemma same_store_log lines w : same_store w (log lines w).
Proof. unfold same_store; auto. Qed.

Lemma same_store_trans w1 w2 w3 :
  same_store w1 w2 -> same_store w2 w3 -> same_store w1 w3.
Proof.
  unfold same_store. intros (A1 & M1 & R1) (A2 & M2 & R2).
  rewrite A2, M2, R2. auto.
Qed.

Module ArinEnds.
Import ArinWhois.

Lemma arin_organization_ends : ends_well _get_registered_organization.
Proof.
  intros w. rewrite ArinFacts.arin_organization_spec.
  destruct (getpath (arin_data w) org_path) as [v|c|e] eqn:E.
  - eexists; eexists; split; [reflexivity|].
    split; [exact I|apply same_store_refl].
  - now apply getpath_no_exit in E.
  - destruct (getpath_raises _ _ _ E) as [ -> | -> ];
      eexists; eexists; (split; [reflexivity|]);
      (split; [simpl; auto|]); auto using same_store_refl, same_store_log.
Qed.

Lemma arin_pair_ends (p q : list string) (f : M json) (sentinel sep msg : string) :
  (forall w0, f w0 =
     match getpath (arin_data w0) p with
     | Returned a =>
         if truthy a then
           match getpath (arin_data w0) q with
           | Returned b => (Returned (JStr (py_str a ++ sep ++ py_str b)), w0)
           | Raised KeyError => (Returned JNull, log [red msg] w0)
           | Raised e => (Raised e, w0)
           | Exited c => (Exited c, w0)
           end
         else (Returned (JStr sentinel), w0)
     | Raised KeyError => (Returned JNull, log [red msg] w0)
     | Raised e => (Raised e, w0)
     | Exited c => (Exited c, w0)
     end) ->
  ends_well f.
Proof.
  intros Hf w. rewrite Hf.
  destruct (getpath (arin_data w) p) as [a|c|e] eqn:E.
  - destruct (truthy a).
    + destruct (getpath (arin_data w) q) as [b|c|e] eqn:E'.
      * eexists; eexists; split; [reflexivity|].
        split; [exact I|apply same_store_refl].
      * now apply getpath_no_exit in E'.
      * destruct (getpath_raises _ _ _ E') as [ -> | -> ];
          eexists; eexists; (split; [reflexivity|]);
          (split; [simpl; auto|]); auto using same_store_refl, same_store_log.
    + eexists; eexists; split; [reflexivity|].
      split; [exact I|apply same_store_refl].
  - now apply getpath_no_exit in E.
  - destruct (getpath_raises _ _ _ E) as [ -> | -> ];
      eexists; eexists; (split; [reflexivity|]);
      (split; [simpl; auto|]); auto using same_store_refl, same_store_log.
Qed.

Lemma arin_read_fields_ends item : ends_well (read_fields item).
Proof.
  intros w. unfold read_fields.
  destruct (arin_organization_ends w) as (o1 & w1 & E1 & T1 & S1).
  unfold bind at 1. rewrite E1.
  destruct o1 as [org|c|e]; [|destruct T1|eauto 6].
  destruct (arin_pair_ends _ _ _ _ _ _ ArinFacts.arin_network_range_spec w1)
    as (o2 & w2 & E2 & T2 & S2).
  unfold bind at 1. rewrite E2.
  assert (S12 : same_store w w2) by (eapply same_store_trans; eauto).
  destruct o2 as [range|c|e]; [|destruct T2|eauto 6].
  destruct (arin_pair_ends _ _ _ _ _ _ ArinFacts.arin_cidr_range_spec w2)
    as (o3 & w3 & E3 & T3 & S3).
  unfold bind at 1. rewrite E3.
  assert (S13 : same_store w w3) by (eapply same_store_trans; eauto).
  destruct o3 as [cidr|c|e]; [|destruct T3|eauto 6].
  eexists; eexists; split; [reflexivity|]. split; [exact I|exact S13].
Qed.

(** One turn of the lookup returns or raises [TypeError], after exactly
    one request. *)
Lemma arin_lookup_one_ends net item w :
  exists o w',
    lookup_one net item w = (o, w') /\ only_TypeError o
    /\ requests_sent w' = S (requests_sent w)
    /\ mac_data w' = mac_data w.
Proof.
  destruct (ArinTotal.arin_fetch_returns net item w) as (v & w1 & E1 & R1 & D1).
  assert (M1 : mac_data w1 = mac_data w).
  { rewrite ArinFacts.arin_fetch_cases in E1.
    destruct (net _ _) as [[code [d|m]]|kind m]; simpl in E1;
      try destruct (code =? 200); injection E1 as _ <-; reflexivity. }
  destruct (arin_read_fields_ends item w1) as (o & w2 & E2 & T2 & (_ & M2 & R2)).
  exists o, w2. unfold lookup_one, bind. rewrite E1, E2.
  repeat split; [exact T2|now rewrite R2|now rewrite M2].
Qed.

Lemma arin_query_loop_ends net : forall items acc w,
  exists o w',
    query_loop net items acc w = (o, w') /\ only_TypeError o
    /\ (forall v, o = Returned v ->
          requests_sent w' = (requests_sent w + List.length items)%nat)
    /\ mac_data w' = mac_data w.
Proof.
  induction items as [|item rest IH]; intros acc w.
  - exists (Returned (JArr acc)), w. simpl. repeat split; auto.
  - destruct (arin_lookup_one_ends net item w) as (o1 & w1 & E1 & T1 & R1 & M1).
    simpl. unfold bind at 1. rewrite E1.
    destruct o1 as [data|c|e]; [|destruct T1|].
    + destruct (IH (acc ++ [data])%list w1) as (o & w2 & E2 & T2 & R2 & M2).
      exists o, w2. repeat split; [exact E2|exact T2| |now rewrite M2].
      intros v Hv. rewrite (R2 v Hv), R1. lia.
    + exists (Raised e), w1. repeat split; [exact T1|discriminate|exact M1].
Qed.

End ArinEnds.




(** X10: when the response has a list under [netBlock] (a network of
    several blocks) and a readable organization, the scalar lookup
    raises [TypeError]: the subscript of the list is not caught by
    [except KeyError]. *)
Theorem registry_netblock_list (net : network) (id : string) (w : world)
    (d : json) (blocks : list json) :
  net (requests_sent w) (arin_request id) = ok d ->
  dicts_along d ArinWhois.org_path = true ->
  getpath d netblock_path = Returned (JArr blocks) ->
  exists w',
    ArinWhois.query_whois net (LStr id) w = (Raised TypeError, w')
    /\ arin_data w' = d.
Proof.
  intros Hnet Horg Hblocks.
  unfold ArinWhois.query_whois, ArinWhois.lookup_one, bind.
  rewrite (ArinTotal.arin_fetch_ok _ _ _ _ Hnet).
  unfold ArinWhois.read_fields, bind.
  destruct (ArinTotal.arin_organization_value (with_arin_data d (sent w)) Horg)
    as (w1 & E1 & D1).
  rewrite E1. rewrite ArinFacts.arin_network_range_spec, D1.
  change (arin_data (with_arin_data d (sent w))) with d.
  change ArinWhois.start_path with (netblock_path ++ ["startAddress"; "$"])%list.
  rewrite getpath_app, Hblocks. simpl.
  exists w1. split; [reflexivity|exact D1].
Qed.

Lemma registry_netblock_list_witness :
  exists w',
    ArinWhois.query_whois (net_ok_then_404 arin_two_blocks) (LStr "192.0.2.7")
      initial_world
    = (Raised TypeError, w').
Proof.
  destruct (registry_netblock_list (net_ok_then_404 arin_two_blocks)
              "192.0.2.7" initial_world arin_two_blocks _
              eq_refl eq_refl eq_refl) as (w' & E & _).
  now exists w'.
Defined.

(** ** What the fetches do with a status and a body *)

(** X11: a vendor fetch that is answered 400, 401 or 429 prints its line
    and exits with status 1; the scalar lookup and the loop of a list
    lookup end there, and no list is returned. *)
Theorem vendor_fatal_status (net : network) (id : string) (w : world)
    (r : response) :
  net (requests_sent w) (mac_request id) = Answer r ->
  status_code r = 400 \/ status_code r = 401 \/ status_code r = 429 ->
  let w' := log [red (vendor_fatal_line (status_code r))] (sent w) in
  MacAddressLookup._get_json_data net id w = (Exited 1, w')
  /\ MacAddressLookup.lookup_address_information net (LStr id) w = (Exited 1, w')
  /\ forall rest data_elements,
       MacAddressLookup.query_loop net (id :: rest) data_elements w
       = (Exited 1, w').
Proof.
  intros Hnet Hcode w'.
  assert (Hfetch : MacAddressLookup._get_json_data net id w = (Exited 1, w')).
  { rewrite MacTotal.mac_fetch_cases, Hnet. subst w'.
    destruct Hcode as [ -> | [ -> | -> ] ]; reflexivity. }
  split; [exact Hfetch|]. split.
  - unfold MacAddressLookup.lookup_address_information,
      MacAddressLookup.lookup_one, bind. now rewrite Hfetch.
  - intros rest acc. simpl. unfold MacAddressLookup.lookup_one, bind.
    now rewrite Hfetch.
Qed.

Lemma vendor_fatal_status_witness :
  MacAddressLookup.lookup_address_information (net_status 429)
    (LList ["04:7b:cb:3b:75:94"; "04:7b:cb:64:94:a5"]) initial_world
  = (Exited 1,
     log [red "Too Many Requests with the Rate Limit period."]
         (sent initial_world)).
Proof.
  apply (vendor_fatal_status (net_status 429) "04:7b:cb:3b:75:94" initial_world
           (mk_response 429 (NotJSON "Expecting value: line 1 column 1 (char 0)"))
           eq_refl).
  right; right; reflexivity.
Defined.



(** X13: a status that no branch names gives [None] and prints
    nothing: for the reputation fetch a status other than 200, 401, 422
    and 429, for the geolocation fetch a status other than 200 (both
    with a JSON body), for the registry fetch a status other than 200,
    for the vendor fetch a status other than 200, 400, 401 and 429. *)
Theorem unnamed_status_no_data (net : network) (id key : string) (w : world)
    (r : response) :
  (net (requests_sent w) (abuse_request id key) = Answer r ->
   (exists d, text r = JSONText d) ->
   status_code r <> 200 -> status_code r <> 401 ->
   status_code r <> 422 -> status_code r <> 429 ->
   IPReputation._get_json_data net id key w = (Returned JNull, sent w))
  /\ (net (requests_sent w) (geo_request id) = Answer r ->
      (exists d, text r = JSONText d) ->
      status_code r <> 200 ->
      IPGeoLocation._get_json_data net id w = (Returned JNull, sent w))
  /\ (net (requests_sent w) (arin_request id) = Answer r ->
      status_code r <> 200 ->
      ArinWhois._get_whois_json net id w = (Returned JNull, sent w))
  /\ (net (requests_sent w) (mac_request id) = Answer r ->
      status_code r <> 200 -> status_code r <> 400 ->
      status_code r <> 401 -> status_code r <> 429 ->
      MacAddressLookup._get_json_data net id w = (Returned JNull, sent w)).
Proof.
  split; [|split; [|split]].
  - intros Hnet [d Hd] H200 H401 H422 H429.
    rewrite ReputationFacts.abuse_fetch_cases, Hnet, Hd.
    destruct (Z.eqb_spec (status_code r) 401); [contradiction|].
    destruct (Z.eqb_spec (status_code r) 422); [contradiction|].
    destruct (Z.eqb_spec (status_code r) 429); [contradiction|].
    now destruct (Z.eqb_spec (status_code r) 200).
  - intros Hnet [d Hd] H200.
    rewrite GeoFacts.geo_fetch_cases, Hnet, Hd.
    now destruct (Z.eqb_spec (status_code r) 200).
  - intros Hnet H200.
    rewrite ArinFacts.arin_fetch_cases, Hnet.
    now destruct (Z.eqb_spec (status_code r) 200).
  - intros Hnet H200 H400 H401 H429.
    rewrite MacTotal.mac_fetch_cases, Hnet.
    destruct (Z.eqb_spec (status_code r) 400); [contradiction|].
    destruct (Z.eqb_spec (status_code r) 401); [contradiction|].
    destruct (Z.eqb_spec (status_code r) 429); [contradiction|].
    now destruct (Z.eqb_spec (status_code r) 200).
Qed.

Lemma unnamed_status_no_data_witness :
  IPReputation._get_json_data (net_json 500 (JObj [])) "198.51.100.1" "key"
    initial_world = (Returned JNull, sent initial_world)
  /\ IPGeoLocation._get_json_data (net_json 500 (JObj [])) "8.8.8.8"
       initial_world = (Returned JNull, sent initial_world)
  /\ ArinWhois._get_whois_json (net_status 404) "192.0.2.7" initial_world
     = (Returned JNull, sent initial_world)
  /\ MacAddressLookup._get_json_data (net_status 404) "04:7b:cb:3b:75:94"
       initial_world = (Returned JNull, sent initial_world).
Proof.
  split; [|split; [|split]].
  - apply (proj1 (unnamed_status_no_data (net_json 500 (JObj []))
                    "198.51.100.1" "key" initial_world
                    (mk_response 500 (JSONText (JObj []))))); try reflexivity;
      try (simpl; discriminate).
    now exists (JObj []).
  - apply (proj1 (proj2 (unnamed_status_no_data (net_json 500 (JObj []))
                           "8.8.8.8" "key" initial_world
                           (mk_response 500 (JSONText (JObj []))))));
      try reflexivity; try (simpl; discriminate).
    now exists (JObj []).
  - apply (proj1 (proj2 (proj2 (unnamed_status_no_data (net_status 404)
                           "192.0.2.7" "key" initial_world
                           (mk_response 404 (NotJSON
                              "Expecting value: line 1 column 1 (char 0)"))))));
      try reflexivity; simpl; discriminate.
  - apply (proj2 (proj2 (proj2 (unnamed_status_no_data (net_status 404)
                           "04:7b:cb:3b:75:94" "key" initial_world
                           (mk_response 404 (NotJSON
                              "Expecting value: line 1 column 1 (char 0)"))))));
      try reflexivity; simpl; discriminate.
Defined.

(** X14: a reputation fetch that is answered 422 or 429 with a body that
    carries [errors[0].detail] prints the detail and returns [None]; a
    scalar lookup returns [None] and the loop of a list lookup goes on
    with the list built so far unchanged. *)
Theorem reputation_422_429_reported (net : network) (ip key : string)
    (w : world) (code : Z) (decoded : json) (msg : string) :
  net (requests_sent w) (abuse_request ip key)
    = Answer (mk_response code (JSONText decoded)) ->
  code = 422 \/ code = 429 ->
  IPReputation.error_detail decoded = Returned msg ->
  let w' := log [red msg] (sent w) in
  IPReputation._get_json_data net ip key w = (Returned JNull, w')
  /\ IPReputation.query_abuse_database net (LStr ip) key w = (Returned JNull, w')
  /\ forall rest data_elements,
       IPReputation.query_loop net key (ip :: rest) data_elements w
       = IPReputation.query_loop net key rest data_elements w'.
Proof.
  intros Hnet Hcode Hmsg w'.
  assert (Hfetch : IPReputation._get_json_data net ip key w = (Returned JNull, w'))
    by (apply (reputation_reported_status net ip key w code decoded msg); tauto).
  split; [exact Hfetch|]. split.
  - unfold IPReputation.query_abuse_database, bind. now rewrite Hfetch.
  - intros rest data_elements. simpl. unfold bind at 1. now rewrite Hfetch.
Qed.

Lemma reputation_422_429_reported_witness :
  IPReputation.query_abuse_database
    (net_json 422 (abuse_error "The ip address must be a valid IPv4 or IPv6 address." 422))
    (LStr "not-an-ip") "key" initial_world
  = (Returned JNull,
     log [red "The ip address must be a valid IPv4 or IPv6 address."]
         (sent initial_world)).
Proof.
  apply (reputation_422_429_reported
           (net_json 422 (abuse_error "The ip address must be a valid IPv4 or IPv6 address." 422))
           "not-an-ip" "key" initial_world 422
           (abuse_error "The ip address must be a valid IPv4 or IPv6 address." 422)
           "The ip address must be a valid IPv4 or IPv6 address.");
    [reflexivity|now left|reflexivity].
Defined.

(** X15: a reputation fetch that is answered 401, 422 or 429 with a JSON
    body that does not carry the detail raises the lookup error and
    prints nothing: [KeyError] when the body is a dict without [errors],
    [IndexError] when [errors] is an empty list. *)
Theorem reputation_error_body_without_detail (net : network) (ip key : string)
    (w : world) (code : Z) (fields : list (string * json)) :
  net (requests_sent w) (abuse_request ip key)
    = Answer (mk_response code (JSONText (JObj fields))) ->
  code = 401 \/ code = 422 \/ code = 429 ->
  (dict_get "errors" fields = None ->
   IPReputation._get_json_data net ip key w = (Raised KeyError, sent w))
  /\ (dict_get "errors" fields = Some (JArr []) ->
      IPReputation._get_json_data net ip key w = (Raised IndexError, sent w)).
Proof.
  intros Hnet Hcode.
  assert (Hcases : forall e,
            IPReputation.error_detail (JObj fields) = Raised e ->
            IPReputation._get_json_data net ip key w = (Raised e, sent w)).
  { intros e He. rewrite ReputationFacts.abuse_fetch_cases, Hnet.
    cbv [text status_code]. rewrite He.
    destruct Hcode as [ -> | [ -> | -> ] ]; reflexivity. }
  split; intros He; apply Hcases;
    unfold IPReputation.error_detail; simpl; now rewrite He.
Qed.

Lemma reputation_error_body_without_detail_witness :
  IPReputation._get_json_data
    (net_json 401 (JObj [("message", JStr "Unauthorized")]))
    "198.51.100.1" "key" initial_world
  = (Raised KeyError, sent initial_world)
  /\ IPReputation._get_json_data (net_json 429 (JObj [("errors", JArr [])]))
       "198.51.100.1" "key" initial_world
     = (Raised IndexError, sent initial_world).
Proof.
  split.
  - apply (proj1 (reputation_error_body_without_detail
                    (net_json 401 (JObj [("message", JStr "Unauthorized")]))
                    "198.51.100.1" "key" initial_world 401 _ eq_refl
                    (or_introl eq_refl))).
    reflexivity.
  - apply (proj2 (reputation_error_body_without_detail
                    (net_json 429 (JObj [("errors", JArr [])]))
                    "198.51.100.1" "key" initial_world 429 _ eq_refl
                    (or_intror (or_intror eq_refl)))).
    reflexivity.
Defined.

(** X16: a geolocation fetch that is answered 200 with a JSON dict
    raises [KeyError] when the dict has no [status], and returns [None]
    without a line on the console when [status] is neither [fail] nor
    [success]; a body that is no dict raises [TypeError]. *)
Theorem geolocation_status_field (net : network) (ip : string) (w : world)
    (d : json) :
  net (requests_sent w) (geo_request ip) = ok d ->
  (forall fields, d = JObj fields -> dict_get "status" fields = None ->
     IPGeoLocation._get_json_data net ip w = (Raised KeyError, sent w))
  /\ (forall fields s,
        d = JObj fields -> dict_get "status" fields = Some s ->
        IPGeoLocation.eq_str s "fail" = false ->
        IPGeoLocation.eq_str s "success" = false ->
        IPGeoLocation._get_json_data net ip w = (Returned JNull, sent w))
  /\ (is_dict d = false ->
      IPGeoLocation._get_json_data net ip w = (Raised TypeError, sent w)).
Proof.
  intros Hnet. split; [|split].
  - intros fields -> Hs. rewrite GeoFacts.geo_fetch_cases, Hnet.
    unfold ok. simpl. now rewrite Hs.
  - intros fields s -> Hs Hf Hok. rewrite GeoFacts.geo_fetch_cases, Hnet.
    unfold ok. simpl. now rewrite Hs, Hf, Hok.
  - intros Hd. rewrite GeoFacts.geo_fetch_cases, Hnet. unfold ok. simpl.
    destruct d; try reflexivity. discriminate Hd.
Qed.

Lemma geolocation_status_field_witness :
  IPGeoLocation._get_json_data (net_json 200 (JObj [("query", JStr "8.8.8.8")]))
    "8.8.8.8" initial_world
  = (Raised KeyError, sent initial_world)
  /\ IPGeoLocation._get_json_data
       (net_json 200 (JObj [("status", JStr "pending")])) "8.8.8.8"
       initial_world
     = (Returned JNull, sent initial_world)
  /\ IPGeoLocation._get_json_data (net_json 200 (JArr [])) "8.8.8.8"
       initial_world
     = (Raised TypeError, sent initial_world).
Proof.
  split; [|split].
  - apply (proj1 (geolocation_status_field
                    (net_json 200 (JObj [("query", JStr "8.8.8.8")]))
                    "8.8.8.8" initial_world _ eq_refl)
             [("query", JStr "8.8.8.8")]); reflexivity.
  - apply (proj1 (proj2 (geolocation_status_field
                           (net_json 200 (JObj [("status", JStr "pending")]))
                           "8.8.8.8" initial_world _ eq_refl))
             [("status", JStr "pending")] (JStr "pending")); reflexivity.
  - apply (proj2 (proj2 (geolocation_status_field (net_json 200 (JArr []))
                           "8.8.8.8" initial_world _ eq_refl))).
    reflexivity.
Defined.

(** ** Requests and state of the loops *)

Section GuardedLoopFrame.

Variable fetch : string -> M json.
Variable decode : json -> outcome json.
Variable loop : list string -> list json -> M json.

Hypothesis loop_nil : forall acc, loop [] acc = ret (JArr acc).
Hypothesis loop_cons : forall item rest acc,
  loop (item :: rest) acc =
    (data <- fetch item ;;
     if truthy data then
       record <- lift (decode data) ;; loop rest (acc ++ [record])
     else loop rest acc).

Hypothesis fetch_frame : forall item w o w1,
  fetch item w = (o, w1) ->
  arin_data w1 = arin_data w /\ mac_data w1 = mac_data w
  /\ requests_sent w1 = S (requests_sent w).

(** Whatever the end of the loop, the two [data] attributes are as they
    were; when the loop returns, one request was sent for each
    identifier. *)
Lemma guarded_loop_frame : forall items acc w o w',
  loop items acc w = (o, w') ->
  arin_data w' = arin_data w /\ mac_data w' = mac_data w
  /\ (forall v, o = Returned v ->
        requests_sent w' = (requests_sent w + List.length items)%nat).
Proof.
  induction items as [|item rest IH]; intros acc w o w' Hrun.
  - rewrite loop_nil in Hrun. injection Hrun as <- <-.
    repeat split. intros v _. simpl. lia.
  - rewrite loop_cons in Hrun. unfold bind at 1 in Hrun.
    destruct (fetch item w) as [[d|c|e] w1] eqn:Ef;
      destruct (fetch_frame _ _ _ _ Ef) as (A1 & M1 & R1).
    + assert (Hrest : exists acc', loop rest acc' w1 = (o, w')
                                   \/ (w' = w1 /\ forall v, o <> Returned v)).
      { destruct (truthy d).
        - unfold bind, lift in Hrun. destruct (decode d) as [r|c|e].
          + eexists; left; exact Hrun.
          + exists acc. right. injection Hrun as <- <-. split; [reflexivity|].
            intros v H; discriminate H.
          + exists acc. right. injection Hrun as <- <-. split; [reflexivity|].
            intros v H; discriminate H.
        - eexists; left; exact Hrun. }
      destruct Hrest as [acc' [Hrest|[-> Hno]]].
      * destruct (IH _ _ _ _ Hrest) as (A2 & M2 & R2).
        rewrite A2, M2. repeat split; try assumption.
        intros v Hv. rewrite (R2 v Hv), R1. simpl. lia.
      * repeat split; try assumption. intros v Hv. now apply Hno in Hv.
    + injection Hrun as <- <-. repeat split; try assumption.
      intros v H; discriminate H.
    + injection Hrun as <- <-. repeat split; try assumption.
      intros v H; discriminate H.
Qed.

End GuardedLoopFrame.

Lemma reputation_fetch_frame net key item w o w1 :
  IPReputation._get_json_data net item key w = (o, w1) ->
  arin_data w1 = arin_data w /\ mac_data w1 = mac_data w
  /\ requests_sent w1 = S (requests_sent w).
Proof.
  rewrite ReputationFacts.abuse_fetch_cases.
  destruct (net _ _) as [r|kind m].
  - destruct (text r) as [d|m]; [|intros [= <- <-]; auto].
    destruct (_ || _).
    + destruct (IPReputation.error_detail d); intros [= <- <-]; auto.
    + destruct (status_code r =? 200); intros [= <- <-]; auto.
  - destruct (is_ConnectionError kind); [intros [= <- <-]; auto|].
    destruct (is_Timeout kind); intros [= <- <-]; auto.
Qed.

Lemma geolocation_fetch_frame net item w o w1 :
  IPGeoLocation._get_json_data net item w = (o, w1) ->
  arin_data w1 = arin_data w /\ mac_data w1 = mac_data w
  /\ requests_sent w1 = S (requests_sent w).
Proof.
  rewrite GeoFacts.geo_fetch_cases.
  destruct (net _ _) as [r|kind m].
  - destruct (text r) as [d|m]; [|intros [= <- <-]; auto].
    destruct (status_code r =? 200); [|intros [= <- <-]; auto].
    destruct (getitem d "status") as [s|c|e]; try (intros [= <- <-]; auto).
    destruct (IPGeoLocation.eq_str s "fail"); [intros [= <- <-]; auto|].
    destruct (IPGeoLocation.eq_str s "success"); intros [= <- <-]; auto.
  - destruct (is_ConnectionError kind); [intros [= <- <-]; auto|].
    destruct (is_Timeout kind); intros [= <- <-]; auto.
Qed.

(** X17: the reputation and the geolocation lookup keep no state: they
    leave [ArinWhois.data] and [MacAddressLookup.data] as they were,
    however the lookup ends; and a list lookup that returns has sent
    exactly one request for each identifier of the list. *)
Theorem reputation_geolocation_stateless (net : network) (value : lookup_value)
    (key : string) (w : world) :
  (forall o w',
     IPReputation.query_abuse_database net value key w = (o, w') ->
     arin_data w' = arin_data w /\ mac_data w' = mac_data w
     /\ forall items v,
          value = LList items -> o = Returned v ->
          requests_sent w' = (requests_sent w + List.length items)%nat)
  /\ (forall o w',
        IPGeoLocation.query_geolocation_database net value w = (o, w') ->
        arin_data w' = arin_data w /\ mac_data w' = mac_data w
        /\ forall items v,
             value = LList items -> o = Returned v ->
             requests_sent w' = (requests_sent w + List.length items)%nat).
Proof.
  split; intros o w' Hrun.
  - destruct value as [s|items|].
    + unfold IPReputation.query_abuse_database, bind in Hrun.
      destruct (IPReputation._get_json_data net s key w) as [[d|c|e] w1] eqn:Ef;
        destruct (reputation_fetch_frame _ _ _ _ _ _ Ef) as (A1 & M1 & _);
        [destruct (truthy d)|..]; injection Hrun as _ <-;
        (split; [exact A1|split; [exact M1|intros items v H; discriminate H]]).
    + destruct (guarded_loop_frame
                  (fun item => IPReputation._get_json_data net item key)
                  IPReputation._decoded_json (IPReputation.query_loop net key)
                  (fun _ => eq_refl) (fun _ _ _ => eq_refl)
                  (fun item w0 o0 w1 => reputation_fetch_frame net key item w0 o0 w1)
                  items [] w o w' Hrun) as (A & Mm & R).
      split; [exact A|split; [exact Mm|]].
      intros items' v [= <-] Hv. now apply (R v).
    + injection Hrun as _ <-.
      split; [reflexivity|split; [reflexivity|intros items v H; discriminate H]].
  - destruct value as [s|items|].
    + unfold IPGeoLocation.query_geolocation_database, bind in Hrun.
      destruct (IPGeoLocation._get_json_data net s w) as [[d|c|e] w1] eqn:Ef;
        destruct (geolocation_fetch_frame _ _ _ _ _ Ef) as (A1 & M1 & _);
        [destruct (truthy d)|..]; injection Hrun as _ <-;
        (split; [exact A1|split; [exact M1|intros items v H; discriminate H]]).
    + destruct (guarded_loop_frame
                  (IPGeoLocation._get_json_data net)
                  IPGeoLocation._decoded_json (IPGeoLocation.query_loop net)
                  (fun _ => eq_refl) (fun _ _ _ => eq_refl)
                  (geolocation_fetch_frame net)
                  items [] w o w' Hrun) as (A & Mm & R).
      split; [exact A|split; [exact Mm|]].
      intros items' v [= <-] Hv. now apply (R v).
    + injection Hrun as _ <-.
      split; [reflexivity|split; [reflexivity|intros items v H; discriminate H]].
Qed.

Lemma reputation_geolocation_stateless_witness :
  requests_sent
    (snd (IPReputation.query_abuse_database net_401_then_ok
            (LList ["203.0.113.7"; "198.51.100.1"]) "key" initial_world))
  = 2%nat
  /\ arin_data
       (snd (IPGeoLocation.query_geolocation_database net_fail_then_ok
               (LStr "8.8.8.8") initial_world))
     = JObj [].
Proof.
  split.
  - destruct (proj1 (reputation_geolocation_stateless net_401_then_ok
                       (LList ["203.0.113.7"; "198.51.100.1"]) "key"
                       initial_world) _ _ eq_refl) as (_ & _ & R).
    exact (R _ _ eq_refl eq_refl).
  - destruct (proj2 (reputation_geolocation_stateless net_fail_then_ok
                       (LStr "8.8.8.8") "key" initial_world) _ _ eq_refl)
      as (A & _ & _).
    exact A.
Defined.

(** ** The vendor lookup: what can end it *)

Module MacEnds.
Import MacAddressLookup.

Lemma mac_not_dict_raises w :
  is_dict (mac_data w) = false ->
  _get_registered_organization w = (Raised TypeError, w)
  /\ _get_registered_organization_address w = (Raised TypeError, w)
  /\ _get_registered_organization_country w = (Raised TypeError, w).
Proof.
  intros Hd. MacFacts.mac_run.
  destruct (mac_data w); try discriminate Hd; repeat split; reflexivity.
Qed.

Lemma mac_organization_ends : ends_well _get_registered_organization.
Proof.
  intros w. destruct (mac_data w) as [| | | | | |fields] eqn:D;
    try (rewrite (proj1 (mac_not_dict_raises w
                           ltac:(rewrite D; reflexivity)));
         eexists; eexists; split; [reflexivity|];
         split; [reflexivity|apply same_store_refl]).
  rewrite (MacFacts.mac_organization_spec w fields D).
  destruct (dict_get "isRand" fields) as [[| [|] | | | | |]|];
    try destruct (dict_get "company" fields);
    eexists; eexists; (split; [reflexivity|]); (split; [exact I|]);
    auto using same_store_refl, same_store_log.
Qed.

Lemma mac_address_ends : ends_well _get_registered_organization_address.
Proof.
  intros w. destruct (mac_data w) as [| | | | | |fields] eqn:D;
    try (rewrite (proj1 (proj2 (mac_not_dict_raises w
                                  ltac:(rewrite D; reflexivity))));
         eexists; eexists; split; [reflexivity|];
         split; [reflexivity|apply same_store_refl]).
  rewrite (MacFacts.mac_address_spec w fields D).
  destruct (dict_get "address" fields);
    eexists; eexists; (split; [reflexivity|]); (split; [exact I|]);
    auto using same_store_refl, same_store_log.
Qed.

Lemma mac_country_ends : ends_well _get_registered_organization_country.
Proof.
  intros w. destruct (mac_data w) as [| | | | | |fields] eqn:D;
    try (rewrite (proj2 (proj2 (mac_not_dict_raises w
                                  ltac:(rewrite D; reflexivity))));
         eexists; eexists; split; [reflexivity|];
         split; [reflexivity|apply same_store_refl]).
  rewrite (MacFacts.mac_country_spec w fields D).
  destruct (dict_get "country" fields);
    eexists; eexists; (split; [reflexivity|]); (split; [exact I|]);
    auto using same_store_refl, same_store_log.
Qed.

Lemma mac_read_fields_ends item : ends_well (read_fields item).
Proof.
  intros w. unfold read_fields.
  destruct (mac_organization_ends w) as (o1 & w1 & E1 & T1 & S1).
  unfold bind at 1. rewrite E1.
  destruct o1 as [org|c|e]; [|destruct T1|eauto 6].
  destruct (mac_address_ends w1) as (o2 & w2 & E2 & T2 & S2).
  unfold bind at 1. rewrite E2.
  assert (S12 : same_store w w2) by (eapply same_store_trans; eauto).
  destruct o2 as [a|c|e]; [|destruct T2|eauto 6].
  destruct (mac_country_ends w2) as (o3 & w3 & E3 & T3 & S3).
  unfold bind at 1. rewrite E3.
  assert (S13 : same_store w w3) by (eapply same_store_trans; eauto).
  destruct o3 as [c0|c|e]; [|destruct T3|eauto 6].
  eexists; eexists; split; [reflexivity|]. split; [exact I|exact S13].
Qed.

Lemma mac_fetch_ends net item w :
  exists o w',
    _get_json_data net item w = (o, w') /\ vendor_end o
    /\ requests_sent w' = S (requests_sent w)
    /\ arin_data w' = arin_data w.
Proof.
  rewrite MacTotal.mac_fetch_cases.
  destruct (net _ _) as [r|kind m].
  - destruct (status_code r =? 400); [eexists; eexists; repeat split|].
    destruct (status_code r =? 401); [eexists; eexists; repeat split|].
    destruct (status_code r =? 429); [eexists; eexists; repeat split|].
    destruct (status_code r =? 200); [|eexists; eexists; repeat split].
    destruct (text r); eexists; eexists; repeat split.
  - eexists; eexists; repeat split.
Qed.

Lemma only_TypeError_vendor_end {A} (o : outcome A) :
  only_TypeError o -> vendor_end o.
Proof. destruct o as [a|c|e]; simpl; [auto|contradiction|now intros ->]. Qed.

Lemma mac_lookup_one_ends net item w :
  exists o w',
    lookup_one net item w = (o, w') /\ vendor_end o
    /\ requests_sent w' = S (requests_sent w)
    /\ arin_data w' = arin_data w.
Proof.
  destruct (mac_fetch_ends net item w) as (o1 & w1 & E1 & T1 & R1 & A1).
  unfold lookup_one, bind. rewrite E1.
  destruct o1 as [v|c|e]; [|eauto 8|eauto 8].
  destruct (mac_read_fields_ends item w1) as (o & w2 & E2 & T2 & (A2 & _ & R2)).
  exists o, w2. rewrite E2.
  repeat split; [now apply only_TypeError_vendor_end|now rewrite R2|now rewrite A2].
Qed.

Lemma mac_query_loop_ends net : forall items acc w,
  exists o w',
    query_loop net items acc w = (o, w') /\ vendor_end o
    /\ (forall v, o = Returned v ->
          requests_sent w' = (requests_sent w + List.length items)%nat)
    /\ arin_data w' = arin_data w.
Proof.
  induction items as [|item rest IH]; intros acc w.
  - exists (Returned (JArr acc)), w. simpl. repeat split; auto.
  - destruct (mac_lookup_one_ends net item w) as (o1 & w1 & E1 & T1 & R1 & A1).
    simpl. unfold bind at 1. rewrite E1.
    destruct o1 as [data|c|e].
    + destruct (IH (acc ++ [data])%list w1) as (o & w2 & E2 & T2 & R2 & A2).
      exists o, w2. repeat split; [exact E2|exact T2| |now rewrite A2].
      intros v Hv. rewrite (R2 v Hv), R1. lia.
    + exists (Exited c), w1. repeat split; [exact T1|discriminate|exact A1].
    + exists (Raised e), w1. repeat split; [exact T1|discriminate|exact A1].
Qed.

End MacEnds.



(** ** The command line *)

(** X19: the [arin] command passes its addresses as a list, also a
    single one: when the bodies are shaped, [main] returns, and the last
    line it has printed is the [repr] of a list with one Record for each
    address, in the order of the command line. *)
Theorem cli_arin_prints_list (net : network) (help_text : string)
    (ip_address : list string) (w : world) :
  (forall n req d, net n req = ok d -> arin_shaped d = true) ->
  arin_shaped (arin_data w) = true ->
  exists records w1,
    Cli.main net help_text (Cli.Arin ip_address) w
      = (Returned tt, log [(py_repr (JArr records), EmptyString)] w1)
    /\ map (dict_of_key "ip_address") records
       = map (fun item => Some (JStr item)) ip_address.
Proof.
  intros Hnet Hs.
  destruct (ArinTotal.arin_query_loop_returns net ip_address [] w Hnet Hs)
    as (records & w1 & E & Hk).
  exists records, w1. split; [|exact Hk].
  unfold Cli.main, Cli.run_arin_whois, ArinWhois.query_whois, bind.
  now rewrite E.
Qed.

Lemma cli_arin_prints_list_witness :
  exists records w1,
    Cli.main (net_ok_then_404
                (sample_arin "Example Org" "192.0.2.0" "192.0.2.255" "24"))
      "usage" (Cli.Arin ["192.0.2.7"]) initial_world
    = (Returned tt, log [(py_repr (JArr records), EmptyString)] w1)
    /\ map (dict_of_key "ip_address") records = [Some (JStr "192.0.2.7")].
Proof.
  apply (cli_arin_prints_list
           (net_ok_then_404
              (sample_arin "Example Org" "192.0.2.0" "192.0.2.255" "24"))
           "usage" ["192.0.2.7"] initial_world).
  - intros [|n] req d H; [injection H as <-; reflexivity|discriminate H].
  - reflexivity.
Defined.

(** X20: the [abuse] command prints the result of the lookup and then
    the API key, as it was given, on a line of its own; when the lookup
    ends the process, nothing is printed after it. *)
Theorem cli_abuse_prints_api_key (net : network) (help_text ip key : string)
    (w w1 : world) :
  (forall v,
     IPReputation.query_abuse_database net (LStr ip) key w = (Returned v, w1) ->
     Cli.main net help_text (Cli.Abuse ip key) w
       = (Returned tt,
          log [(key, EmptyString)] (log [(py_str v, EmptyString)] w1)))
  /\ (forall c,
        IPReputation.query_abuse_database net (LStr ip) key w = (Exited c, w1) ->
        Cli.main net help_text (Cli.Abuse ip key) w = (Exited c, w1))
  /\ (forall e,
        IPReputation.query_abuse_database net (LStr ip) key w = (Raised e, w1) ->
        Cli.main net help_text (Cli.Abuse ip key) w = (Raised e, w1)).
Proof.
  split; [|split]; intros x Hrun;
    unfold Cli.main, Cli.run_ip_reputation, bind; now rewrite Hrun.
Qed.

Lemma cli_abuse_prints_api_key_witness :
  Cli.main net_401_then_ok "usage" (Cli.Abuse "203.0.113.7" "secret-key")
    initial_world
  = (Returned tt,
     log [("secret-key", EmptyString)]
       (log [("None", EmptyString)]
          (log [red "Authentication failed."] (sent initial_world))))
  /\ Cli.main (net_timeout_then_ok JNull) "usage"
       (Cli.Abuse "203.0.113.7" "secret-key") initial_world
     = (Exited 1,
        log [red "A connection timeout has occurred."] (sent initial_world)).
Proof.
  split.
  - apply (proj1 (cli_abuse_prints_api_key net_401_then_ok "usage"
                    "203.0.113.7" "secret-key" initial_world
                    (log [red "Authentication failed."] (sent initial_world)))
             JNull).
    reflexivity.
  - apply (proj1 (proj2 (cli_abuse_prints_api_key (net_timeout_then_ok JNull)
                           "usage" "203.0.113.7" "secret-key" initial_world
                           (log [red "A connection timeout has occurred."]
                                (sent initial_world))))).
    reflexivity.
Defined.

(** X21: when the fetch of the [geo] command returns no data, [main]
    prints the line [None] and returns; with a complete body it prints
    the [repr] of the Record. *)
Theorem cli_geo_prints (net : network) (help_text ip : string) (w w1 : world)
    (d : json) :
  IPGeoLocation._get_json_data net ip w = (Returned d, w1) ->
  (truthy d = false ->
   Cli.main net help_text (Cli.Geo ip) w
     = (Returned tt, log [("None", EmptyString)] w1))
  /\ (truthy d = true -> geo_complete d = true ->
      exists record,
        IPGeoLocation._decoded_json d = Returned (JObj record)
        /\ Cli.main net help_text (Cli.Geo ip) w
           = (Returned tt, log [(py_repr (JObj record), EmptyString)] w1)).
Proof.
  intros Hf. split.
  - intros Ht. unfold Cli.main, Cli.run_ip_geolocation,
      IPGeoLocation.query_geolocation_database, bind.
    now rewrite Hf, Ht.
  - intros Ht Hc. destruct (geo_complete_decodes d Hc) as (record & Hd & _).
    exists record. split; [exact Hd|].
    unfold Cli.main, Cli.run_ip_geolocation,
      IPGeoLocation.query_geolocation_database, bind, lift.
    now rewrite Hf, Ht, Hd.
Qed.

Lemma cli_geo_prints_witness :
  Cli.main net_fail_then_ok "usage" (Cli.Geo "not-an-ip") initial_world
  = (Returned tt,
     log [("None", EmptyString)]
       (log [red "The query failed. Please review your input data for not-an-ip"]
            (sent initial_world)))
  /\ exists record,
       IPGeoLocation._decoded_json (JObj sample_geo) = Returned (JObj record)
       /\ Cli.main net_fail_then_ok "usage" (Cli.Geo "8.8.8.8")
            (sent initial_world)
          = (Returned tt,
             log [(py_repr (JObj record), EmptyString)]
                 (sent (sent initial_world))).
Proof.
  split.
  - apply (proj1 (cli_geo_prints net_fail_then_ok "usage" "not-an-ip"
                    initial_world _ JNull eq_refl)).
    reflexivity.
  - apply (proj2 (cli_geo_prints net_fail_then_ok "usage" "8.8.8.8"
                    (sent initial_world) _ (JObj sample_geo) eq_refl));
      reflexivity.
Defined.

(** ** Characters outside ASCII *)

Lemma escape_body_app s t :
  escape_body (s ++ t) = (escape_body s ++ escape_body t)%string.
Proof.
  induction s as [|c s IH]; simpl; [reflexivity|].
  now rewrite IH, append_assoc_str.
Qed.

Lemma escape_ascii_high c :
  (128 <=? nat_of_ascii c)%nat = true ->
  escape_ascii c = String backslash ("u00" ++ hex2 c)
  /\ all_chars not_dquote (escape_ascii c) = true.
Proof.
  destruct c as [[|] [|] [|] [|] [|] [|] [|] [|]]; vm_compute;
    (discriminate || (split; reflexivity)).
Qed.

(** A string of plain characters around one character of code 128 or
    more comes back with that character as a [\u00XX] escape. *)
Lemma strip_quotes_high a c b :
  all_chars is_plain a = true -> all_chars is_plain b = true ->
  (128 <=? nat_of_ascii c)%nat = true ->
  strip_quotes (json_dumps (JStr (a ++ String c b)))
  = (a ++ String backslash ("u00" ++ hex2 c) ++ b)%string.
Proof.
  intros Ha Hb Hc. destruct (escape_ascii_high c Hc) as [He Hq].
  simpl json_dumps. unfold encode_basestring_ascii.
  rewrite escape_body_app. simpl escape_body.
  rewrite (escape_body_plain a Ha), (escape_body_plain b Hb).
  rewrite append_String.
  assert (Hall : all_chars not_dquote (a ++ escape_ascii c ++ b) = true).
  { rewrite !all_chars_app, Hq.
    rewrite (all_chars_weaken is_plain not_dquote a is_plain_not_dquote Ha).
    now rewrite (all_chars_weaken is_plain not_dquote b is_plain_not_dquote Hb). }
  rewrite (strip_quotes_quoted _ Hall). now rewrite He.
Qed.

(** X22: a character outside ASCII does not reach the Record as it was:
    for a stripped field of the geolocation Record whose value is a
    string of plain characters around one character of code 128 or more,
    the Record holds the six characters of the escape [\u00XX] in its
    place. *)
Theorem geolocation_non_ascii_escaped (fields : list (string * json))
    (k o a b : string) (c : ascii) :
  geo_complete (JObj fields) = true ->
  In (k, o) geo_stripped ->
  dict_get k fields = Some (JStr (a ++ String c b)) ->
  all_chars is_plain a = true -> all_chars is_plain b = true ->
  (128 <=? nat_of_ascii c)%nat = true ->
  exists record,
    IPGeoLocation._decoded_json (JObj fields) = Returned (JObj record)
    /\ dict_get o record
       = Some (JStr (a ++ String backslash ("u00" ++ hex2 c) ++ b)).
Proof.
  intros Hc Hin Hv Ha Hb Hhigh.
  destruct (geo_stripped_field fields Hc k o _ Hin Hv) as (record & Hrec & Hf).
  exists record. split; [exact Hrec|].
  now rewrite Hf, strip_quotes_high.
Qed.

Lemma geolocation_non_ascii_escaped_witness :
  exists record,
    IPGeoLocation._decoded_json (JObj sample_geo_accent)
      = Returned (JObj record)
    /\ dict_get "city_name" record
       = Some (JStr ("S" ++ String backslash "u00e3o Paulo")).
Proof.
  apply (geolocation_non_ascii_escaped sample_geo_accent "city" "city_name"
           "S" "o Paulo" "227"%char); try reflexivity.
  simpl; tauto.
Defined.

(** ** A list in two parts *)

Section LoopAppend.

Variable net : network.

Lemma arin_query_loop_app : forall xs ys acc w,
  ArinWhois.query_loop net (xs ++ ys) acc w
  = match ArinWhois.query_loop net xs acc w with
    | (Returned (JArr first), w1) => ArinWhois.query_loop net ys first w1
    | end_of_first => end_of_first
    end.
Proof.
  induction xs as [|x xs IH]; intros ys acc w; [reflexivity|].
  simpl. unfold bind.
  destruct (ArinWhois.lookup_one net x w) as [[d|c|e] w1]; try reflexivity.
  apply IH.
Qed.

Lemma mac_query_loop_app : forall xs ys acc w,
  MacAddressLookup.query_loop net (xs ++ ys) acc w
  = match MacAddressLookup.query_loop net xs acc w with
    | (Returned (JArr first), w1) => MacAddressLookup.query_loop net ys first w1
    | end_of_first => end_of_first
    end.
Proof.
  induction xs as [|x xs IH]; intros ys acc w; [reflexivity|].
  simpl. unfold bind.
  destruct (MacAddressLookup.lookup_one net x w) as [[d|c|e] w1];
    try reflexivity.
  apply IH.
Qed.

Lemma abuse_query_loop_app key : forall xs ys acc w,
  IPReputation.query_loop net key (xs ++ ys) acc w
  = match IPReputation.query_loop net key xs acc w with
    | (Returned (JArr first), w1) => IPReputation.query_loop net key ys first w1
    | end_of_first => end_of_first
    end.
Proof.
  induction xs as [|x xs IH]; intros ys acc w; [reflexivity|].
  simpl. unfold bind.
  destruct (IPReputation._get_json_data net x key w) as [[d|c|e] w1];
    try reflexivity.
  destruct (truthy d); [|apply IH].
  unfold lift.
  destruct (IPReputation._decoded_json d) as [r|c|e]; try reflexivity.
  apply IH.
Qed.

Lemma geo_query_loop_app : forall xs ys acc w,
  IPGeoLocation.query_loop net (xs ++ ys) acc w
  = match IPGeoLocation.query_loop net xs acc w with
    | (Returned (JArr first), w1) => IPGeoLocation.query_loop net ys first w1
    | end_of_first => end_of_first
    end.
Proof.
  induction xs as [|x xs IH]; intros ys acc w; [reflexivity|].
  simpl. unfold bind.
  destruct (IPGeoLocation._get_json_data net x w) as [[d|c|e] w1];
    try reflexivity.
  destruct (truthy d); [|apply IH].
  unfold lift.
  destruct (IPGeoLocation._decoded_json d) as [r|c|e]; try reflexivity.
  apply IH.
Qed.

End LoopAppend.

(** X23: a list lookup over a list in two parts is the lookup over the
    first part followed, when that returns, by the lookup over the
    second part, which starts from the list of Records and the world
    that the first part left (for the registry and the vendor with the
    [data] of the last fetch); when the first part ends the process, so
    does the whole. *)
Theorem list_lookup_in_two_parts (net : network) (key : string)
    (xs ys : list string) (w : world) :
  ArinWhois.query_whois net (LList (xs ++ ys)) w
  = match ArinWhois.query_whois net (LList xs) w with
    | (Returned (JArr first), w1) => ArinWhois.query_loop net ys first w1
    | end_of_first => end_of_first
    end
  /\ MacAddressLookup.lookup_address_information net (LList (xs ++ ys)) w
     = match MacAddressLookup.lookup_address_information net (LList xs) w with
       | (Returned (JArr first), w1) =>
           MacAddressLookup.query_loop net ys first w1
       | end_of_first => end_of_first
       end
  /\ IPReputation.query_abuse_database net (LList (xs ++ ys)) key w
     = match IPReputation.query_abuse_database net (LList xs) key w with
       | (Returned (JArr first), w1) =>
           IPReputation.query_loop net key ys first w1
       | end_of_first => end_of_first
       end
  /\ IPGeoLocation.query_geolocation_database net (LList (xs ++ ys)) w
     = match IPGeoLocation.query_geolocation_database net (LList xs) w with
       | (Returned (JArr first), w1) => IPGeoLocation.query_loop net ys first w1
       | end_of_first => end_of_first
       end.
Proof.
  split; [|split; [|split]].
  - apply arin_query_loop_app.
  - apply mac_query_loop_app.
  - apply abuse_query_loop_app.
  - apply geo_query_loop_app.
Qed.
